(** * Dimensional modelling and pipeline-graph builders of azure-mcp-server

    A shallow embedding of the schema synthesis code
    ([DimensionalModelingTools]), of the pipeline orchestration code
    ([FabricPipelineOrchestrator]) and of the warehouse generators
    ([DataWarehouseManagement]), followed by the properties proved about
    them.

    Conventions of the embedding:
    - a TypeScript interface becomes a module holding a record [t] whose
      fields keep the source's names; an optional field [f?: T] has type
      [option T], and [None] stands for [undefined];
    - a JavaScript string is a [string]; the embedding covers strings of
      ASCII code units, on which [toLowerCase] only touches [A]-[Z];
    - a template literal is a chain of [++]; [LF] is the escape [\n];
    - an array is a [list]; [push] appends at the end;
    - code that reads the clock or talks to the Fabric service lives in the
      monad [M] over an explicit [World]. *)

From Stdlib Require Import String Ascii List Bool Arith ZArith Lia.
From Stdlib Require Import DecimalString Relation_Operators.
Import ListNotations.
Open Scope list_scope.
Open Scope string_scope.

(* ================================================================== *)
(** * JavaScript primitives used by the source *)

Module JS.

Definition LF : string := String (ascii_of_nat 10) EmptyString.
Definition DQ : string := String (ascii_of_nat 34) EmptyString.

(** [String(n)] for a non-negative integer. *)
Definition string_of_nat (n : nat) : string :=
  NilEmpty.string_of_uint (Nat.to_uint n).

(** [String(z)] for an integer. *)
Definition string_of_Z (z : Z) : string :=
  NilEmpty.string_of_int (Z.to_int z).

(** [`${x}`] for a possibly undefined string. *)
Definition tpl (o : option string) : string :=
  match o with
  | Some s => s
  | None => "undefined"
  end.

(** Truthiness of a possibly undefined string / boolean. *)
Definition truthy_str (o : option string) : bool :=
  match o with
  | Some s => negb (s =? EmptyString)
  | None => false
  end.

Definition truthy_bool (o : option bool) : bool :=
  match o with
  | Some b => b
  | None => false
  end.

(** Destructuring default [{ f = d } = options]. *)
Definition dflt {A : Type} (d : A) (o : option A) : A :=
  match o with
  | Some a => a
  | None => d
  end.

Definition lower_ascii (c : ascii) : ascii :=
  let n := nat_of_ascii c in
  if ((65 <=? n)%nat && (n <=? 90)%nat)%bool then ascii_of_nat (n + 32) else c.

(** [s.toLowerCase()] on the ASCII characters: [A]-[Z] are lowered and
    every other character of a string is kept.  JavaScript also lowers the
    letters beyond ASCII; a property that depends on how a name is lowered
    is stated for ASCII names. *)
Fixpoint toLowerCase (s : string) : string :=
  match s with
  | EmptyString => EmptyString
  | String c r => String (lower_ascii c) (toLowerCase r)
  end.

Fixpoint drop (n : nat) (s : string) : string :=
  match n, s with
  | O, _ => s
  | S _, EmptyString => EmptyString
  | S k, String _ r => drop k r
  end.

(** [s.replace(pat, rep)] with a string pattern: only the first
    (leftmost) occurrence of [pat] is replaced.  [rep] is taken
    literally; the source only passes the empty string. *)
Fixpoint replace (pat rep s : string) : string :=
  if prefix pat s then rep ++ drop (String.length pat) s
  else match s with
       | EmptyString => EmptyString
       | String c r => String c (replace pat rep r)
       end.

(** [s.endsWith(suf) ? s.slice(0, -suf.length) : s]: what removing a
    trailing suffix means. *)
Definition stripSuffix (suf s : string) : string :=
  let n := String.length s - String.length suf in
  if drop n s =? suf then substring 0 n s else s.

(** [arr.push(x)]. *)
Definition push {A : Type} (arr : list A) (x : A) : list A := (arr ++ [x])%list.

(** [arr.includes(x)] on an array of strings. *)
Definition includes (arr : list string) (x : string) : bool :=
  existsb (String.eqb x) arr.

(** [arr.join(sep)]. *)
Definition join (sep : string) (arr : list string) : string :=
  String.concat sep arr.

(** [s.split('(')[0]]: the part of [s] before the first [c]. *)
Fixpoint before (c : ascii) (s : string) : string :=
  match s with
  | EmptyString => EmptyString
  | String d r => if Ascii.eqb d c then EmptyString else String d (before c r)
  end.

(** [arr.forEach((x, index) => ...)] threading the mutated state. *)
Fixpoint forEach_from {A St : Type} (f : St -> A -> nat -> St)
         (index : nat) (arr : list A) (s : St) : St :=
  match arr with
  | [] => s
  | x :: r => forEach_from f (S index) r (f s x index)
  end.

Definition forEach {A St : Type} (f : St -> A -> nat -> St)
           (arr : list A) (s : St) : St :=
  forEach_from f 0 arr s.

End JS.
Import JS.

(* ================================================================== *)
(** * The schema model and [DimensionalModelingTools] *)

Inductive SCDType : Type := SCD1 | SCD2 | SCD3.

Definition SCDType_eqb (a b : SCDType) : bool :=
  match a, b with
  | SCD1, SCD1 | SCD2, SCD2 | SCD3, SCD3 => true
  | _, _ => false
  end.

Definition SCDType_str (a : SCDType) : string :=
  match a with SCD1 => "1" | SCD2 => "2" | SCD3 => "3" end.

Inductive AggregationType : Type := SUM | COUNT | AVG | MIN | MAX.

Module DimensionColumn.
Record t : Type := mk {
  name : string;
  dataType : string;
  isPrimaryKey : option bool;
  isBusinessKey : option bool;
  isSCD : option bool;
  scdType : option SCDType;
  description : option string
}.
End DimensionColumn.

Module FactColumn.
Record t : Type := mk {
  name : string;
  dataType : string;
  aggregationType : option AggregationType;
  isAdditive : option bool;
  isMeasure : option bool;
  description : option string
}.
End FactColumn.

Module DimensionTable.
Record t : Type := mk {
  name : string;
  businessName : string;
  description : option string;
  columns : list DimensionColumn.t;
  scdType : SCDType;
  naturalKey : list string;
  surrogateKey : string
}.
End DimensionTable.

Module FactTable.
Record t : Type := mk {
  name : string;
  businessName : string;
  description : option string;
  columns : list FactColumn.t;
  measures : list string;
  dimensionKeys : list string;
  grainDescription : string
}.
End FactTable.

Module StarSchema.
Record t : Type := mk {
  name : string;
  description : option string;
  factTable : FactTable.t;
  dimensionTables : list DimensionTable.t
}.
End StarSchema.

Module Dimensional.

(** A system-generated dimension column: only name, type and description
    (and, for the surrogate key, the primary-key flag) are set. *)
Definition stdDimColumn (n ty : string) (pk : option bool) (d : string)
  : DimensionColumn.t :=
  DimensionColumn.mk n ty pk None None None (Some d).

Definition stdFactColumn (n ty d : string) : FactColumn.t :=
  FactColumn.mk n ty None None None (Some d).

Record DimensionOptions : Type := {
  opt_scdType : option SCDType;
  opt_naturalKey : option (list string);
  opt_surrogateKey : option string;
  opt_dimDescription : option string
}.

Definition noDimensionOptions : DimensionOptions :=
  Build_DimensionOptions None None None None.

Record FactOptions : Type := {
  opt_grainDescription : option string;
  opt_factDescription : option string;
  opt_partitionColumn : option string
}.

Definition noFactOptions : FactOptions := Build_FactOptions None None None.

Definition scdColumns : list DimensionColumn.t :=
  [ stdDimColumn "EffectiveDate" "DATE" None
      "Date when this record became effective";
    stdDimColumn "ExpiryDate" "DATE" None "Date when this record expires";
    stdDimColumn "IsCurrent" "BIT" None
      "Flag indicating if this is the current record";
    stdDimColumn "RecordVersion" "INT" None "Version number of this record" ].

Definition auditColumns : list DimensionColumn.t :=
  [ stdDimColumn "CreatedDate" "DATETIME2" None "Date when record was created";
    stdDimColumn "ModifiedDate" "DATETIME2" None
      "Date when record was last modified";
    stdDimColumn "CreatedBy" "NVARCHAR(100)" None "User who created the record";
    stdDimColumn "ModifiedBy" "NVARCHAR(100)" None
      "User who last modified the record" ].

(** The callback of [dimension.columns.map] in [generateDimensionSQL]. *)
Definition dimensionColumnDefinition (col : DimensionColumn.t) : string :=
  let def := "    [" ++ DimensionColumn.name col ++ "] "
               ++ DimensionColumn.dataType col in
  let def := if truthy_bool (DimensionColumn.isPrimaryKey col)
             then def ++ " PRIMARY KEY" else def in
  let def := if truthy_str (DimensionColumn.description col)
             then def ++ " -- " ++ tpl (DimensionColumn.description col)
             else def in
  def.

(** [generateDimensionSQL(dimension, schemaName = 'dbo')]. *)
Definition generateDimensionSQL (dimension : DimensionTable.t)
           (schemaName : string) : string :=
  let sql := "-- Dimension Table: " ++ DimensionTable.name dimension ++ LF in
  let sql := sql ++ "-- " ++ tpl (DimensionTable.description dimension) ++ LF in
  let sql := sql ++ "CREATE TABLE [" ++ schemaName ++ "].["
                 ++ DimensionTable.name dimension ++ "] (" ++ LF in
  let columnDefinitions :=
    map dimensionColumnDefinition (DimensionTable.columns dimension) in
  let sql := sql ++ join ("," ++ LF) columnDefinitions in
  let sql := sql ++ LF ++ ");" ++ LF in
  let sql :=
    if (0 <? List.length (DimensionTable.naturalKey dimension))%nat
    then sql ++ LF ++ "CREATE UNIQUE INDEX IX_" ++ DimensionTable.name dimension
             ++ "_NK ON [" ++ schemaName ++ "].["
             ++ DimensionTable.name dimension ++ "] ("
             ++ join ", " (DimensionTable.naturalKey dimension) ++ ");" ++ LF
    else sql in
  let sql :=
    if SCDType_eqb (DimensionTable.scdType dimension) SCD2
    then sql ++ "CREATE INDEX IX_" ++ DimensionTable.name dimension
             ++ "_Current ON [" ++ schemaName ++ "].["
             ++ DimensionTable.name dimension
             ++ "] (IsCurrent) WHERE IsCurrent = 1;" ++ LF
    else sql in
  sql.

Record DimensionResult : Type := {
  dimensionTable : DimensionTable.t;
  dim_sqlScript : string;
  dim_message : string
}.

(** [generateDimensionTable(tableName, businessName, columns, options)]. *)
Definition generateDimensionTable (tableName businessName : string)
           (columns : list DimensionColumn.t) (options : DimensionOptions)
  : DimensionResult :=
  let scdType := dflt SCD2 (opt_scdType options) in
  let naturalKey := dflt [] (opt_naturalKey options) in
  let surrogateKey := dflt (tableName ++ "_SK") (opt_surrogateKey options) in
  let description := dflt EmptyString (opt_dimDescription options) in
  let standardColumns :=
    [ stdDimColumn surrogateKey "BIGINT IDENTITY(1,1)" (Some true)
        "Surrogate key for the dimension" ] in
  let standardColumns :=
    if SCDType_eqb scdType SCD2 then (standardColumns ++ scdColumns)%list
    else standardColumns in
  let standardColumns := (standardColumns ++ auditColumns)%list in
  let dimensionTable :=
    DimensionTable.mk tableName businessName (Some description)
      (standardColumns ++ columns)%list scdType naturalKey surrogateKey in
  let sqlScript := generateDimensionSQL dimensionTable "dbo" in
  {| dimensionTable := dimensionTable;
     dim_sqlScript := sqlScript;
     dim_message := "Dimension table " ++ tableName ++ " generated successfully" |}.

(** The callback of [fact.columns.map] in [generateFactSQL]. *)
Definition factColumnDefinition (col : FactColumn.t) : string :=
  let def := "    [" ++ FactColumn.name col ++ "] " ++ FactColumn.dataType col in
  let def := if truthy_str (FactColumn.description col)
             then def ++ " -- " ++ tpl (FactColumn.description col)
             else def in
  def.

(** The three parts of the text of [generateFactSQL]: the table, the index
    appended for one dimension key, the columnstore index. *)
Definition factCreateTable (fact : FactTable.t) (schemaName : string) : string :=
  let sql := "-- Fact Table: " ++ FactTable.name fact ++ LF in
  let sql := sql ++ "-- " ++ tpl (FactTable.description fact) ++ LF in
  let sql := sql ++ "-- Grain: " ++ FactTable.grainDescription fact ++ LF in
  let sql := sql ++ "CREATE TABLE [" ++ schemaName ++ "].["
                 ++ FactTable.name fact ++ "] (" ++ LF in
  let columnDefinitions := map factColumnDefinition (FactTable.columns fact) in
  let sql := sql ++ join ("," ++ LF) columnDefinitions in
  sql ++ LF ++ ") ON [PRIMARY];" ++ LF.

Definition factKeyIndex (fact : FactTable.t) (schemaName dimKey : string)
  : string :=
  LF ++ "CREATE INDEX IX_" ++ FactTable.name fact ++ "_" ++ dimKey
     ++ " ON [" ++ schemaName ++ "].[" ++ FactTable.name fact
     ++ "] ([" ++ dimKey ++ "]);" ++ LF.

Definition factColumnstoreIndex (fact : FactTable.t) (schemaName : string)
  : string :=
  LF ++ "CREATE COLUMNSTORE INDEX CCI_" ++ FactTable.name fact
     ++ " ON [" ++ schemaName ++ "].[" ++ FactTable.name fact ++ "];" ++ LF.

(** [generateFactSQL(fact, partitionColumn = 'DateKey', schemaName = 'dbo')]. *)
Definition generateFactSQL (fact : FactTable.t)
           (partitionColumn schemaName : string) : string :=
  let sql := factCreateTable fact schemaName in
  let sql :=
    forEach (fun sql dimKey _ => sql ++ factKeyIndex fact schemaName dimKey)
            (FactTable.dimensionKeys fact) sql in
  sql ++ factColumnstoreIndex fact schemaName.

Record FactResult : Type := {
  factTable : FactTable.t;
  fact_sqlScript : string;
  fact_message : string
}.

(** The column pushed for one entry of [dimensionKeys]. *)
Definition foreignKeyColumn (dimKey : string) : FactColumn.t :=
  stdFactColumn dimKey "BIGINT"
    ("Foreign key to " ++ replace "Key" EmptyString dimKey ++ " dimension").

(** The column pushed when [dimensionKeys] does not include [DateKey]. *)
Definition dateKeyColumn : FactColumn.t :=
  stdFactColumn "DateKey" "INT"
    "Foreign key to Date dimension (YYYYMMDD format)".

Definition factAuditColumns : list FactColumn.t :=
  [ stdFactColumn "CreatedDate" "DATETIME2" "Date when record was created";
    stdFactColumn "ETLBatchId" "BIGINT" "ETL batch identifier" ].

(** [generateFactTable(tableName, businessName, measures, dimensionKeys,
    options)]. *)
Definition generateFactTable (tableName businessName : string)
           (measures : list FactColumn.t) (dimensionKeys : list string)
           (options : FactOptions) : FactResult :=
  let grainDescription :=
    dflt "One row per transaction" (opt_grainDescription options) in
  let description := dflt EmptyString (opt_factDescription options) in
  let partitionColumn := dflt "DateKey" (opt_partitionColumn options) in
  let standardColumns :=
    [ stdFactColumn "FactKey" "BIGINT IDENTITY(1,1)"
        "Surrogate key for the fact table" ] in
  let standardColumns :=
    forEach (fun cols dimKey _ =>
               push cols (foreignKeyColumn dimKey))
            dimensionKeys standardColumns in
  let standardColumns :=
    if negb (includes dimensionKeys "DateKey")
    then push standardColumns dateKeyColumn
    else standardColumns in
  let standardColumns :=
    (standardColumns ++ factAuditColumns)%list in
  let factTable :=
    FactTable.mk tableName businessName (Some description)
      (standardColumns ++ measures)%list
      (map FactColumn.name
           (filter (fun m => truthy_bool (FactColumn.isMeasure m)) measures))
      dimensionKeys grainDescription in
  let sqlScript := generateFactSQL factTable partitionColumn "dbo" in
  {| factTable := factTable;
     fact_sqlScript := sqlScript;
     fact_message := "Fact table " ++ tableName ++ " generated successfully" |}.

(** [generateStarSchemaView(starSchema, schemaName)]. *)
Definition dimensionAlias (dim : DimensionTable.t) : string :=
  substring 0 3 (toLowerCase (DimensionTable.name dim)).

Definition generateStarSchemaView (starSchema : StarSchema.t)
           (schemaName : string) : string :=
  let sql := "-- Star Schema View: " ++ StarSchema.name starSchema ++ LF in
  let sql := sql ++ "CREATE VIEW [" ++ schemaName ++ "].[v_"
                 ++ StarSchema.name starSchema ++ "] AS" ++ LF in
  let sql := sql ++ "SELECT " ++ LF in
  let factMeasures :=
    map (fun measure => "    f.[" ++ measure ++ "]")
        (FactTable.measures (StarSchema.factTable starSchema)) in
  let dimensionAttributes :=
    map (fun dim => "    " ++ dimensionAlias dim ++ ".*")
        (StarSchema.dimensionTables starSchema) in
  let sql := sql ++ join ("," ++ LF) (factMeasures ++ dimensionAttributes)%list in
  let sql := sql ++ LF ++ "FROM [" ++ schemaName ++ "].["
                 ++ FactTable.name (StarSchema.factTable starSchema)
                 ++ "] f" ++ LF in
  let sql :=
    forEach
      (fun sql dim _ =>
         let alias := dimensionAlias dim in
         let joinKey := DimensionTable.name dim ++ "Key" in
         let sql := sql ++ "LEFT JOIN [" ++ schemaName ++ "].["
                        ++ DimensionTable.name dim ++ "] " ++ alias
                        ++ " ON f.[" ++ joinKey ++ "] = " ++ alias ++ ".["
                        ++ DimensionTable.surrogateKey dim ++ "]" ++ LF in
         if SCDType_eqb (DimensionTable.scdType dim) SCD2
         then sql ++ "    AND " ++ alias ++ ".[IsCurrent] = 1" ++ LF
         else sql)
      (StarSchema.dimensionTables starSchema) sql in
  sql ++ ";" ++ LF.

(** [generateSCDStoredProcedure(dimension, schemaName)]. *)
Definition systemColumnNames : list string :=
  [ "EffectiveDate"; "ExpiryDate"; "IsCurrent"; "RecordVersion";
    "CreatedDate"; "ModifiedDate"; "CreatedBy"; "ModifiedBy" ].

Definition generateSCDStoredProcedure (dimension : DimensionTable.t)
           (schemaName : string) : string :=
  let sql := "-- SCD Type 2 Stored Procedure for "
               ++ DimensionTable.name dimension ++ LF in
  let sql := sql ++ "CREATE PROCEDURE [" ++ schemaName ++ "].[usp_Load_"
                 ++ DimensionTable.name dimension ++ "]" ++ LF in
  let sql := sql ++ "    @SourceData NVARCHAR(MAX) -- JSON array of source records"
                 ++ LF in
  let sql := sql ++ "AS" ++ LF ++ "BEGIN" ++ LF in
  let sql := sql ++ "    SET NOCOUNT ON;" ++ LF ++ LF in
  let sql := sql ++ "    -- Parse JSON source data" ++ LF in
  let sql := sql ++ "    WITH SourceData AS (" ++ LF in
  let sql := sql ++ "        SELECT *" ++ LF in
  let sql := sql ++ "        FROM OPENJSON(@SourceData)" ++ LF in
  let sql := sql ++ "        WITH (" ++ LF in
  let businessColumns :=
    filter (fun col =>
              negb (includes systemColumnNames (DimensionColumn.name col))
              && negb (truthy_bool (DimensionColumn.isPrimaryKey col)))%bool
           (DimensionTable.columns dimension) in
  let jsonColumns :=
    map (fun col =>
           "            [" ++ DimensionColumn.name col ++ "] "
             ++ before "("%char (DimensionColumn.dataType col)
             ++ " '$." ++ DQ ++ DimensionColumn.name col ++ DQ ++ "'")
        businessColumns in
  let sql := sql ++ join ("," ++ LF) jsonColumns in
  let sql := sql ++ LF ++ "        )" ++ LF ++ "    )" ++ LF ++ LF in
  let sql := sql ++ "    -- Implement SCD Type 2 logic here" ++ LF in
  let sql := sql ++ "    -- 1. Identify changed records" ++ LF in
  let sql := sql ++ "    -- 2. Expire old records" ++ LF in
  let sql := sql ++ "    -- 3. Insert new records" ++ LF ++ LF in
  sql ++ "END;" ++ LF.

Record StarSchemaOptions : Type := {
  opt_schemaDescription : option string;
  opt_generateViews : option bool
}.

Record StarSchemaResult : Type := {
  starSchema : StarSchema.t;
  star_sqlScript : string;
  star_message : string
}.

(** [generateStarSchema(schemaName, factTable, dimensionTables, options)]. *)
Definition generateStarSchema (schemaName : string) (factTable : FactTable.t)
           (dimensionTables : list DimensionTable.t)
           (options : StarSchemaOptions) : StarSchemaResult :=
  let description := dflt EmptyString (opt_schemaDescription options) in
  let generateViews := dflt true (opt_generateViews options) in
  let starSchema :=
    StarSchema.mk schemaName (Some description) factTable dimensionTables in
  let schemaSQL := "-- Star Schema: " ++ schemaName ++ LF in
  let schemaSQL := schemaSQL ++ "-- " ++ description ++ LF ++ LF in
  let schemaSQL := schemaSQL ++ "CREATE SCHEMA [" ++ schemaName ++ "];" ++ LF
                             ++ "GO" ++ LF ++ LF in
  let schemaSQL :=
    forEach (fun sql dim _ =>
               (sql ++ generateDimensionSQL dim schemaName) ++ LF ++ LF)
            dimensionTables schemaSQL in
  let schemaSQL := schemaSQL ++ generateFactSQL factTable "DateKey" schemaName in
  let schemaSQL :=
    if generateViews
    then (schemaSQL ++ LF ++ LF ++ "-- Views" ++ LF)
           ++ generateStarSchemaView starSchema schemaName
    else schemaSQL in
  let schemaSQL :=
    forEach (fun sql dim _ =>
               if SCDType_eqb (DimensionTable.scdType dim) SCD2
               then (sql ++ LF ++ LF) ++ generateSCDStoredProcedure dim schemaName
               else sql)
            dimensionTables schemaSQL in
  {| starSchema := starSchema;
     star_sqlScript := schemaSQL;
     star_message := "Star schema " ++ schemaName ++ " generated successfully" |}.

(** The mutable [validationResults] object of [validateStarSchema]. *)
Record ValidationResults : Type := {
  isValid : bool;
  warnings : list string;
  errors : list string
}.

Definition push_warning (w : string) (vr : ValidationResults) :=
  {| isValid := isValid vr;
     warnings := push (warnings vr) w;
     errors := errors vr |}.

Definition push_error (e : string) (vr : ValidationResults) :=
  {| isValid := isValid vr;
     warnings := warnings vr;
     errors := push (errors vr) e |}.

Definition set_isValid (b : bool) (vr : ValidationResults) :=
  {| isValid := b; warnings := warnings vr; errors := errors vr |}.

(** The name the validator derives from a fact dimension key. *)
Definition dimensionNameOf (dimKey : string) : string :=
  replace "Key" EmptyString dimKey.

(** [starSchema.dimensionTables.find(dim => dim.name.toLowerCase() ===
    dimensionName.toLowerCase())]. *)
Definition relatedDimension (dims : list DimensionTable.t)
           (dimensionName : string) : option DimensionTable.t :=
  find (fun dim => toLowerCase (DimensionTable.name dim)
                   =? toLowerCase dimensionName) dims.

(** Body of the loop over [factTable.dimensionKeys]. *)
Definition checkDimensionKey (dims : list DimensionTable.t)
           (vr : ValidationResults) (dimKey : string) (_ : nat)
  : ValidationResults :=
  let dimensionName := dimensionNameOf dimKey in
  match relatedDimension dims dimensionName with
  | None =>
      set_isValid false
        (push_error ("Fact table references dimension " ++ dimensionName
                       ++ " which is not defined") vr)
  | Some _ => vr
  end.

Definition hasRequiredSCDColumns (dim : DimensionTable.t) : bool :=
  forallb (fun col =>
             existsb (fun dimCol => DimensionColumn.name dimCol =? col)
                     (DimensionTable.columns dim))
          [ "EffectiveDate"; "ExpiryDate"; "IsCurrent" ].

(** Body of the loop over [dimensionTables]. *)
Definition checkDimension (vr : ValidationResults) (dim : DimensionTable.t)
           (_ : nat) : ValidationResults :=
  let vr :=
    if (List.length (DimensionTable.naturalKey dim) =? 0)%nat
    then push_warning ("Dimension " ++ DimensionTable.name dim
                         ++ " has no natural key defined") vr
    else vr in
  if SCDType_eqb (DimensionTable.scdType dim) SCD2
  then if negb (hasRequiredSCDColumns dim)
       then set_isValid false
              (push_error ("SCD Type 2 dimension " ++ DimensionTable.name dim
                             ++ " is missing required SCD columns") vr)
       else vr
  else vr.

Record ValidationReport : Type := {
  validationResults : ValidationResults;
  val_message : string
}.

(** [validateStarSchema(starSchema)]. *)
Definition validateStarSchema (starSchema : StarSchema.t) : ValidationReport :=
  let validationResults :=
    {| isValid := true; warnings := []; errors := [] |} in
  let validationResults :=
    if (List.length (FactTable.measures (StarSchema.factTable starSchema))
        =? 0)%nat
    then push_warning "Fact table has no measures defined" validationResults
    else validationResults in
  let validationResults :=
    forEach (checkDimensionKey (StarSchema.dimensionTables starSchema))
            (FactTable.dimensionKeys (StarSchema.factTable starSchema))
            validationResults in
  let validationResults :=
    forEach checkDimension (StarSchema.dimensionTables starSchema)
            validationResults in
  {| validationResults := validationResults;
     val_message := if isValid validationResults
                    then "Star schema validation passed"
                    else "Star schema validation failed" |}.

End Dimensional.

(* ================================================================== *)
(** * Runtime: JavaScript values, the clock and the Fabric service *)

Module Runtime.

(** JavaScript numbers.  The safe integers ([Number.isSafeInteger]) are
    carried by their value: these are exactly the integers [`${x}`] prints
    with all their digits.  Every other number (a fraction, an integer
    beyond 2^53, [Infinity], [NaN]) is carried by the text [`${x}`] prints
    for it. *)
Definition MAX_SAFE_INTEGER : Z := 9007199254740991.

Definition isSafeInteger (z : Z) : bool := (Z.abs z <=? MAX_SAFE_INTEGER)%Z.

Record SafeInteger : Type := {
  int_value : Z;
  int_safe : isSafeInteger int_value = true
}.

Inductive Number : Type :=
| Int (n : SafeInteger)
| Double (printed : string).

(** An integer literal of the source. *)
Definition literal (z : Z) (safe : isSafeInteger z = true) : Number :=
  Int {| int_value := z; int_safe := safe |}.

(** [!!x] and [`${x}`] of a number: [0] and [NaN] are falsy. *)
Definition Number_truthy (x : Number) : bool :=
  match x with
  | Int n => negb (int_value n =? 0)%Z
  | Double printed => negb (printed =? "NaN")
  end.

Definition Number_toString (x : Number) : string :=
  match x with
  | Int n => string_of_Z (int_value n)
  | Double printed => printed
  end.

(** The values the source stores in [Record<string, any>] fields and
    sends as request bodies. *)
#[warnings="-register-all"] Inductive JsValue : Type :=
| JUndefined
| JNull
| JBool (b : bool)
| JNum (x : Number)
| JStr (s : string)
| JArr (items : list JsValue)
| JObj (fields : list (string * JsValue)).

(** A property that may be absent: [None] is [undefined]. *)
Definition JOptStr (o : option string) : JsValue :=
  match o with
  | Some s => JStr s
  | None => JUndefined
  end.

(** Truthiness and [`${v}`] of a value. *)
Definition truthy (v : JsValue) : bool :=
  match v with
  | JUndefined | JNull => false
  | JBool b => b
  | JNum x => Number_truthy x
  | JStr s => negb (s =? EmptyString)
  | JArr _ | JObj _ => true
  end.

(** [x || d] and [x ? [x] : []] on a property that may be absent. *)
Definition orElse (d : JsValue) (o : option JsValue) : JsValue :=
  match o with
  | Some v => if truthy v then v else d
  | None => d
  end.

Definition singletonIfTruthy (o : option JsValue) : JsValue :=
  match o with
  | Some v => if truthy v then JArr [ v ] else JArr []
  | None => JArr []
  end.

Fixpoint toString (v : JsValue) : string :=
  match v with
  | JUndefined => "undefined"
  | JNull => "null"
  | JBool true => "true"
  | JBool false => "false"
  | JNum x => Number_toString x
  | JStr s => s
  | JArr items =>
      join ","
           (map (fun i => match i with
                          | JUndefined | JNull => EmptyString
                          | _ => toString i
                          end) items)
  | JObj _ => "[object Object]"
  end.

(** A thrown value; [`${error}`] renders it as [name: message], or as the
    one of the two that is not empty. *)
Record JsError : Type := {
  err_name : string;
  err_message : string
}.

Definition newError (msg : string) : JsError :=
  {| err_name := "Error"; err_message := msg |}.

Definition String_of_error (e : JsError) : string :=
  if err_name e =? EmptyString then err_message e
  else if err_message e =? EmptyString then err_name e
  else err_name e ++ ": " ++ err_message e.

(** [obj.id] on a parsed response. *)
Definition get_id (response : JsValue) : JsError + JsValue :=
  match response with
  | JUndefined =>
      inl {| err_name := "TypeError";
             err_message := "Cannot read properties of undefined (reading 'id')" |}
  | JNull =>
      inl {| err_name := "TypeError";
             err_message := "Cannot read properties of null (reading 'id')" |}
  | JObj fields =>
      inr match find (fun kv => fst kv =? "id") fields with
          | Some kv => snd kv
          | None => JUndefined
          end
  | _ => inr JUndefined
  end.

(** One reading of the platform clock: [Date.now()] and
    [new Date().toISOString()] of the same instant. *)
Record Instant : Type := {
  epoch_ms : Z;
  iso8601 : string
}.

Record Request : Type := {
  url : string;
  method : string;
  headers : list (string * string);
  body : option JsValue
}.

Record Response : Type := {
  ok : bool;
  status : nat;
  statusText : string;
  text : string;
  json : JsError + JsValue
}.

(** The environment of a run: the clock (one instant per reading), the
    Fabric service (its answer may depend on everything it was sent
    before) and the requests sent so far. *)
Record World : Type := {
  clock : nat -> Instant;
  clock_reads : nat;
  service : list Request -> Request -> JsError + Response;
  sent : list Request
}.

(** Computations that may read the clock, call the service and throw. *)
Definition M (A : Type) : Type := World -> World * (JsError + A).

Definition ret {A : Type} (a : A) : M A := fun w => (w, inr a).

Definition throw {A : Type} (e : JsError) : M A := fun w => (w, inl e).

Definition bind {A B : Type} (m : M A) (k : A -> M B) : M B :=
  fun w =>
    match m w with
    | (w', inr a) => k a w'
    | (w', inl e) => (w', inl e)
    end.

(** [try { m } catch (error) { h error }]. *)
Definition try_catch {A : Type} (m : M A) (h : JsError -> M A) : M A :=
  fun w =>
    match m w with
    | (w', inr a) => (w', inr a)
    | (w', inl e) => h e w'
    end.

Definition lift_result {A : Type} (r : JsError + A) : M A :=
  fun w => (w, r).

(** [new Date()] / [Date.now()]. *)
Definition now : M Instant :=
  fun w =>
    ({| clock := clock w; clock_reads := S (clock_reads w);
        service := service w; sent := sent w |},
     inr (clock w (clock_reads w))).

(** [await fetch(url, options)]. *)
Definition fetch (req : Request) : M Response :=
  fun w =>
    ({| clock := clock w; clock_reads := clock_reads w;
        service := service w; sent := (sent w ++ [req])%list |},
     service w (sent w) req).

(** [try { m } catch (error) { throw new Error(`${what}${error}`) }], the
    wrapper around the body of every public method. *)
Definition rethrow {A : Type} (what : string) (m : M A) : M A :=
  try_catch m
    (fun error => throw (newError (what ++ String_of_error error))).

Definition world_of {A : Type} (x : World * (JsError + A)) : World := fst x.
Definition result_of {A : Type} (x : World * (JsError + A)) : JsError + A :=
  snd x.

End Runtime.
Import Runtime.

Declare Scope js_scope.
Delimit Scope js_scope with js.
Notation "x <- m ;; k" := (bind m (fun x => k))
  (at level 61, m at next level, right associativity) : js_scope.
Open Scope js_scope.

(* ================================================================== *)
(** * [FabricPipelineOrchestrator] *)

Inductive ActivityType : Type :=
| Copy | DataFlow | Notebook | SparkJob | Lookup | IfCondition | ForEach
| Wait | Execute.

Definition ActivityType_str (t : ActivityType) : string :=
  match t with
  | Copy => "Copy" | DataFlow => "DataFlow" | Notebook => "Notebook"
  | SparkJob => "SparkJob" | Lookup => "Lookup" | IfCondition => "IfCondition"
  | ForEach => "ForEach" | Wait => "Wait" | Execute => "Execute"
  end.

Module PipelineActivity.
Record t : Type := mk {
  name : string;
  type : ActivityType;
  description : option string;
  dependsOn : option (list string);
  inputs : option JsValue;
  outputs : option JsValue;
  typeProperties : option JsValue
}.
End PipelineActivity.

Module DataFlowSource.
Record t : Type := mk {
  name : string;
  dataset : string;
  transformation : option string
}.
End DataFlowSource.

Module DataFlowSink.
Record t : Type := mk {
  name : string;
  dataset : string;
  transformation : option string
}.
End DataFlowSink.

Module DataFlowDefinition.
Record t : Type := mk {
  name : string;
  description : option string;
  sources : list DataFlowSource.t;
  sinks : list DataFlowSink.t;
  transformations : list string
}.
End DataFlowDefinition.

Module PipelineDefinition.
Record t : Type := mk {
  name : string;
  description : option string;
  parameters : option JsValue;
  variables : option JsValue;
  activities : list PipelineActivity.t
}.
End PipelineDefinition.

Module Fabric.

(** The fields of the orchestrator set by its constructor. *)
Record Config : Type := {
  fabricToken : option string;
  workspaceUrl : option string
}.

(** [activity.dependsOn?.map(...) || []]: the predecessor names an
    activity is submitted with. *)
Definition deps (a : PipelineActivity.t) : list string :=
  dflt [] (PipelineActivity.dependsOn a).

Definition datasetReference (referenceName : string) : JsValue :=
  JObj [ ("referenceName", JStr referenceName);
         ("type", JStr "DatasetReference") ].

Definition stringParameter (defaultValue : string) : JsValue :=
  JObj [ ("type", JStr "string"); ("defaultValue", JStr defaultValue) ].

(** The [url] and [options] that [makeApiRequest] passes to [fetch]. *)
Definition apiRequest (cfg : Config) (endpoint method : string)
           (body : option JsValue) : Request :=
  {| url := tpl (workspaceUrl cfg) ++ "/api/v1/" ++ endpoint;
     method := method;
     headers := [ ("Authorization", "Bearer " ++ tpl (fabricToken cfg));
                  ("Content-Type", "application/json") ];
     body := match body with
             | Some b =>
                 if (truthy b && negb (method =? "GET"))%bool
                 then Some b else None
             | None => None
             end |}.

(** [makeApiRequest(endpoint, method, body)]. *)
Definition makeApiRequest (cfg : Config) (endpoint method : string)
           (body : option JsValue) : M JsValue :=
  if (negb (truthy_str (fabricToken cfg))
      || negb (truthy_str (workspaceUrl cfg)))%bool
  then throw (newError
                "Fabric token and workspace URL are required for pipeline operations")
  else
    response <- fetch (apiRequest cfg endpoint method body) ;;
    if negb (ok response)
    then
      let errorText := text response in
      throw (newError ("Fabric API error: " ++ string_of_nat (status response)
                         ++ " " ++ statusText response ++ " - " ++ errorText))
    else lift_result (json response).

Definition activityBody (activity : PipelineActivity.t) : JsValue :=
  JObj [ ("name", JStr (PipelineActivity.name activity));
         ("type", JStr (ActivityType_str (PipelineActivity.type activity)));
         ("description", JOptStr (PipelineActivity.description activity));
         ("dependsOn",
          JArr (map (fun dep =>
                       JObj [ ("activity", JStr dep);
                              ("dependencyConditions", JArr [ JStr "Succeeded" ]) ])
                    (deps activity)));
         ("typeProperties",
          orElse (JObj []) (PipelineActivity.typeProperties activity));
         ("inputs", singletonIfTruthy (PipelineActivity.inputs activity));
         ("outputs", singletonIfTruthy (PipelineActivity.outputs activity)) ].

Definition pipelineBody (pipelineDefinition : PipelineDefinition.t) : JsValue :=
  JObj [ ("properties",
          JObj [ ("description",
                  JOptStr (PipelineDefinition.description pipelineDefinition));
                 ("parameters",
                  orElse (JObj [])
                         (PipelineDefinition.parameters pipelineDefinition));
                 ("variables",
                  orElse (JObj [])
                         (PipelineDefinition.variables pipelineDefinition));
                 ("activities",
                  JArr (map activityBody
                            (PipelineDefinition.activities pipelineDefinition))) ]) ].

Record PipelineCreated : Type := {
  pipelineId : JsValue;
  created_name : string;
  created_message : string
}.

(** [createDataPipeline(pipelineDefinition)]. *)
Definition createDataPipeline (cfg : Config)
           (pipelineDefinition : PipelineDefinition.t) : M PipelineCreated :=
  try_catch
    (response <- makeApiRequest cfg
                   ("pipelines/" ++ PipelineDefinition.name pipelineDefinition)
                   "PUT" (Some (pipelineBody pipelineDefinition)) ;;
     id <- lift_result (get_id response) ;;
     ret {| pipelineId := id;
            created_name := PipelineDefinition.name pipelineDefinition;
            created_message :=
              "Pipeline " ++ PipelineDefinition.name pipelineDefinition
                          ++ " created successfully" |})
    (fun error =>
       throw (newError ("Failed to create data pipeline: "
                          ++ String_of_error error))).

(** [transformations.map(transform => ({ name: `transform_${Date.now()}`,
    script: transform }))]: one clock reading per transformation. *)
Fixpoint transformationBodies (transformations : list string)
  : M (list JsValue) :=
  match transformations with
  | [] => ret []
  | transform :: rest =>
      t <- now ;;
      bodies <- transformationBodies rest ;;
      ret (JObj [ ("name", JStr ("transform_" ++ string_of_Z (epoch_ms t)));
                  ("script", JStr transform) ] :: bodies)
  end.

Record DataFlowCreated : Type := {
  dataFlowId : JsValue;
  df_name : string;
  df_message : string
}.

(** [createDataFlow(dataFlowDefinition)]. *)
Definition createDataFlow (cfg : Config)
           (dataFlowDefinition : DataFlowDefinition.t) : M DataFlowCreated :=
  try_catch
    (transformations <-
       transformationBodies
         (DataFlowDefinition.transformations dataFlowDefinition) ;;
     let dataFlowBody :=
       JObj [ ("properties",
               JObj [ ("description",
                       JOptStr (DataFlowDefinition.description dataFlowDefinition));
                      ("sources",
                       JArr (map (fun source =>
                                    JObj [ ("name", JStr (DataFlowSource.name source));
                                           ("dataset",
                                            datasetReference
                                              (DataFlowSource.dataset source));
                                           ("transformation",
                                            JOptStr
                                              (DataFlowSource.transformation source)) ])
                                 (DataFlowDefinition.sources dataFlowDefinition)));
                      ("sinks",
                       JArr (map (fun sink =>
                                    JObj [ ("name", JStr (DataFlowSink.name sink));
                                           ("dataset",
                                            datasetReference
                                              (DataFlowSink.dataset sink));
                                           ("transformation",
                                            JOptStr
                                              (DataFlowSink.transformation sink)) ])
                                 (DataFlowDefinition.sinks dataFlowDefinition)));
                      ("transformations", JArr transformations) ]) ] in
     response <- makeApiRequest cfg
                   ("dataflows/" ++ DataFlowDefinition.name dataFlowDefinition)
                   "PUT" (Some dataFlowBody) ;;
     id <- lift_result (get_id response) ;;
     ret {| dataFlowId := id;
            df_name := DataFlowDefinition.name dataFlowDefinition;
            df_message :=
              "Data flow " ++ DataFlowDefinition.name dataFlowDefinition
                           ++ " created successfully" |})
    (fun error =>
       throw (newError ("Failed to create data flow: "
                          ++ String_of_error error))).

Definition pipelineReference (pipeline : string) : JsValue :=
  JObj [ ("pipeline",
          JObj [ ("referenceName", JStr pipeline);
                 ("type", JStr "PipelineReference") ]);
         ("waitOnCompletion", JBool true) ].

Definition dataflowActivityProperties (referenceName : string)
           (coreCount : Number) : JsValue :=
  JObj [ ("dataflow",
          JObj [ ("referenceName", JStr referenceName);
                 ("type", JStr "DataFlowReference") ]);
         ("compute",
          JObj [ ("coreCount", JNum coreCount);
                 ("computeType", JStr "General") ]) ].

Definition keyLookupProperties (naturalKeys : list string)
           (dimension table : string) : JsValue :=
  JObj [ ("source",
          JObj [ ("type", JStr "AzureSqlSource");
                 ("sqlReaderQuery",
                  JStr ("SELECT " ++ join ", " naturalKeys ++ ", " ++ dimension
                          ++ "_SK FROM " ++ table ++ " WHERE IsCurrent = 1")) ]);
         ("dataset", datasetReference table);
         ("firstRowOnly", JBool false) ].

(** The [pipelineDefinition] that [createDimensionLoadPipeline] assembles. *)
Definition dimensionLoadPipelineDefinition
           (dimensionName sourceDataset targetDataset : string)
           (naturalKeys : list string) (scdType : SCDType)
  : PipelineDefinition.t :=
  let activities : list PipelineActivity.t := [] in
  let activities :=
    push activities
      (PipelineActivity.mk "LookupExistingRecords" Lookup
         (Some ("Lookup existing records in " ++ dimensionName))
         None None None
         (Some (keyLookupProperties naturalKeys dimensionName targetDataset))) in
  let activities :=
    if SCDType_eqb scdType SCD2
    then
      push activities
        (PipelineActivity.mk "ProcessSCDType2" DataFlow
           (Some ("Process SCD Type 2 for " ++ dimensionName))
           (Some [ "LookupExistingRecords" ]) None None
           (Some (dataflowActivityProperties
                    ("df_" ++ dimensionName ++ "_SCD2")
                    (literal 8 eq_refl))))
    else
      push activities
        (PipelineActivity.mk "UpsertDimension" Copy
           (Some ("Upsert records in " ++ dimensionName))
           (Some [ "LookupExistingRecords" ]) None None
           (Some (JObj [ ("source", JObj [ ("type", JStr "AzureSqlSource") ]);
                         ("sink",
                          JObj [ ("type", JStr "AzureSqlSink");
                                 ("upsertSettings",
                                  JObj [ ("useTempDB", JBool true);
                                         ("keys",
                                          JArr (map JStr naturalKeys)) ]) ]) ])))
  in
  PipelineDefinition.mk
    ("pl_Load_" ++ dimensionName)
    (Some ("Load " ++ dimensionName ++ " dimension with SCD Type "
             ++ SCDType_str scdType))
    (Some (JObj [ ("SourceDataset", stringParameter sourceDataset);
                  ("TargetDataset", stringParameter targetDataset) ]))
    None
    activities.

Record DimensionMapping : Type := {
  source : string;
  dimension : string;
  naturalKey : list string
}.

(** The activity pushed for one dimension mapping by
    [createFactLoadPipeline]. *)
Definition dimensionLookupActivity (mapping : DimensionMapping)
  : PipelineActivity.t :=
  PipelineActivity.mk ("Lookup" ++ dimension mapping) Lookup
    (Some ("Lookup " ++ dimension mapping ++ " keys"))
    None None None
    (Some (keyLookupProperties (naturalKey mapping) (dimension mapping)
             (dimension mapping))).

(** The [pipelineDefinition] that [createFactLoadPipeline] assembles. *)
Definition factLoadPipelineDefinition
           (factName sourceDataset targetDataset : string)
           (dimensionMappings : list DimensionMapping) : PipelineDefinition.t :=
  let activities : list PipelineActivity.t := [] in
  let activities :=
    forEach (fun activities mapping index =>
               push activities (dimensionLookupActivity mapping))
            dimensionMappings activities in
  let activities :=
    push activities
      (PipelineActivity.mk "TransformFactData" DataFlow
         (Some ("Transform and load " ++ factName ++ " fact table"))
         (Some (map (fun mapping => "Lookup" ++ dimension mapping)
                    dimensionMappings))
         None None
         (Some (dataflowActivityProperties
                  ("df_" ++ factName ++ "_Transform")
                  (literal 16 eq_refl)))) in
  let activities :=
    push activities
      (PipelineActivity.mk "LoadFactTable" Copy
         (Some ("Load " ++ factName ++ " fact table"))
         (Some [ "TransformFactData" ]) None None
         (Some (JObj [ ("source", JObj [ ("type", JStr "AzureSqlSource") ]);
                       ("sink",
                        JObj [ ("type", JStr "AzureSqlSink");
                               ("writeBehavior", JStr "insert") ]) ]))) in
  PipelineDefinition.mk
    ("pl_Load_" ++ factName)
    (Some ("Load " ++ factName ++ " fact table with dimension lookups"))
    (Some (JObj [ ("SourceDataset", stringParameter sourceDataset);
                  ("TargetDataset", stringParameter targetDataset);
                  ("LoadDate", stringParameter "@utcnow()") ]))
    None
    activities.

Record MasterOptions : Type := {
  opt_sequential : option bool;
  opt_failOnError : option bool;
  opt_description : option string
}.

(** [arr[i]] inside a template literal. *)
Definition at_index (arr : list string) (i : nat) : string :=
  tpl (nth_error arr i).

(** The activities pushed by the two loops of [createMasterPipeline]. *)
Definition sequentialExecuteActivity (childPipelines : list string)
           (pipeline : string) (index : nat) : PipelineActivity.t :=
  PipelineActivity.mk ("Execute_" ++ pipeline) Execute
    (Some ("Execute " ++ pipeline))
    (if (0 <? index)%nat
     then Some [ "Execute_" ++ at_index childPipelines (index - 1) ]
     else None)
    None None
    (Some (pipelineReference pipeline)).

Definition parallelExecuteActivity (pipeline : string) : PipelineActivity.t :=
  PipelineActivity.mk ("Execute_" ++ pipeline) Execute
    (Some ("Execute " ++ pipeline))
    None None None
    (Some (pipelineReference pipeline)).

(** The [pipelineDefinition] that [createMasterPipeline] assembles. *)
Definition masterPipelineDefinition (name : string)
           (childPipelines : list string) (options : MasterOptions)
  : PipelineDefinition.t :=
  let sequential := dflt false (opt_sequential options) in
  let failOnError := dflt true (opt_failOnError options) in
  let description := dflt EmptyString (opt_description options) in
  let activities : list PipelineActivity.t := [] in
  let activities :=
    if sequential
    then
      forEach (fun activities pipeline index =>
                 push activities
                   (sequentialExecuteActivity childPipelines pipeline index))
              childPipelines activities
    else
      forEach (fun activities pipeline _ =>
                 push activities (parallelExecuteActivity pipeline))
              childPipelines activities in
  PipelineDefinition.mk
    name
    (Some (if negb (description =? EmptyString) then description
           else "Master pipeline orchestrating: " ++ join ", " childPipelines))
    (Some (JObj [ ("ExecutionDate", stringParameter "@utcnow()") ]))
    None
    activities.

(** The activities pushed by the two loops of
    [createStarSchemaETLPipeline], and the query of its quality check. *)
Definition dimensionExecuteActivity (pipeline : string) : PipelineActivity.t :=
  PipelineActivity.mk ("Load_" ++ pipeline) Execute
    (Some ("Load " ++ pipeline ++ " dimension"))
    None None None
    (Some (pipelineReference pipeline)).

Definition factExecuteActivity (dimensionPipelines : list string)
           (pipeline : string) : PipelineActivity.t :=
  PipelineActivity.mk ("Load_" ++ pipeline) Execute
    (Some ("Load " ++ pipeline ++ " fact table"))
    (Some (map (fun dim => "Load_" ++ dim) dimensionPipelines))
    None None
    (Some (pipelineReference pipeline)).

Definition qualityCheckQuery (starSchemaName : string)
           (factPipelines : list string) : string :=
  LF ++ "              SELECT" ++ LF
     ++ "                '" ++ starSchemaName ++ "' as SchemaName," ++ LF
     ++ "                GETDATE() as CheckDate," ++ LF
     ++ "                COUNT(" ++ "*) as TotalFactRecords" ++ LF
     ++ "              FROM [" ++ at_index factPipelines 0 ++ "]" ++ LF
     ++ "            ".

(** The [pipelineDefinition] that [createStarSchemaETLPipeline] assembles. *)
Definition starSchemaETLPipelineDefinition (starSchemaName : string)
           (dimensionPipelines factPipelines : list string)
  : PipelineDefinition.t :=
  let activities : list PipelineActivity.t := [] in
  let activities :=
    forEach (fun activities pipeline _ =>
               push activities (dimensionExecuteActivity pipeline))
            dimensionPipelines activities in
  let activities :=
    forEach (fun activities pipeline _ =>
               push activities (factExecuteActivity dimensionPipelines pipeline))
            factPipelines activities in
  let activities :=
    push activities
      (PipelineActivity.mk "DataQualityCheck" Lookup
         (Some "Perform data quality checks")
         (Some (map (fun fact => "Load_" ++ fact) factPipelines))
         None None
         (Some (JObj [ ("source",
                        JObj [ ("type", JStr "AzureSqlSource");
                               ("sqlReaderQuery",
                                JStr (qualityCheckQuery starSchemaName
                                        factPipelines)) ]) ]))) in
  PipelineDefinition.mk
    ("pl_" ++ starSchemaName ++ "_ETL")
    (Some ("Complete ETL pipeline for " ++ starSchemaName ++ " star schema"))
    (Some (JObj [ ("LoadDate", stringParameter "@utcnow()");
                  ("FullLoad",
                   JObj [ ("type", JStr "bool");
                          ("defaultValue", JBool false) ]) ]))
    None
    activities.



Definition createMasterPipeline (cfg : Config) (name : string)
           (childPipelines : list string) (options : MasterOptions)
  : M PipelineCreated :=
  rethrow "Failed to create master pipeline: "
    (createDataPipeline cfg
       (masterPipelineDefinition name childPipelines options)).


(** The mutable [deploymentResults] object of [deployPipelinePackage]. *)
Record DeploymentResults : Type := {
  packageName : string;
  deployedPipelines : list string;
  deployedDataFlows : list string;
  errors : list string
}.

Record DeploymentReport : Type := {
  deploymentResults : DeploymentResults;
  dep_message : string
}.

(** [for (const x of arr) { ... }] with an awaiting body. *)
Fixpoint forOf {A St : Type} (body : St -> A -> M St) (arr : list A) (s : St)
  : M St :=
  match arr with
  | [] => ret s
  | x :: rest => s' <- body s x ;; forOf body rest s'
  end.

(** [deploymentResults.deployedDataFlows.push(name)],
    [deploymentResults.deployedPipelines.push(name)] and
    [deploymentResults.errors.push(message)]. *)
Definition recordDataFlow (r : DeploymentResults) (name : string)
  : DeploymentResults :=
  {| packageName := packageName r;
     deployedPipelines := deployedPipelines r;
     deployedDataFlows := push (deployedDataFlows r) name;
     errors := errors r |}.

Definition recordPipeline (r : DeploymentResults) (name : string)
  : DeploymentResults :=
  {| packageName := packageName r;
     deployedPipelines := push (deployedPipelines r) name;
     deployedDataFlows := deployedDataFlows r;
     errors := errors r |}.

Definition recordError (r : DeploymentResults) (message : string)
  : DeploymentResults :=
  {| packageName := packageName r;
     deployedPipelines := deployedPipelines r;
     deployedDataFlows := deployedDataFlows r;
     errors := push (errors r) message |}.

(** Body of the loop over [dataFlows]. *)
Definition deployDataFlowStep (cfg : Config) (r : DeploymentResults)
           (dataFlow : DataFlowDefinition.t) : M DeploymentResults :=
  try_catch
    (_ <- createDataFlow cfg dataFlow ;;
     ret (recordDataFlow r (DataFlowDefinition.name dataFlow)))
    (fun error =>
       ret (recordError r
              ("Failed to deploy data flow " ++ DataFlowDefinition.name dataFlow
                 ++ ": " ++ String_of_error error))).

(** Body of the loop over [pipelines]. *)
Definition deployPipelineStep (cfg : Config) (r : DeploymentResults)
           (pipeline : PipelineDefinition.t) : M DeploymentResults :=
  try_catch
    (_ <- createDataPipeline cfg pipeline ;;
     ret (recordPipeline r (PipelineDefinition.name pipeline)))
    (fun error =>
       ret (recordError r
              ("Failed to deploy pipeline " ++ PipelineDefinition.name pipeline
                 ++ ": " ++ String_of_error error))).

(** [deployPipelinePackage(packageName, pipelines, dataFlows)]. *)
Definition deployPipelinePackage (cfg : Config) (packageName : string)
           (pipelines : list PipelineDefinition.t)
           (dataFlows : list DataFlowDefinition.t) : M DeploymentReport :=
  rethrow "Failed to deploy pipeline package: "
    (let deploymentResults :=
       {| packageName := packageName;
          deployedPipelines := [];
          deployedDataFlows := [];
          errors := [] |} in
     deploymentResults <-
       forOf (deployDataFlowStep cfg) dataFlows deploymentResults ;;
     deploymentResults <-
       forOf (deployPipelineStep cfg) pipelines deploymentResults ;;
     ret {| deploymentResults := deploymentResults;
            dep_message :=
              "Package " ++ packageName ++ " deployment completed with "
                ++ string_of_nat (List.length (errors deploymentResults))
                ++ " errors" |}).

End Fabric.

(* ================================================================== *)
(** * [DataWarehouseManagement] *)

Inductive LayerPurpose : Type := Raw | Staging | Cleansed | Curated | Mart.


Inductive RuleType : Type :=
| NotNull | Unique | Range | Format | LookupRule | Custom.

Inductive Severity : Type := SevError | SevWarning | SevInfo.

Definition Severity_str (v : Severity) : string :=
  match v with
  | SevError => "Error" | SevWarning => "Warning" | SevInfo => "Info"
  end.

Inductive CatalogObjectType : Type := TableObj | ViewObj | ProcedureObj | FunctionObj.

Definition CatalogObjectType_str (t : CatalogObjectType) : string :=
  match t with
  | TableObj => "Table" | ViewObj => "View" | ProcedureObj => "Procedure"
  | FunctionObj => "Function"
  end.

Inductive Classification : Type := Public | Internal | Confidential | Restricted.

Definition Classification_str (c : Classification) : string :=
  match c with
  | Public => "Public" | Internal => "Internal"
  | Confidential => "Confidential" | Restricted => "Restricted"
  end.

Module DataWarehouseLayer.
Record t : Type := mk {
  name : string;
  description : string;
  schemas : list string;
  purpose : LayerPurpose
}.
End DataWarehouseLayer.

Module DataQualityRule.
Record t : Type := mk {
  name : string;
  description : string;
  ruleType : RuleType;
  column : string;
  table : string;
  parameters : option (list (string * JsValue));
  severity : Severity
}.
End DataQualityRule.

Module CatalogColumn.
Record t : Type := mk {
  name : string;
  dataType : string;
  description : string;
  businessName : string;
  isPII : bool;
  classification : string
}.
End CatalogColumn.

Module DataCatalogEntry.
Record t : Type := mk {
  name : string;
  type : CatalogObjectType;
  schema : string;
  description : string;
  businessOwner : string;
  technicalOwner : string;
  classification : Classification;
  tags : list string;
  lastUpdated : string;
  columns : option (list CatalogColumn.t)
}.
End DataCatalogEntry.

Module Warehouse.

(** A run of [sql += `line\n`] statements. *)
Definition lines (ls : list string) : string :=
  fold_left (fun sql l => sql ++ l ++ LF) ls EmptyString.

(** [rule.parameters?.key || fallback]. *)
Definition parameterOr (parameters : option (list (string * JsValue)))
           (key : string) (fallback : Number) : JsValue :=
  let v := match parameters with
           | Some fields =>
               match find (fun kv => fst kv =? key) fields with
               | Some kv => snd kv
               | None => JUndefined
               end
           | None => JUndefined
           end in
  if truthy v then v else JNum fallback.

(** [generateDateDimension()]. *)
Definition generateDateDimension : string :=
  lines
    [ "-- Date Dimension";
      "CREATE TABLE [dbo].[DimDate] (";
      "    DateKey INT PRIMARY KEY,";
      "    Date DATE NOT NULL,";
      "    DayOfWeek INT NOT NULL,";
      "    DayName NVARCHAR(10) NOT NULL,";
      "    DayOfMonth INT NOT NULL,";
      "    DayOfYear INT NOT NULL,";
      "    WeekOfYear INT NOT NULL,";
      "    MonthNumber INT NOT NULL,";
      "    MonthName NVARCHAR(10) NOT NULL,";
      "    MonthYear NVARCHAR(7) NOT NULL,";
      "    Quarter INT NOT NULL,";
      "    QuarterName NVARCHAR(2) NOT NULL,";
      "    Year INT NOT NULL,";
      "    IsWeekend BIT NOT NULL,";
      "    IsHoliday BIT NOT NULL DEFAULT 0,";
      "    FiscalYear INT NOT NULL,";
      "    FiscalQuarter INT NOT NULL,";
      "    FiscalMonth INT NOT NULL";
      ");";
      EmptyString;
      "-- Procedure to populate date dimension";
      "CREATE PROCEDURE [dbo].[PopulateDimDate]";
      "    @StartDate DATE,";
      "    @EndDate DATE";
      "AS";
      "BEGIN";
      "    DECLARE @CurrentDate DATE = @StartDate;";
      "    ";
      "    WHILE @CurrentDate <= @EndDate";
      "    BEGIN";
      "        INSERT INTO [dbo].[DimDate] (";
      "            DateKey, Date, DayOfWeek, DayName, DayOfMonth, DayOfYear,";
      "            WeekOfYear, MonthNumber, MonthName, MonthYear,";
      "            Quarter, QuarterName, Year, IsWeekend,";
      "            FiscalYear, FiscalQuarter, FiscalMonth";
      "        )";
      "        VALUES (";
      "            CAST(FORMAT(@CurrentDate, 'yyyyMMdd') AS INT),";
      "            @CurrentDate,";
      "            DATEPART(WEEKDAY, @CurrentDate),";
      "            DATENAME(WEEKDAY, @CurrentDate),";
      "            DAY(@CurrentDate),";
      "            DATEPART(DAYOFYEAR, @CurrentDate),";
      "            DATEPART(WEEK, @CurrentDate),";
      "            MONTH(@CurrentDate),";
      "            DATENAME(MONTH, @CurrentDate),";
      "            FORMAT(@CurrentDate, 'yyyy-MM'),";
      "            DATEPART(QUARTER, @CurrentDate),";
      "            'Q' + CAST(DATEPART(QUARTER, @CurrentDate) AS VARCHAR(1)),";
      "            YEAR(@CurrentDate),";
      "            CASE WHEN DATEPART(WEEKDAY, @CurrentDate) IN (1, 7) THEN 1 ELSE 0 END,";
      "            YEAR(@CurrentDate),";
      "            DATEPART(QUARTER, @CurrentDate),";
      "            MONTH(@CurrentDate)";
      "        );";
      "        ";
      "        SET @CurrentDate = DATEADD(DAY, 1, @CurrentDate);";
      "    END";
      "END;" ].

(** [generateTimeDimension()]. *)
Definition generateTimeDimension : string :=
  lines
    [ "-- Time Dimension";
      "CREATE TABLE [dbo].[DimTime] (";
      "    TimeKey INT PRIMARY KEY,";
      "    Time TIME NOT NULL,";
      "    Hour INT NOT NULL,";
      "    Minute INT NOT NULL,";
      "    Second INT NOT NULL,";
      "    HourName NVARCHAR(8) NOT NULL,";
      "    MinuteName NVARCHAR(8) NOT NULL,";
      "    AMPMIndicator NVARCHAR(2) NOT NULL,";
      "    BusinessHour BIT NOT NULL,";
      "    TimeOfDayDescription NVARCHAR(20) NOT NULL";
      ");" ].

(** [generateGeographyDimension()]. *)
Definition generateGeographyDimension : string :=
  lines
    [ "-- Geography Dimension";
      "CREATE TABLE [dbo].[DimGeography] (";
      "    GeographyKey BIGINT IDENTITY(1,1) PRIMARY KEY,";
      "    GeographyAlternateKey NVARCHAR(50) NOT NULL,";
      "    City NVARCHAR(100),";
      "    StateProvince NVARCHAR(100),";
      "    Country NVARCHAR(100) NOT NULL,";
      "    CountryCode NVARCHAR(3),";
      "    PostalCode NVARCHAR(20),";
      "    Continent NVARCHAR(50),";
      "    Region NVARCHAR(50),";
      "    Latitude DECIMAL(10,8),";
      "    Longitude DECIMAL(11,8),";
      "    TimeZone NVARCHAR(50),";
      "    EffectiveDate DATE NOT NULL DEFAULT GETDATE(),";
      "    ExpiryDate DATE,";
      "    IsCurrent BIT NOT NULL DEFAULT 1";
      ");" ].

(** [generateCurrencyDimension()]. *)
Definition generateCurrencyDimension : string :=
  lines
    [ "-- Currency Dimension";
      "CREATE TABLE [dbo].[DimCurrency] (";
      "    CurrencyKey BIGINT IDENTITY(1,1) PRIMARY KEY,";
      "    CurrencyCode NVARCHAR(3) NOT NULL,";
      "    CurrencyName NVARCHAR(100) NOT NULL,";
      "    CurrencySymbol NVARCHAR(5),";
      "    DecimalPlaces INT NOT NULL DEFAULT 2,";
      "    IsActive BIT NOT NULL DEFAULT 1,";
      "    EffectiveDate DATE NOT NULL DEFAULT GETDATE(),";
      "    ExpiryDate DATE,";
      "    IsCurrent BIT NOT NULL DEFAULT 1";
      ");" ].








Record StandardDimensionsResult : Type := {
  dimensions : list string;
  std_sqlScript : string;
  std_message : string
}.

(** [generateStandardDimensions()]. *)
Definition generateStandardDimensions : StandardDimensionsResult :=
  let standardDimensions :=
    [ generateDateDimension; generateTimeDimension;
      generateGeographyDimension; generateCurrencyDimension ] in
  let sql := "-- Standard Dimensions for Data Warehouse" ++ LF ++ LF in
  let sql :=
    forEach (fun sql dim _ => (sql ++ dim) ++ LF ++ LF) standardDimensions sql in
  {| dimensions := [ "DimDate"; "DimTime"; "DimGeography"; "DimCurrency" ];
     std_sqlScript := sql;
     std_message := "Standard dimensions generated successfully" |}.

(** [generateDataQualityRule(rule)]. *)
Definition generateDataQualityRule (rule : DataQualityRule.t) : string :=
  let sql := "-- Data Quality Rule: " ++ DataQualityRule.name rule ++ LF in
  let sql := sql ++ "-- " ++ DataQualityRule.description rule ++ LF in
  let sql := sql ++ "CREATE PROCEDURE [dbo].[DQ_" ++ DataQualityRule.name rule
                 ++ "]" ++ LF in
  let sql := sql ++ "    @ETLBatchID BIGINT = NULL" ++ LF in
  let sql := sql ++ "AS" ++ LF ++ "BEGIN" ++ LF in
  let declarations :=
    "    DECLARE @FailCount BIGINT;" ++ LF
      ++ "    DECLARE @TotalCount BIGINT;" ++ LF ++ LF
      ++ "    SELECT @TotalCount = COUNT(" ++ "*) FROM ["
      ++ DataQualityRule.table rule ++ "];" ++ LF in
  let sql :=
    match DataQualityRule.ruleType rule with
    | NotNull =>
        sql ++ declarations
            ++ "    SELECT @FailCount = COUNT(" ++ "*) FROM ["
            ++ DataQualityRule.table rule ++ "] WHERE ["
            ++ DataQualityRule.column rule ++ "] IS NULL;" ++ LF ++ LF
    | Unique =>
        sql ++ declarations
            ++ "    SELECT @FailCount = COUNT(" ++ "*) - COUNT(DISTINCT ["
            ++ DataQualityRule.column rule ++ "]) FROM ["
            ++ DataQualityRule.table rule ++ "];" ++ LF ++ LF
    | Range =>
        let minValue :=
          parameterOr (DataQualityRule.parameters rule) "minValue"
                      (literal 0 eq_refl) in
        let maxValue :=
          parameterOr (DataQualityRule.parameters rule) "maxValue"
                      (literal 999999 eq_refl) in
        sql ++ declarations
            ++ "    SELECT @FailCount = COUNT(" ++ "*) FROM ["
            ++ DataQualityRule.table rule ++ "] WHERE ["
            ++ DataQualityRule.column rule ++ "] NOT BETWEEN "
            ++ toString minValue ++ " AND " ++ toString maxValue ++ ";"
            ++ LF ++ LF
    | _ =>
        sql ++ "    -- Custom rule implementation needed" ++ LF
            ++ "    DECLARE @FailCount BIGINT = 0;" ++ LF
            ++ "    DECLARE @TotalCount BIGINT = 0;" ++ LF ++ LF
    end in
  let sql := sql ++ "    INSERT INTO [dbo].[DataQualityResults] (" ++ LF in
  let sql := sql ++ "        RuleName, TableName, ColumnName, Severity," ++ LF in
  let sql := sql ++ "        Status, RecordsChecked, RecordsFailed," ++ LF in
  let sql := sql ++ "        FailurePercentage, ETLBatchID" ++ LF in
  let sql := sql ++ "    )" ++ LF in
  let sql := sql ++ "    VALUES (" ++ LF in
  let sql := sql ++ "        '" ++ DataQualityRule.name rule ++ "', '"
                 ++ DataQualityRule.table rule ++ "', '"
                 ++ DataQualityRule.column rule ++ "', '"
                 ++ Severity_str (DataQualityRule.severity rule) ++ "'," ++ LF in
  let sql := sql ++ "        CASE WHEN @FailCount = 0 THEN 'Pass' ELSE 'Fail' END,"
                 ++ LF in
  let sql := sql ++ "        @TotalCount, @FailCount," ++ LF in
  let sql := sql ++ "        CASE WHEN @TotalCount > 0 THEN (@FailCount * 100.0 / @TotalCount) ELSE 0 END,"
                 ++ LF in
  let sql := sql ++ "        @ETLBatchID" ++ LF in
  let sql := sql ++ "    );" ++ LF in
  sql ++ "END;" ++ LF.

Record QualityFrameworkResult : Type := {
  qualityFramework : string;
  rules : list string;
  dq_message : string
}.

(** [createDataQualityFramework(rules)]. *)
Definition createDataQualityFramework (rules : list DataQualityRule.t)
  : QualityFrameworkResult :=
  let sql := "-- Data Quality Framework" ++ LF ++ LF in
  let sql :=
    sql ++ lines
      [ "CREATE TABLE [dbo].[DataQualityResults] (";
        "    ResultID BIGINT IDENTITY(1,1) PRIMARY KEY,";
        "    RuleName NVARCHAR(100) NOT NULL,";
        "    TableName NVARCHAR(256) NOT NULL,";
        "    ColumnName NVARCHAR(128),";
        "    CheckDate DATETIME2 NOT NULL DEFAULT GETDATE(),";
        "    Severity NVARCHAR(20) NOT NULL,";
        "    Status NVARCHAR(20) NOT NULL, -- Pass/Fail";
        "    RecordsChecked BIGINT,";
        "    RecordsFailed BIGINT,";
        "    FailurePercentage DECIMAL(5,2),";
        "    ErrorMessage NVARCHAR(MAX),";
        "    ETLBatchID BIGINT";
        ");";
        EmptyString ] in
  let sql :=
    forEach (fun sql rule _ => (sql ++ generateDataQualityRule rule) ++ LF ++ LF)
            rules sql in
  {| qualityFramework := sql;
     rules := map DataQualityRule.name rules;
     dq_message := "Data quality framework generated successfully" |}.

Record CatalogResult : Type := {
  catalogEntries : nat;
  cat_sqlScript : string;
  cat_message : string
}.

Definition catalogColumnInsert (column : CatalogColumn.t) : string :=
  lines
    [ "INSERT INTO [dbo].[DataCatalogColumns] (";
      "    CatalogID, ColumnName, DataType, Description,";
      "    BusinessName, IsPII, Classification";
      ")";
      "VALUES (";
      "    SCOPE_IDENTITY(), '" ++ CatalogColumn.name column ++ "', '"
        ++ CatalogColumn.dataType column ++ "', '"
        ++ CatalogColumn.description column ++ "',";
      "    '" ++ CatalogColumn.businessName column ++ "', "
        ++ (if CatalogColumn.isPII column then "1" else "0") ++ ", '"
        ++ CatalogColumn.classification column ++ "'";
      ");";
      EmptyString ].

Definition catalogEntryInsert (entry : DataCatalogEntry.t) : string :=
  lines
    [ "-- Catalog entry for " ++ DataCatalogEntry.name entry;
      "INSERT INTO [dbo].[DataCatalog] (";
      "    ObjectName, ObjectType, SchemaName, Description,";
      "    BusinessOwner, TechnicalOwner, Classification, Tags";
      ")";
      "VALUES (";
      "    '" ++ DataCatalogEntry.name entry ++ "', '"
        ++ CatalogObjectType_str (DataCatalogEntry.type entry) ++ "', '"
        ++ DataCatalogEntry.schema entry ++ "', '"
        ++ DataCatalogEntry.description entry ++ "',";
      "    '" ++ DataCatalogEntry.businessOwner entry ++ "', '"
        ++ DataCatalogEntry.technicalOwner entry ++ "', '"
        ++ Classification_str (DataCatalogEntry.classification entry) ++ "', '"
        ++ join ", " (DataCatalogEntry.tags entry) ++ "'";
      ");";
      EmptyString ].

(** [generateDataCatalog(entries)]. *)
Definition generateDataCatalog (entries : list DataCatalogEntry.t)
  : CatalogResult :=
  let sql := "-- Data Catalog Tables" ++ LF ++ LF in
  let sql :=
    sql ++ lines
      [ "CREATE TABLE [dbo].[DataCatalog] (";
        "    CatalogID BIGINT IDENTITY(1,1) PRIMARY KEY,";
        "    ObjectName NVARCHAR(256) NOT NULL,";
        "    ObjectType NVARCHAR(50) NOT NULL,";
        "    SchemaName NVARCHAR(128) NOT NULL,";
        "    Description NVARCHAR(MAX),";
        "    BusinessOwner NVARCHAR(100),";
        "    TechnicalOwner NVARCHAR(100),";
        "    Classification NVARCHAR(50),";
        "    Tags NVARCHAR(500),";
        "    CreatedDate DATETIME2 NOT NULL DEFAULT GETDATE(),";
        "    LastUpdated DATETIME2 NOT NULL DEFAULT GETDATE()";
        ");";
        EmptyString;
        "CREATE TABLE [dbo].[DataCatalogColumns] (";
        "    ColumnID BIGINT IDENTITY(1,1) PRIMARY KEY,";
        "    CatalogID BIGINT NOT NULL,";
        "    ColumnName NVARCHAR(128) NOT NULL,";
        "    DataType NVARCHAR(100) NOT NULL,";
        "    Description NVARCHAR(MAX),";
        "    BusinessName NVARCHAR(256),";
        "    IsPII BIT NOT NULL DEFAULT 0,";
        "    Classification NVARCHAR(50),";
        "    FOREIGN KEY (CatalogID) REFERENCES [dbo].[DataCatalog](CatalogID)";
        ");";
        EmptyString ] in
  let sql :=
    forEach
      (fun sql entry _ =>
         let sql := sql ++ catalogEntryInsert entry in
         match DataCatalogEntry.columns entry with
         | Some columns =>
             forEach (fun sql column _ => sql ++ catalogColumnInsert column)
                     columns sql
         | None => sql
         end)
      entries sql in
  {| catalogEntries := List.length entries;
     cat_sqlScript := sql;
     cat_message := "Data catalog generated successfully" |}.

(** [generateAggregateTable(schema)]. *)
Definition generateAggregateTable (schema : StarSchema.t) : string :=
  let sql := "-- Aggregate table for " ++ StarSchema.name schema ++ LF in
  let sql := sql ++ "CREATE TABLE [" ++ StarSchema.name schema ++ "].[Fact_"
                 ++ StarSchema.name schema ++ "_Monthly] (" ++ LF in
  let sql := sql ++ "    AggregateKey BIGINT IDENTITY(1,1) PRIMARY KEY," ++ LF in
  let sql := sql ++ "    YearMonth INT NOT NULL," ++ LF in
  let sql :=
    forEach (fun sql key _ => sql ++ "    " ++ key ++ " BIGINT NOT NULL," ++ LF)
            (filter (fun key => negb (key =? "DateKey"))
                    (FactTable.dimensionKeys (StarSchema.factTable schema)))
            sql in
  let sql :=
    forEach
      (fun sql measure _ =>
         let sql := sql ++ "    " ++ measure ++ "_Sum DECIMAL(18,2)," ++ LF in
         let sql := sql ++ "    " ++ measure ++ "_Avg DECIMAL(18,2)," ++ LF in
         sql ++ "    " ++ measure ++ "_Count BIGINT," ++ LF)
      (FactTable.measures (StarSchema.factTable schema)) sql in
  let sql := sql ++ "    RecordCount BIGINT NOT NULL," ++ LF in
  let sql := sql ++ "    CreatedDate DATETIME2 NOT NULL DEFAULT GETDATE()" ++ LF in
  sql ++ ");" ++ LF.

(** [generateOLAPViews(schema)]. *)
Definition generateOLAPViews (schema : StarSchema.t) : string :=
  let sql := "-- OLAP views for " ++ StarSchema.name schema ++ LF in
  let sql := sql ++ "CREATE VIEW [" ++ StarSchema.name schema
                 ++ "].[v_TimeAnalysis] AS" ++ LF in
  let sql := sql ++ "SELECT " ++ LF in
  let sql := sql ++ "    d.Year," ++ LF in
  let sql := sql ++ "    d.Quarter," ++ LF in
  let sql := sql ++ "    d.MonthName," ++ LF in
  let sql :=
    forEach
      (fun sql measure _ =>
         let sql := sql ++ "    SUM(f." ++ measure ++ ") as Total_" ++ measure
                        ++ "," ++ LF in
         sql ++ "    AVG(f." ++ measure ++ ") as Avg_" ++ measure ++ "," ++ LF)
      (FactTable.measures (StarSchema.factTable schema)) sql in
  let sql := sql ++ "    COUNT(" ++ "*) as RecordCount" ++ LF in
  let sql := sql ++ "FROM [" ++ FactTable.name (StarSchema.factTable schema)
                 ++ "] f" ++ LF in
  let sql := sql ++ "JOIN [DimDate] d ON f.DateKey = d.DateKey" ++ LF in
  sql ++ "GROUP BY d.Year, d.Quarter, d.MonthName;" ++ LF ++ LF.

Record DataMartsResult : Type := {
  dataMarts : list string;
  targetDatabase : string;
  mart_sqlScript : string;
  mart_message : string
}.

(** [generateDataMarts(starSchemas, targetDatabase = 'DataMart')]. *)
Definition generateDataMarts (starSchemas : list StarSchema.t)
           (targetDatabase : option string) : DataMartsResult :=
  let targetDatabase := dflt "DataMart" targetDatabase in
  let sql := "-- Data Marts Generation" ++ LF in
  let sql := sql ++ "-- Target Database: " ++ targetDatabase ++ LF ++ LF in
  let sql := sql ++ "USE [" ++ targetDatabase ++ "]" ++ LF ++ "GO" ++ LF ++ LF in
  let sql :=
    forEach
      (fun sql schema _ =>
         let sql := sql ++ "-- Data Mart for " ++ StarSchema.name schema ++ LF in
         let sql := sql ++ "CREATE SCHEMA [" ++ StarSchema.name schema ++ "]" ++ LF
                        ++ "GO" ++ LF ++ LF in
         let sql := sql ++ generateAggregateTable schema in
         let sql := sql ++ LF ++ LF in
         let sql := sql ++ generateOLAPViews schema in
         sql ++ LF ++ LF)
      starSchemas sql in
  {| dataMarts := map StarSchema.name starSchemas;
     targetDatabase := targetDatabase;
     mart_sqlScript := sql;
     mart_message := "Data marts generated for "
                       ++ string_of_nat (List.length starSchemas)
                       ++ " star schemas" |}.

End Warehouse.

(* ================================================================== *)
(** * The public methods as asynchronous computations

    The methods whose body neither reads the clock nor calls the service:
    their body computes the value given above inside [try]/[catch]. *)

Module Async.

Definition generateDimensionTable tableName businessName columns options
  : M Dimensional.DimensionResult :=
  rethrow "Failed to generate dimension table: "
    (ret (Dimensional.generateDimensionTable tableName businessName columns
            options)).

Definition generateFactTable tableName businessName measures dimensionKeys
           options : M Dimensional.FactResult :=
  rethrow "Failed to generate fact table: "
    (ret (Dimensional.generateFactTable tableName businessName measures
            dimensionKeys options)).

Definition generateStarSchema schemaName factTable dimensionTables options
  : M Dimensional.StarSchemaResult :=
  rethrow "Failed to generate star schema: "
    (ret (Dimensional.generateStarSchema schemaName factTable dimensionTables
            options)).

Definition validateStarSchema starSchema : M Dimensional.ValidationReport :=
  rethrow "Failed to validate star schema: "
    (ret (Dimensional.validateStarSchema starSchema)).

Definition generateStandardDimensions : M Warehouse.StandardDimensionsResult :=
  rethrow "Failed to generate standard dimensions: "
    (ret Warehouse.generateStandardDimensions).

Definition createDataQualityFramework rules
  : M Warehouse.QualityFrameworkResult :=
  rethrow "Failed to create data quality framework: "
    (ret (Warehouse.createDataQualityFramework rules)).

Definition generateDataCatalog entries : M Warehouse.CatalogResult :=
  rethrow "Failed to generate data catalog: "
    (ret (Warehouse.generateDataCatalog entries)).

Definition generateDataMarts starSchemas targetDatabase
  : M Warehouse.DataMartsResult :=
  rethrow "Failed to generate data marts: "
    (ret (Warehouse.generateDataMarts starSchemas targetDatabase)).

End Async.

(* ================================================================== *)
(** * Notions used to state the properties *)

Import Dimensional Fabric Warehouse.

(** Number of columns of a fact table that carry a given name. *)
Definition countNamed (n : string) (cols : list FactColumn.t) : nat :=
  List.length (filter (fun c => FactColumn.name c =? n) cols).

(** The statements of [generateFactSQL], one per list element. *)
Definition factIndexStatements (fact : FactTable.t) (schemaName : string)
  : list string :=
  map (factKeyIndex fact schemaName) (FactTable.dimensionKeys fact).

(** The validation rules of [validateStarSchema], each taken on its own:
    what a rule reports does not depend on the other rules. *)
Definition keyErrorsOf (dims : list DimensionTable.t) (keys : list string)
  : list string :=
  flat_map
    (fun dimKey =>
       match relatedDimension dims (dimensionNameOf dimKey) with
       | Some _ => []
       | None => [ "Fact table references dimension " ++ dimensionNameOf dimKey
                     ++ " which is not defined" ]
       end)
    keys.

Definition keyErrors (s : StarSchema.t) : list string :=
  keyErrorsOf (StarSchema.dimensionTables s)
              (FactTable.dimensionKeys (StarSchema.factTable s)).

Definition scdErrorsOf (dims : list DimensionTable.t) : list string :=
  flat_map
    (fun dim =>
       if (SCDType_eqb (DimensionTable.scdType dim) SCD2
           && negb (hasRequiredSCDColumns dim))%bool
       then [ "SCD Type 2 dimension " ++ DimensionTable.name dim
                ++ " is missing required SCD columns" ]
       else [])
    dims.

Definition scdErrors (s : StarSchema.t) : list string :=
  scdErrorsOf (StarSchema.dimensionTables s).

Definition measureWarnings (s : StarSchema.t) : list string :=
  if (List.length (FactTable.measures (StarSchema.factTable s)) =? 0)%nat
  then [ "Fact table has no measures defined" ]
  else [].

Definition naturalKeyWarningsOf (dims : list DimensionTable.t) : list string :=
  flat_map
    (fun dim =>
       if (List.length (DimensionTable.naturalKey dim) =? 0)%nat
       then [ "Dimension " ++ DimensionTable.name dim
                ++ " has no natural key defined" ]
       else [])
    dims.

Definition naturalKeyWarnings (s : StarSchema.t) : list string :=
  naturalKeyWarningsOf (StarSchema.dimensionTables s).

(** The same schema with other inputs to the two warning rules: the fact's
    [measures] and every dimension's [naturalKey]. *)
Definition withNaturalKey (naturalKey : DimensionTable.t -> list string)
           (dim : DimensionTable.t) : DimensionTable.t :=
  DimensionTable.mk (DimensionTable.name dim) (DimensionTable.businessName dim)
    (DimensionTable.description dim) (DimensionTable.columns dim)
    (DimensionTable.scdType dim) (naturalKey dim)
    (DimensionTable.surrogateKey dim).

Definition withWarningInputs (measures : list string)
           (naturalKey : DimensionTable.t -> list string) (s : StarSchema.t)
  : StarSchema.t :=
  let fact := StarSchema.factTable s in
  StarSchema.mk (StarSchema.name s) (StarSchema.description s)
    (FactTable.mk (FactTable.name fact) (FactTable.businessName fact)
       (FactTable.description fact) (FactTable.columns fact) measures
       (FactTable.dimensionKeys fact) (FactTable.grainDescription fact))
    (map (withNaturalKey naturalKey) (StarSchema.dimensionTables s)).

(** [pat] occurs somewhere in [s]. *)
Fixpoint occurs (pat s : string) : bool :=
  (prefix pat s
   || match s with
      | EmptyString => false
      | String _ r => occurs pat r
      end)%bool.

(** A schema whose only dimension is named [KeyAccount] and whose fact
    references it by the key [KeyAccountKey]. *)
Definition keyAccountSchema : StarSchema.t :=
  StarSchema.mk "Sales" None
    (factTable
       (generateFactTable "FactSales" "Sales"
          [ FactColumn.mk "Amount" "DECIMAL(18,2)" (Some SUM) (Some true)
              (Some true) None ]
          [ "KeyAccountKey" ] noFactOptions))
    [ dimensionTable
        (generateDimensionTable "KeyAccount" "Key account" []
           (Build_DimensionOptions None (Some [ "AccountCode" ]) None None)) ].

(** ** Activity graphs *)

Definition activityNames (acts : list PipelineActivity.t) : list string :=
  map PipelineActivity.name acts.

(** Every predecessor name is the name of an activity at a strictly
    smaller position of the list. *)
Definition backwardRefs (acts : list PipelineActivity.t) : Prop :=
  forall i a d,
    nth_error acts i = Some a -> In d (deps a) ->
    exists j b,
      j < i /\ nth_error acts j = Some b /\ PipelineActivity.name b = d.

(** No activity lists its own name among its predecessors. *)
Definition noSelfRef (acts : list PipelineActivity.t) : Prop :=
  forall a, In a acts -> ~ In (PipelineActivity.name a) (deps a).

(** The dependency graph on activity names and its acyclicity. *)
Definition dependsOnEdge (acts : list PipelineActivity.t) (n d : string) : Prop :=
  exists a, In a acts /\ PipelineActivity.name a = n /\ In d (deps a).

Definition acyclic (acts : list PipelineActivity.t) : Prop :=
  forall n, ~ clos_trans string (dependsOnEdge acts) n n.

(** The pipeline definitions the four builders can assemble. *)
Inductive builderOutput : PipelineDefinition.t -> Prop :=
| built_dimensionLoad :
    forall dimensionName sourceDataset targetDataset naturalKeys scdType,
      builderOutput
        (dimensionLoadPipelineDefinition dimensionName sourceDataset
           targetDataset naturalKeys scdType)
| built_factLoad :
    forall factName sourceDataset targetDataset dimensionMappings,
      builderOutput
        (factLoadPipelineDefinition factName sourceDataset targetDataset
           dimensionMappings)
| built_master :
    forall name childPipelines options,
      builderOutput (masterPipelineDefinition name childPipelines options)
| built_starSchemaETL :
    forall starSchemaName dimensionPipelines factPipelines,
      builderOutput
        (starSchemaETLPipelineDefinition starSchemaName dimensionPipelines
           factPipelines).

(** Position of the first occurrence of a name. *)
Fixpoint indexOf (n : string) (l : list string) : nat :=
  match l with
  | [] => 0
  | x :: r => if x =? n then 0 else S (indexOf n r)
  end.

(** All predecessors of every activity are among [seen] or among the names
    of the activities before it. *)
Fixpoint depsWithin (seen : list string) (acts : list PipelineActivity.t)
  : Prop :=
  match acts with
  | [] => True
  | a :: rest =>
      incl (deps a) seen
      /\ depsWithin (seen ++ [ PipelineActivity.name a ]) rest
  end.

(** The activity [createMasterPipeline] pushes for the child at position
    [index]. *)
Definition masterActivity (sequential : bool) (childPipelines : list string)
           (pipeline : string) (index : nat) : PipelineActivity.t :=
  if sequential
  then sequentialExecuteActivity childPipelines pipeline index
  else parallelExecuteActivity pipeline.

Definition sequentialOptions : MasterOptions :=
  Build_MasterOptions (Some true) None None.

(** A sequential master pipeline that runs the same child twice. *)
Definition repeatedChildMaster : PipelineDefinition.t :=
  masterPipelineDefinition "Master" [ "A"; "A" ] sequentialOptions.

(** ** Batch deployment *)

(** Calling [f] on every item in turn, whatever each call returns: the
    world after the last call, and every item with the outcome of its
    call. *)
Fixpoint attemptAll {A B : Type} (f : A -> M B) (arr : list A) (w : World)
  : World * list (A * (JsError + B)) :=
  match arr with
  | [] => (w, [])
  | x :: rest =>
      let (w1, r) := f x w in
      let (w2, rs) := attemptAll f rest w1 in
      (w2, (x, r) :: rs)
  end.

Definition succeededNames {A B : Type} (name : A -> string)
           (outcomes : list (A * (JsError + B))) : list string :=
  flat_map (fun o => match snd o with
                     | inr _ => [ name (fst o) ]
                     | inl _ => []
                     end) outcomes.

Definition failureMessages {A B : Type} (message : A -> JsError -> string)
           (outcomes : list (A * (JsError + B))) : list string :=
  flat_map (fun o => match snd o with
                     | inl e => [ message (fst o) e ]
                     | inr _ => []
                     end) outcomes.

Definition dataFlowFailure (dataFlow : DataFlowDefinition.t) (error : JsError)
  : string :=
  "Failed to deploy data flow " ++ DataFlowDefinition.name dataFlow ++ ": "
    ++ String_of_error error.

Definition pipelineFailure (pipeline : PipelineDefinition.t) (error : JsError)
  : string :=
  "Failed to deploy pipeline " ++ PipelineDefinition.name pipeline ++ ": "
    ++ String_of_error error.

(** Token and workspace URL are both set. *)
Definition configured (cfg : Config) : bool :=
  (truthy_str (fabricToken cfg) && truthy_str (workspaceUrl cfg))%bool.

Definition dataFlowUrl (cfg : Config) (dataFlow : DataFlowDefinition.t)
  : string :=
  tpl (workspaceUrl cfg) ++ "/api/v1/" ++ "dataflows/"
    ++ DataFlowDefinition.name dataFlow.

Definition pipelineUrl (cfg : Config) (pipeline : PipelineDefinition.t)
  : string :=
  tpl (workspaceUrl cfg) ++ "/api/v1/" ++ "pipelines/"
    ++ PipelineDefinition.name pipeline.

(** The state update of a loop whose body is
    [try { await f(x); onOk } catch (error) { onErr }]. *)
Definition recordOutcome {A B St : Type} (onOk : St -> A -> St)
           (onErr : St -> A -> JsError -> St) (s : St)
           (o : A * (JsError + B)) : St :=
  match snd o with
  | inr _ => onOk s (fst o)
  | inl e => onErr s (fst o) e
  end.

(** ** Purity *)



(** The request by which a builder submits its pipeline definition. *)
Definition submission (cfg : Config) (p : PipelineDefinition.t) : Request :=
  apiRequest cfg ("pipelines/" ++ PipelineDefinition.name p) "PUT"
    (Some (pipelineBody p)).

(** ** A concrete environment *)

Definition exampleConfig : Config :=
  {| fabricToken := Some "token";
     workspaceUrl := Some "https://fabric.example" |}.

(** A service that rejects the data flow [X] and accepts everything else. *)
Definition rejectX (history : list Request) (req : Request)
  : JsError + Response :=
  if url req =? "https://fabric.example/api/v1/dataflows/X"
  then inr {| ok := false; status := 500;
              statusText := "Internal Server Error"; text := "rejected";
              json := inr JNull |}
  else inr {| ok := true; status := 200; statusText := "OK";
              text := "{}"; json := inr (JObj [ ("id", JStr "42") ]) |}.

(** A clock that shows a new second at every reading. *)
Definition exampleClock (n : nat) : Instant :=
  {| epoch_ms := 1767225600000 + 1000 * Z.of_nat n;
     iso8601 := "2026-01-01T00:00:0" ++ string_of_nat (n mod 10) ++ ".000Z" |}.

Definition exampleWorld : World :=
  {| clock := exampleClock; clock_reads := 0; service := rejectX; sent := [] |}.

Definition namedDataFlow (name : string) : DataFlowDefinition.t :=
  DataFlowDefinition.mk name None [] [] [].

(* ================================================================== *)
(** * Schedule triggers ([createScheduledPipeline]) *)

Module Triggers.

Inductive Frequency : Type := Daily | Weekly | Monthly.

Definition Frequency_str (f : Frequency) : string :=
  match f with Daily => "Daily" | Weekly => "Weekly" | Monthly => "Monthly" end.

(** The [schedule] argument. *)
Record Schedule : Type := {
  frequency : Frequency;
  interval : Number;
  startTime : string;
  timeZone : option string
}.

Definition triggerName (pipelineName : string) : string :=
  "tr_" ++ pipelineName ++ "_Schedule".

Definition triggerBody (pipelineName : string) (schedule : Schedule) : JsValue :=
  JObj [ ("properties",
          JObj [ ("type", JStr "ScheduleTrigger");
                 ("typeProperties",
                  JObj [ ("recurrence",
                          JObj [ ("frequency",
                                  JStr (Frequency_str (frequency schedule)));
                                 ("interval", JNum (interval schedule));
                                 ("startTime", JStr (startTime schedule));
                                 ("timeZone",
                                  JStr (if truthy_str (timeZone schedule)
                                        then tpl (timeZone schedule)
                                        else "UTC")) ]) ]);
                 ("pipelines",
                  JArr [ JObj [ ("pipelineReference",
                                 JObj [ ("referenceName", JStr pipelineName);
                                        ("type", JStr "PipelineReference") ]) ] ]) ]) ].

Record ScheduledPipeline : Type := {
  sched_triggerName : string;
  sched_pipelineName : string;
  sched_schedule : Schedule;
  sched_message : string
}.

(** [createScheduledPipeline(pipelineName, schedule)]. *)
Definition createScheduledPipeline (cfg : Config) (pipelineName : string)
           (schedule : Schedule) : M ScheduledPipeline :=
  rethrow "Failed to create scheduled pipeline: "
    (response <- makeApiRequest cfg ("triggers/" ++ triggerName pipelineName)
                   "PUT" (Some (triggerBody pipelineName schedule)) ;;
     _ <- makeApiRequest cfg
            ("triggers/" ++ triggerName pipelineName ++ "/start") "POST" None ;;
     ret {| sched_triggerName := triggerName pipelineName;
            sched_pipelineName := pipelineName;
            sched_schedule := schedule;
            sched_message := "Scheduled trigger created and started for "
                               ++ pipelineName |}).

End Triggers.

(* ================================================================== *)
(** * Tool listing and dispatch of the server ([index.ts])

    Of each tool the embedding keeps the name, of each [case] of the
    dispatcher the method it calls. *)

Module Server.

(** The tool-set variables of the server; each is [null] or an instance. *)
Inductive ToolSet : Type :=
| dataLakeTools | storageTools | fabricTools | dataFactoryTools
| sqlDatabaseTools | databricksTools | monitorTools | synapseTools
| dimensionalTools | fabricPipelineTools | dataWarehouseTools.

Definition ToolSet_eqb (a b : ToolSet) : bool :=
  match a, b with
  | dataLakeTools, dataLakeTools | storageTools, storageTools
  | fabricTools, fabricTools | dataFactoryTools, dataFactoryTools
  | sqlDatabaseTools, sqlDatabaseTools | databricksTools, databricksTools
  | monitorTools, monitorTools | synapseTools, synapseTools
  | dimensionalTools, dimensionalTools
  | fabricPipelineTools, fabricPipelineTools
  | dataWarehouseTools, dataWarehouseTools => true
  | _, _ => false
  end.

(** Which tool-set variables hold an instance. *)
Definition Availability : Type := ToolSet -> bool.

(** The names pushed by the [ListTools] handler, block by block. *)
Definition listedTools : list (ToolSet * list string) :=
  [
    (dataLakeTools,
     [ "datalake_list_filesystems";
       "datalake_create_filesystem";
       "datalake_list_files";
       "datalake_read_file";
       "datalake_upload_file";
       "datalake_delete_file";
       "datalake_create_directory" ]);
    (storageTools,
     [ "storage_list_containers";
       "storage_create_container";
       "storage_delete_container";
       "storage_list_blobs";
       "storage_upload_blob";
       "storage_download_blob";
       "storage_delete_blob";
       "storage_get_blob_properties";
       "storage_copy_blob" ]);
    (fabricTools,
     [ "fabric_list_workspaces";
       "fabric_get_workspace";
       "fabric_list_datasets";
       "fabric_list_reports";
       "fabric_list_dashboards";
       "fabric_list_dataflows";
       "fabric_get_dataset";
       "fabric_refresh_dataset";
       "fabric_get_dataset_refresh_history";
       "fabric_execute_dax";
       "fabric_list_lakehouses";
       "fabric_get_lakehouse";
       "fabric_list_notebooks" ]);
    (dataFactoryTools,
     [ "datafactory_list_factories";
       "datafactory_get_factory";
       "datafactory_list_pipelines";
       "datafactory_get_pipeline";
       "datafactory_create_pipeline_run";
       "datafactory_get_pipeline_run";
       "datafactory_cancel_pipeline_run" ]);
    (sqlDatabaseTools,
     [ "sql_list_servers";
       "sql_get_server";
       "sql_list_databases";
       "sql_get_database";
       "sql_execute_query" ]);
    (databricksTools,
     [ "databricks_list_workspaces";
       "databricks_get_workspace";
       "databricks_list_clusters";
       "databricks_get_cluster";
       "databricks_start_cluster";
       "databricks_terminate_cluster";
       "databricks_list_jobs";
       "databricks_run_job" ]);
    (monitorTools,
     [ "monitor_list_action_groups";
       "monitor_list_metric_alerts";
       "monitor_query_logs";
       "monitor_get_metrics" ]);
    (synapseTools,
     [ "synapse_list_workspaces";
       "synapse_get_workspace";
       "synapse_list_sql_pools";
       "synapse_pause_sql_pool";
       "synapse_resume_sql_pool";
       "synapse_list_pipelines";
       "synapse_create_pipeline_run" ]);
    (dimensionalTools,
     [ "dimensional_generate_dimension";
       "dimensional_generate_fact";
       "dimensional_generate_star_schema";
       "dimensional_validate_star_schema" ]);
    (fabricPipelineTools,
     [ "fabric_create_data_pipeline";
       "fabric_create_dimension_load_pipeline";
       "fabric_create_fact_load_pipeline";
       "fabric_create_star_schema_etl";
       "fabric_create_scheduled_pipeline" ]);
    (dataWarehouseTools,
     [ "dw_create_architecture";
       "dw_generate_standard_dimensions";
       "dw_create_data_quality_framework";
       "dw_generate_data_catalog";
       "dw_generate_data_marts" ])
  ].

(** The [ListTools] handler. *)
Definition listTools (av : Availability) : list string :=
  flat_map (fun block => if av (fst block) then snd block else []) listedTools.

(** A block [if (name.startsWith(prefix) && tools) { switch (name) ... }] of
    the [CallTool] handler: the prefix, the variable, and for each [case]
    its label and the method called. *)
Record DispatchBlock : Type := {
  prefix_of : string;
  tools_of : ToolSet;
  cases_of : list (string * string)
}.

Definition dispatchBlocks : list DispatchBlock :=
  [
    {| prefix_of := "datalake_";
       tools_of := dataLakeTools;
       cases_of :=
        [ ("datalake_list_filesystems", "listFileSystems");
          ("datalake_create_filesystem", "createFileSystem");
          ("datalake_list_files", "listFiles");
          ("datalake_read_file", "readFile");
          ("datalake_upload_file", "uploadFile");
          ("datalake_delete_file", "deleteFile");
          ("datalake_create_directory", "createDirectory") ] |};
    {| prefix_of := "storage_";
       tools_of := storageTools;
       cases_of :=
        [ ("storage_list_containers", "listContainers");
          ("storage_create_container", "createContainer");
          ("storage_delete_container", "deleteContainer");
          ("storage_list_blobs", "listBlobs");
          ("storage_upload_blob", "uploadBlob");
          ("storage_download_blob", "downloadBlob");
          ("storage_delete_blob", "deleteBlob");
          ("storage_get_blob_properties", "getBlobProperties");
          ("storage_copy_blob", "copyBlob") ] |};
    {| prefix_of := "fabric_";
       tools_of := fabricTools;
       cases_of :=
        [ ("fabric_list_workspaces", "listWorkspaces");
          ("fabric_get_workspace", "getWorkspace");
          ("fabric_list_datasets", "listDatasets");
          ("fabric_list_reports", "listReports");
          ("fabric_list_dashboards", "listDashboards");
          ("fabric_list_dataflows", "listDataflows");
          ("fabric_get_dataset", "getDataset");
          ("fabric_refresh_dataset", "refreshDataset");
          ("fabric_get_dataset_refresh_history", "getDatasetRefreshHistory");
          ("fabric_execute_dax", "executeDAX");
          ("fabric_list_lakehouses", "listLakehouses");
          ("fabric_get_lakehouse", "getLakehouse");
          ("fabric_list_notebooks", "listNotebooks") ] |};
    {| prefix_of := "datafactory_";
       tools_of := dataFactoryTools;
       cases_of :=
        [ ("datafactory_list_factories", "listFactories");
          ("datafactory_get_factory", "getFactory");
          ("datafactory_list_pipelines", "listPipelines");
          ("datafactory_get_pipeline", "getPipeline");
          ("datafactory_create_pipeline_run", "createPipelineRun");
          ("datafactory_get_pipeline_run", "getPipelineRun");
          ("datafactory_cancel_pipeline_run", "cancelPipelineRun") ] |};
    {| prefix_of := "sql_";
       tools_of := sqlDatabaseTools;
       cases_of :=
        [ ("sql_list_servers", "listServers");
          ("sql_get_server", "getServer");
          ("sql_list_databases", "listDatabases");
          ("sql_get_database", "getDatabase");
          ("sql_execute_query", "executeQuery") ] |};
    {| prefix_of := "databricks_";
       tools_of := databricksTools;
       cases_of :=
        [ ("databricks_list_workspaces", "listWorkspaces");
          ("databricks_get_workspace", "getWorkspace");
          ("databricks_list_clusters", "listClusters");
          ("databricks_get_cluster", "getCluster");
          ("databricks_start_cluster", "startCluster");
          ("databricks_terminate_cluster", "terminateCluster");
          ("databricks_list_jobs", "listJobs");
          ("databricks_run_job", "runJobNow") ] |};
    {| prefix_of := "monitor_";
       tools_of := monitorTools;
       cases_of :=
        [ ("monitor_list_action_groups", "listActionGroups");
          ("monitor_list_metric_alerts", "listMetricAlerts");
          ("monitor_query_logs", "queryLogs");
          ("monitor_get_metrics", "getMetrics") ] |};
    {| prefix_of := "synapse_";
       tools_of := synapseTools;
       cases_of :=
        [ ("synapse_list_workspaces", "listWorkspaces");
          ("synapse_get_workspace", "getWorkspace");
          ("synapse_list_sql_pools", "listSqlPools");
          ("synapse_pause_sql_pool", "pauseSqlPool");
          ("synapse_resume_sql_pool", "resumeSqlPool");
          ("synapse_list_pipelines", "listPipelines");
          ("synapse_create_pipeline_run", "createPipelineRun") ] |};
    {| prefix_of := "dimensional_";
       tools_of := dimensionalTools;
       cases_of :=
        [ ("dimensional_generate_dimension", "generateDimensionTable");
          ("dimensional_generate_fact", "generateFactTable");
          ("dimensional_generate_star_schema", "generateStarSchema");
          ("dimensional_validate_star_schema", "validateStarSchema") ] |};
    {| prefix_of := "fabric_create_";
       tools_of := fabricPipelineTools;
       cases_of :=
        [ ("fabric_create_data_pipeline", "createDataPipeline");
          ("fabric_create_dimension_load_pipeline", "createDimensionLoadPipeline");
          ("fabric_create_fact_load_pipeline", "createFactLoadPipeline");
          ("fabric_create_star_schema_etl", "createStarSchemaETLPipeline");
          ("fabric_create_scheduled_pipeline", "createScheduledPipeline") ] |};
    {| prefix_of := "dw_";
       tools_of := dataWarehouseTools;
       cases_of :=
        [ ("dw_create_architecture", "createDataWarehouseArchitecture");
          ("dw_generate_standard_dimensions", "generateStandardDimensions");
          ("dw_create_data_quality_framework", "createDataQualityFramework");
          ("dw_generate_data_catalog", "generateDataCatalog");
          ("dw_generate_data_marts", "generateDataMarts") ] |}
  ].

(** [name.startsWith(prefix)]. *)
Definition startsWith (name prefix : string) : bool := String.prefix prefix name.

(** The blocks are tried in order; a [switch] without matching [case] falls
    through to the next block; [None] stands for
    [throw new Error(`Unknown tool: ${name}`)]. *)
Fixpoint dispatch (blocks : list DispatchBlock) (av : Availability)
         (name : string) : option (ToolSet * string) :=
  match blocks with
  | [] => None
  | block :: rest =>
      if (startsWith name (prefix_of block) && av (tools_of block))%bool
      then match find (fun c => fst c =? name) (cases_of block) with
           | Some c => Some (tools_of block, snd c)
           | None => dispatch rest av name
           end
      else dispatch rest av name
  end.

(** The [CallTool] handler: the tool set and the method a name is routed
    to. *)
Definition callTool (av : Availability) (name : string)
  : option (ToolSet * string) :=
  dispatch dispatchBlocks av name.

End Server.

Import Triggers Server.

(* ================================================================== *)
(** * Start of the server ([config.ts], the constructors, [index.ts]) *)

(** [AzureConfig]: every field is an optional string read from the
    environment by [getConfig]. *)
Module AzureConfig.
Record t : Type := mk {
  subscriptionId : option string;
  tenantId : option string;
  clientId : option string;
  clientSecret : option string;
  storageAccountName : option string;
  storageAccountKey : option string;
  dataLakeAccountName : option string;
  fabricWorkspaceId : option string;
  databricksToken : option string;
  databricksWorkspaceUrl : option string;
  synapseToken : option string;
  synapseWorkspaceUrl : option string;
  logAnalyticsWorkspaceId : option string;
  fabricToken : option string;
  fabricWorkspaceUrl : option string
}.
End AzureConfig.

Module Startup.

(** Whether the calls into the Azure SDK made by the constructor of a tool
    set return (credentials and clients are built there). *)
Definition Sdk : Type := ToolSet -> bool.

(** [new X(config)] returns an instance ([true]) or throws ([false]).  The
    constructors first check the configuration, then call the SDK; those of
    [DimensionalModelingTools], [DataWarehouseManagement] and
    [FabricPipelineOrchestrator] only store fields. *)
Definition construct (sdk : Sdk) (config : AzureConfig.t) (tools : ToolSet)
  : bool :=
  match tools with
  | dataLakeTools =>
      if negb (truthy_str (AzureConfig.dataLakeAccountName config))
      then false else sdk dataLakeTools
  | storageTools =>
      if negb (truthy_str (AzureConfig.storageAccountName config))
      then false else sdk storageTools
  | fabricTools => sdk fabricTools
  | dataFactoryTools =>
      if negb (truthy_str (AzureConfig.subscriptionId config))
      then false else sdk dataFactoryTools
  | sqlDatabaseTools =>
      if negb (truthy_str (AzureConfig.subscriptionId config))
      then false else sdk sqlDatabaseTools
  | databricksTools =>
      if negb (truthy_str (AzureConfig.subscriptionId config))
      then false else sdk databricksTools
  | monitorTools =>
      if negb (truthy_str (AzureConfig.subscriptionId config))
      then false else sdk monitorTools
  | synapseTools =>
      if negb (truthy_str (AzureConfig.subscriptionId config))
      then false else sdk synapseTools
  | dimensionalTools => true
  | fabricPipelineTools => true
  | dataWarehouseTools => true
  end.

(** The fields the constructor of [FabricPipelineOrchestrator] stores. *)
Definition orchestratorConfig (config : AzureConfig.t) : Fabric.Config :=
  {| Fabric.fabricToken := AzureConfig.fabricToken config;
     Fabric.workspaceUrl := AzureConfig.fabricWorkspaceUrl config |}.

(** The statements of the [try] block of [index.ts]: a condition on the
    configuration and the tool sets constructed under it, in order. *)
Definition initSteps (config : AzureConfig.t) : list (bool * list ToolSet) :=
  [ (truthy_str (AzureConfig.dataLakeAccountName config), [ dataLakeTools ]);
    (truthy_str (AzureConfig.storageAccountName config), [ storageTools ]);
    (truthy_str (AzureConfig.subscriptionId config),
     [ fabricTools; dataFactoryTools; sqlDatabaseTools; monitorTools ]);
    ((truthy_str (AzureConfig.databricksToken config)
      && truthy_str (AzureConfig.databricksWorkspaceUrl config))%bool,
     [ databricksTools ]);
    ((truthy_str (AzureConfig.synapseToken config)
      && truthy_str (AzureConfig.synapseWorkspaceUrl config))%bool,
     [ synapseTools ]);
    (true, [ dimensionalTools; dataWarehouseTools ]);
    ((truthy_str (AzureConfig.fabricToken config)
      && truthy_str (AzureConfig.fabricWorkspaceUrl config))%bool,
     [ fabricPipelineTools ]) ].

(** The constructions the [try] block reaches when none throws. *)
Definition attempted (config : AzureConfig.t) : list ToolSet :=
  flat_map (fun step : bool * list ToolSet =>
              if fst step then snd step else [])
           (initSteps config).

(** Assigning an instance to a tool-set variable. *)
Definition assign (tools : ToolSet) (av : Availability) : Availability :=
  fun t => if ToolSet_eqb t tools then true else av t.

(** The constructions run in order; the first one that throws leaves the
    [try] block, and the [catch] only logs. *)
Fixpoint constructAll (sdk : Sdk) (config : AzureConfig.t)
         (todo : list ToolSet) (av : Availability) : Availability :=
  match todo with
  | [] => av
  | tools :: rest =>
      if construct sdk config tools
      then constructAll sdk config rest (assign tools av)
      else av
  end.

(** The tool-set variables after the start of the server: all [null]
    before the [try] block. *)
Definition initTools (sdk : Sdk) (config : AzureConfig.t) : Availability :=
  constructAll sdk config (attempted config) (fun _ => false).

End Startup.

Import Startup.

(* ================================================================== *)
(** * Notions used to state further properties *)

(** The tool sets whose constructor uses no credential. *)
Definition coreToolSets : list ToolSet :=
  [ dimensionalTools; dataWarehouseTools; fabricPipelineTools ].

(** A configuration with the Databricks token and URL only. *)
Definition databricksOnlyConfig : AzureConfig.t :=
  AzureConfig.mk None None None None None None None None
    (Some "token") (Some "https://adb.example") None None None None None.

(** The text one rule adds to the script of the quality framework. *)
Definition ruleSection (rule : DataQualityRule.t) : string :=
  generateDataQualityRule rule ++ LF ++ LF.

(** The text one entry adds to the script of the data catalog. *)
Definition catalogSection (entry : DataCatalogEntry.t) : string :=
  catalogEntryInsert entry
    ++ String.concat EmptyString
         (map catalogColumnInsert (dflt [] (DataCatalogEntry.columns entry))).

(** The text one star schema adds to the script of the data marts. *)
Definition martSection (schema : StarSchema.t) : string :=
  "-- Data Mart for " ++ StarSchema.name schema ++ LF
    ++ "CREATE SCHEMA [" ++ StarSchema.name schema ++ "]" ++ LF ++ "GO" ++ LF
    ++ LF ++ generateAggregateTable schema ++ LF ++ LF
    ++ generateOLAPViews schema ++ LF ++ LF.



(** Strings of ASCII characters. *)
Definition isAscii (s : string) : bool :=
  forallb (fun c => (nat_of_ascii c <? 128)%nat) (list_ascii_of_string s).

(** The first three characters of a name, in lower case. *)
Definition aliasOf (name : string) : string :=
  toLowerCase (substring 0 3 name).

(** The join of the view on one dimension. *)
Definition viewJoin (schemaName : string) (dim : DimensionTable.t) : string :=
  let alias := aliasOf (DimensionTable.name dim) in
  "LEFT JOIN [" ++ schemaName ++ "].[" ++ DimensionTable.name dim ++ "] "
    ++ alias ++ " ON f.[" ++ DimensionTable.name dim ++ "Key] = " ++ alias
    ++ ".[" ++ DimensionTable.surrogateKey dim ++ "]" ++ LF
    ++ (if SCDType_eqb (DimensionTable.scdType dim) SCD2
        then "    AND " ++ alias ++ ".[IsCurrent] = 1" ++ LF
        else EmptyString).

(** The rule types [generateDataQualityRule] has a check for. *)
Definition implemented (ruleType : RuleType) : bool :=
  match ruleType with
  | NotNull | Unique | Range => true
  | _ => false
  end.

(** The parts of the script of [generateStarSchema]. *)
Definition starSchemaHeader (schemaName description : string) : string :=
  "-- Star Schema: " ++ schemaName ++ LF ++ "-- " ++ description ++ LF ++ LF
    ++ "CREATE SCHEMA [" ++ schemaName ++ "];" ++ LF ++ "GO" ++ LF ++ LF.

Definition isSCD2 (dim : DimensionTable.t) : bool :=
  SCDType_eqb (DimensionTable.scdType dim) SCD2.

(** The answer of the service lets [makeApiRequest] return: the response is
    [ok] and its body parses as JSON. *)
Definition apiSucceeds (answer : JsError + Response) : bool :=
  match answer with
  | inr response =>
      (ok response && match json response with
                      | inr _ => true
                      | inl _ => false
                      end)%bool
  | inl _ => false
  end.

(** What [makeApiRequest] returns for an answer of the service. *)
Definition apiResult (answer : JsError + Response) : JsError + JsValue :=
  match answer with
  | inl e => inl e
  | inr response =>
      if negb (ok response)
      then inl (newError ("Fabric API error: "
                            ++ string_of_nat (status response) ++ " "
                            ++ statusText response ++ " - " ++ text response))
      else json response
  end.

(** The error thrown by [makeApiRequest] without token or workspace URL. *)
Definition credentialsRequired : JsError :=
  newError "Fabric token and workspace URL are required for pipeline operations".

(** The world after a request was sent. *)
Definition afterRequest (w : World) (req : Request) : World :=
  {| clock := clock w; clock_reads := clock_reads w;
     service := service w; sent := (sent w ++ [ req ])%list |}.

(** The world after [n] more readings of the clock. *)
Definition afterReads (w : World) (n : nat) : World :=
  {| clock := clock w; clock_reads := n + clock_reads w;
     service := service w; sent := sent w |}.

(** The two requests of [createScheduledPipeline]. *)
Definition triggerPut (cfg : Config) (pipelineName : string)
           (schedule : Schedule) : Request :=
  apiRequest cfg ("triggers/" ++ triggerName pipelineName) "PUT"
    (Some (triggerBody pipelineName schedule)).

Definition triggerStart (cfg : Config) (pipelineName : string) : Request :=
  apiRequest cfg ("triggers/" ++ triggerName pipelineName ++ "/start") "POST"
    None.

(** The constant [businessColumns] of [generateSCDStoredProcedure]. *)
Definition scdBusinessColumns (dimension : DimensionTable.t)
  : list DimensionColumn.t :=
  filter (fun col =>
            negb (includes systemColumnNames (DimensionColumn.name col))
            && negb (truthy_bool (DimensionColumn.isPrimaryKey col)))%bool
         (DimensionTable.columns dimension).

(** A column a caller may pass as business column without it being taken
    for a system column: it has none of the reserved names and is not
    flagged as primary key. *)
Definition businessColumn (col : DimensionColumn.t) : Prop :=
  includes systemColumnNames (DimensionColumn.name col) = false
  /\ truthy_bool (DimensionColumn.isPrimaryKey col) = false.

(** The same table with another column list. *)
Definition withColumns (columns : list DimensionColumn.t)
           (dim : DimensionTable.t) : DimensionTable.t :=
  DimensionTable.mk (DimensionTable.name dim) (DimensionTable.businessName dim)
    (DimensionTable.description dim) columns (DimensionTable.scdType dim)
    (DimensionTable.naturalKey dim) (DimensionTable.surrogateKey dim).

(** [l] is [m] with some elements left out. *)
Inductive subseq {A : Type} : list A -> list A -> Prop :=
| subseq_nil : subseq [] []
| subseq_skip : forall x l m, subseq l m -> subseq l (x :: m)
| subseq_keep : forall x l m, subseq l m -> subseq (x :: l) (x :: m).

(** The body entry written for the transformation at position [i], when
    the clock had been read [reads] times before. *)
Definition transformationBody (w : World) (i : nat) (transform : string)
  : JsValue :=
  JObj [ ("name",
          JStr ("transform_"
                  ++ string_of_Z (epoch_ms (clock w (i + clock_reads w)))));
         ("script", JStr transform) ].

(** The constant [dataFlowBody] of [createDataFlow], once the
    transformation entries are built. *)
Definition dataFlowBody (dataFlowDefinition : DataFlowDefinition.t)
           (transformations : list JsValue) : JsValue :=
  JObj [ ("properties",
          JObj [ ("description",
                  JOptStr (DataFlowDefinition.description dataFlowDefinition));
                 ("sources",
                  JArr (map (fun source =>
                               JObj [ ("name", JStr (DataFlowSource.name source));
                                      ("dataset",
                                       datasetReference
                                         (DataFlowSource.dataset source));
                                      ("transformation",
                                       JOptStr
                                         (DataFlowSource.transformation source)) ])
                            (DataFlowDefinition.sources dataFlowDefinition)));
                 ("sinks",
                  JArr (map (fun sink =>
                               JObj [ ("name", JStr (DataFlowSink.name sink));
                                      ("dataset",
                                       datasetReference
                                         (DataFlowSink.dataset sink));
                                      ("transformation",
                                       JOptStr
                                         (DataFlowSink.transformation sink)) ])
                            (DataFlowDefinition.sinks dataFlowDefinition)));
                 ("transformations", JArr transformations) ]) ].

(** The entries written for the transformations of a data flow when the
    run starts in world [w]. *)
Definition transformationEntries (w : World) (transformations : list string)
  : list JsValue :=
  map (fun p => transformationBody w (fst p) (snd p))
      (combine (seq 0 (List.length transformations)) transformations).

(** Methods of the three core classes that no [case] of the dispatcher
    calls. *)
Definition undispatchedMethods : list string :=
  [ "createMasterPipeline"; "deployPipelinePackage"; "createDataFlow";
    "monitorPipelineExecution"; "generateETLMapping" ].

(** All labels of the dispatcher, in order. *)
Definition caseLabels (blocks : list DispatchBlock) : list string :=
  flat_map (fun block => map fst (cases_of block)) blocks.

(** The routes of the dispatcher as a table: label, tool set, method. *)
Definition routes (blocks : list DispatchBlock)
  : list (string * (ToolSet * string)) :=
  flat_map (fun block =>
              map (fun c => (fst c, (tools_of block, snd c))) (cases_of block))
           blocks.

(** Every label of a block starts with the prefix of the block. *)
Definition labelsMatchPrefix (blocks : list DispatchBlock) : bool :=
  forallb (fun block =>
             forallb (fun c => startsWith (fst c) (prefix_of block))
                     (cases_of block))
          blocks.

Fixpoint nodupb (l : list string) : bool :=
  match l with
  | [] => true
  | x :: r => (negb (existsb (String.eqb x) r) && nodupb r)%bool
  end.

(* ================================================================== *)
(** * Lemmas on the JavaScript primitives *)

Section ForEach.

Variables A B : Type.

(** A loop that pushes one element per iteration builds the mapped list
    behind what was already there. *)
Lemma forEach_from_push (g : A -> nat -> B) (arr : list A) :
  forall (index : nat) (acc : list B),
    forEach_from (fun acc x i => push acc (g x i)) index arr acc
    = (acc ++ map (fun p => g (snd p) (fst p))
                  (combine (seq index (List.length arr)) arr))%list.
Proof.
  induction arr as [| x rest IH]; intros index acc; simpl.
  - now rewrite app_nil_r.
  - rewrite IH. unfold push. now rewrite <- app_assoc.
Qed.

Lemma forEach_push_map (g : A -> B) (arr : list A) (acc : list B) :
  forEach (fun acc x _ => push acc (g x)) arr acc = (acc ++ map g arr)%list.
Proof.
  unfold forEach. generalize 0 as index. revert acc.
  induction arr as [| x rest IH]; intros acc index; simpl.
  - now rewrite app_nil_r.
  - rewrite IH. unfold push. now rewrite <- app_assoc.
Qed.

End ForEach.

Arguments forEach_from_push {A B} g arr index acc.
Arguments forEach_push_map {A B} g arr acc.

Lemma append_assoc (a b c : string) : (a ++ b) ++ c = a ++ (b ++ c).
Proof. induction a as [| x a IH]; simpl; [reflexivity | now rewrite IH]. Qed.

Lemma append_nil_r (a : string) : a ++ EmptyString = a.
Proof. induction a as [| x a IH]; simpl; [reflexivity | now rewrite IH]. Qed.

Lemma length_append (a b : string) :
  String.length (a ++ b) = String.length a + String.length b.
Proof. induction a as [| x a IH]; simpl; [reflexivity | now rewrite IH]. Qed.

Lemma append_inj_l (p a b : string) : p ++ a = p ++ b -> a = b.
Proof.
  induction p as [| x p IH]; simpl; intros H; [assumption |].
  injection H as H. auto.
Qed.

Lemma append_same_length_inj (a b x y : string) :
  String.length a = String.length b -> a ++ x = b ++ y -> a = b.
Proof.
  revert b. induction a as [| c a IH]; intros [| d b]; simpl; try discriminate.
  - reflexivity.
  - intros Hl He. injection Hl as Hl. injection He as Hc He.
    subst d. f_equal. now apply IH.
Qed.

(** A loop that appends one piece of text per iteration. *)
Lemma forEach_append_concat (A : Type) (g : A -> string) (arr : list A)
      (sql : string) :
  forEach (fun sql x _ => sql ++ g x) arr sql
  = sql ++ String.concat EmptyString (map g arr).
Proof.
  unfold forEach. generalize 0 as index. revert sql.
  induction arr as [| x rest IH]; intros sql index; simpl.
  - now rewrite append_nil_r.
  - rewrite IH, append_assoc. f_equal.
    destruct rest; simpl; [now rewrite append_nil_r | reflexivity].
Qed.

Lemma includes_false_not_In (arr : list string) (x : string) :
  includes arr x = false <-> ~ In x arr.
Proof.
  unfold includes. split.
  - intros H Hin. apply Bool.not_true_iff_false in H. apply H.
    apply existsb_exists. exists x. split; [assumption | apply String.eqb_refl].
  - intros H. apply Bool.not_true_iff_false. intros Hex.
    apply existsb_exists in Hex. destruct Hex as [y [Hy He]].
    apply String.eqb_eq in He. subst y. contradiction.
Qed.

(* ================================================================== *)
(** * Dimension synthesis *)

Lemma generateDimensionTable_columns tableName businessName columns options :
  DimensionTable.columns
    (dimensionTable (generateDimensionTable tableName businessName columns options))
  = (stdDimColumn (dflt (tableName ++ "_SK")%string (opt_surrogateKey options))
       "BIGINT IDENTITY(1,1)" (Some true) "Surrogate key for the dimension"
     :: (if SCDType_eqb (dflt SCD2 (opt_scdType options)) SCD2
         then scdColumns else [])
     ++ auditColumns ++ columns)%list.
Proof.
  unfold generateDimensionTable. cbn [dimensionTable DimensionTable.columns].
  destruct (SCDType_eqb (dflt SCD2 (opt_scdType options)) SCD2); reflexivity.
Qed.

(** C4.  A dimension synthesised with SCD type 2 has, in this order: the
    surrogate-key column (named after the surrogate key and marked primary
    key), the columns EffectiveDate, ExpiryDate, IsCurrent, RecordVersion,
    the audit columns CreatedDate, ModifiedDate, CreatedBy, ModifiedBy, and
    then the caller's business columns, unchanged and in the given order. *)
Theorem generateDimensionTable_scd2_columns :
  forall (tableName businessName : string) (columns : list DimensionColumn.t)
         (options : DimensionOptions),
    dflt SCD2 (opt_scdType options) = SCD2 ->
    let dim :=
      dimensionTable
        (generateDimensionTable tableName businessName columns options) in
    exists sk system,
      DimensionTable.columns dim = (sk :: system ++ columns)%list
      /\ DimensionColumn.name sk = DimensionTable.surrogateKey dim
      /\ DimensionColumn.isPrimaryKey sk = Some true
      /\ map DimensionColumn.name system
         = [ "EffectiveDate"; "ExpiryDate"; "IsCurrent"; "RecordVersion";
             "CreatedDate"; "ModifiedDate"; "CreatedBy"; "ModifiedBy" ]
      /\ (forall n, In n systemColumnNames ->
                    In n (map DimensionColumn.name (DimensionTable.columns dim))).
Proof.
  intros tableName businessName columns options Hscd dim.
  assert (Hcols := generateDimensionTable_columns tableName businessName
                     columns options).
  fold dim in Hcols. rewrite Hscd in Hcols. cbn [SCDType_eqb] in Hcols.
  eexists. exists (scdColumns ++ auditColumns)%list.
  split; [ rewrite Hcols, <- app_assoc; reflexivity |].
  split; [ reflexivity |].
  split; [ reflexivity |].
  split; [ reflexivity |].
  intros n Hn. rewrite Hcols. cbn [map]. right.
  rewrite app_assoc, map_app. apply in_or_app. left. exact Hn.
Qed.

Lemma generateDimensionTable_scd2_columns_witness :
  exists sk system,
    DimensionTable.columns
      (dimensionTable
         (generateDimensionTable "Customer" "Customer"
            [ DimensionColumn.mk "CustomerCode" "NVARCHAR(20)" None (Some true)
                None None None ]
            noDimensionOptions))
    = (sk :: system
          ++ [ DimensionColumn.mk "CustomerCode" "NVARCHAR(20)" None (Some true)
                 None None None ])%list
    /\ DimensionColumn.name sk = "Customer_SK"
    /\ DimensionColumn.isPrimaryKey sk = Some true.
Proof.
  destruct (generateDimensionTable_scd2_columns "Customer" "Customer"
              [ DimensionColumn.mk "CustomerCode" "NVARCHAR(20)" None (Some true)
                  None None None ]
              noDimensionOptions eq_refl)
    as (sk & system & Hc & Hn & Hp & _).
  exists sk, system. repeat split; assumption.
Defined.

(* ================================================================== *)
(** * Fact synthesis *)

Lemma generateFactTable_columns tableName businessName measures dimensionKeys
      options :
  FactTable.columns
    (factTable (generateFactTable tableName businessName measures dimensionKeys
                  options))
  = (stdFactColumn "FactKey" "BIGINT IDENTITY(1,1)"
       "Surrogate key for the fact table"
     :: map foreignKeyColumn dimensionKeys
     ++ (if includes dimensionKeys "DateKey" then [] else [ dateKeyColumn ])
     ++ factAuditColumns ++ measures)%list.
Proof.
  unfold generateFactTable. cbn [factTable FactTable.columns].
  rewrite forEach_push_map.
  destruct (includes dimensionKeys "DateKey"); cbn [negb]; unfold push;
    rewrite <- ?app_assoc; reflexivity.
Qed.

Lemma generateFactTable_dimensionKeys tableName businessName measures
      dimensionKeys options :
  FactTable.dimensionKeys
    (factTable (generateFactTable tableName businessName measures dimensionKeys
                  options))
  = dimensionKeys.
Proof. reflexivity. Qed.

Lemma countNamed_app n a b :
  countNamed n (a ++ b) = countNamed n a + countNamed n b.
Proof. unfold countNamed. now rewrite filter_app, length_app. Qed.

Lemma countNamed_foreignKeys n keys :
  countNamed n (map foreignKeyColumn keys) = count_occ string_dec keys n.
Proof.
  unfold countNamed. induction keys as [| k keys IH]; simpl; [reflexivity |].
  destruct (string_dec k n) as [-> | Hne].
  - rewrite String.eqb_refl. simpl. now rewrite IH.
  - apply String.eqb_neq in Hne. rewrite Hne. exact IH.
Qed.

Lemma includes_count_occ keys n :
  includes keys n = negb (count_occ string_dec keys n =? 0)%nat.
Proof.
  unfold includes. induction keys as [| k keys IH]; simpl; [reflexivity |].
  destruct (string_dec k n) as [-> | Hne].
  - now rewrite String.eqb_refl.
  - rewrite IH. assert (H : (n =? k) = false)
      by (apply String.eqb_neq; congruence).
    now rewrite H.
Qed.

(** The number of columns named [DateKey] in a synthesised fact table. *)
Lemma generateFactTable_DateKey_count tableName businessName measures
      dimensionKeys options :
  countNamed "DateKey"
    (FactTable.columns
       (factTable (generateFactTable tableName businessName measures
                     dimensionKeys options)))
  = Nat.max 1 (count_occ string_dec dimensionKeys "DateKey")
    + countNamed "DateKey" measures.
Proof.
  rewrite generateFactTable_columns.
  change (?x :: ?l)%list with ([x] ++ l)%list.
  rewrite !countNamed_app, countNamed_foreignKeys, includes_count_occ.
  destruct (count_occ string_dec dimensionKeys "DateKey") as [| c]; simpl.
  - reflexivity.
  - unfold countNamed at 1 2. simpl. lia.
Qed.

(** C3 (as amended).  Fact synthesis returns the caller's [dimensionKeys]
    unchanged, and when the caller lists [DateKey] at most once among them
    and passes no measure column of that name, exactly one column of the
    result is named [DateKey]. *)
Theorem generateFactTable_keys_and_single_DateKey :
  forall (tableName businessName : string) (measures : list FactColumn.t)
         (dimensionKeys : list string) (options : FactOptions),
    count_occ string_dec dimensionKeys "DateKey" <= 1 ->
    countNamed "DateKey" measures = 0 ->
    let fact :=
      factTable (generateFactTable tableName businessName measures
                   dimensionKeys options) in
    FactTable.dimensionKeys fact = dimensionKeys
    /\ countNamed "DateKey" (FactTable.columns fact) = 1.
Proof.
  intros tableName businessName measures dimensionKeys options Hk Hm fact.
  split; [ reflexivity |].
  unfold fact. rewrite generateFactTable_DateKey_count, Hm. lia.
Qed.

Lemma generateFactTable_keys_and_single_DateKey_witness :
  FactTable.dimensionKeys
    (factTable (generateFactTable "Sales" "Sales"
                  [ FactColumn.mk "Amount" "DECIMAL(18,2)" (Some SUM) (Some true)
                      (Some true) None ]
                  [ "CustomerKey"; "DateKey" ] noFactOptions))
  = [ "CustomerKey"; "DateKey" ]
  /\ countNamed "DateKey"
       (FactTable.columns
          (factTable (generateFactTable "Sales" "Sales"
                        [ FactColumn.mk "Amount" "DECIMAL(18,2)" (Some SUM)
                            (Some true) (Some true) None ]
                        [ "CustomerKey"; "DateKey" ] noFactOptions)))
     = 1.
Proof.
  apply (generateFactTable_keys_and_single_DateKey "Sales" "Sales"
           [ FactColumn.mk "Amount" "DECIMAL(18,2)" (Some SUM) (Some true)
               (Some true) None ]
           [ "CustomerKey"; "DateKey" ] noFactOptions).
  - vm_compute. lia.
  - reflexivity.
Defined.

(** C3 as stated fails: a caller that lists [DateKey] twice gets two
    columns of that name. *)
Lemma generateFactTable_DateKey_twice :
  countNamed "DateKey"
    (FactTable.columns
       (factTable (generateFactTable "Sales" "Sales" []
                     [ "DateKey"; "DateKey" ] noFactOptions)))
  <> 1.
Proof. vm_compute. discriminate. Qed.

Lemma generateFactSQL_statements fact partitionColumn schemaName :
  generateFactSQL fact partitionColumn schemaName
  = factCreateTable fact schemaName
      ++ String.concat EmptyString (factIndexStatements fact schemaName)
      ++ factColumnstoreIndex fact schemaName.
Proof.
  unfold generateFactSQL, factIndexStatements.
  now rewrite forEach_append_concat, append_assoc.
Qed.

(** The index statement determines the key it was written for. *)
Lemma factKeyIndex_inj fact schemaName k1 k2 :
  factKeyIndex fact schemaName k1 = factKeyIndex fact schemaName k2 -> k1 = k2.
Proof.
  unfold factKeyIndex. intros H.
  do 4 apply append_inj_l in H.
  assert (Hlen : String.length k1 = String.length k2).
  { apply (f_equal String.length) in H.
    rewrite !length_append in H. simpl in H. lia. }
  exact (append_same_length_inj _ _ _ _ Hlen H).
Qed.

(** C10.  When the caller does not list [DateKey], the synthesised fact
    table has one BIGINT column per listed key, in order, followed by the
    added [DateKey] column of type INT; the returned [dimensionKeys] are the
    caller's, and the DDL has exactly one index statement per listed key and
    none for [DateKey]. *)
Theorem generateFactTable_auto_DateKey :
  forall (tableName businessName : string) (measures : list FactColumn.t)
         (dimensionKeys : list string) (options : FactOptions),
    ~ In "DateKey" dimensionKeys ->
    let result :=
      generateFactTable tableName businessName measures dimensionKeys options in
    let fact := factTable result in
    (exists factKey foreignKeys dateKey audit,
        FactTable.columns fact
        = (factKey :: foreignKeys ++ dateKey :: audit ++ measures)%list
        /\ map FactColumn.name foreignKeys = dimensionKeys
        /\ Forall (fun c => FactColumn.dataType c = "BIGINT") foreignKeys
        /\ FactColumn.name dateKey = "DateKey"
        /\ FactColumn.dataType dateKey = "INT"
        /\ map FactColumn.name audit = [ "CreatedDate"; "ETLBatchId" ])
    /\ FactTable.dimensionKeys fact = dimensionKeys
    /\ fact_sqlScript result
       = factCreateTable fact "dbo"
           ++ String.concat EmptyString
                (map (factKeyIndex fact "dbo") dimensionKeys)
           ++ factColumnstoreIndex fact "dbo"
    /\ ~ In (factKeyIndex fact "dbo" "DateKey")
            (map (factKeyIndex fact "dbo") dimensionKeys).
Proof.
  intros tableName businessName measures dimensionKeys options Hno result fact.
  split; [| split; [| split ]].
  - exists (stdFactColumn "FactKey" "BIGINT IDENTITY(1,1)"
              "Surrogate key for the fact table"),
      (map foreignKeyColumn dimensionKeys), dateKeyColumn, factAuditColumns.
    split.
    + unfold fact, result. rewrite generateFactTable_columns.
      apply includes_false_not_In in Hno. rewrite Hno. reflexivity.
    + split; [ rewrite map_map; apply map_id |].
      split; [ apply Forall_forall; intros c Hc; apply in_map_iff in Hc;
               destruct Hc as [k [<- _]]; reflexivity |].
      repeat split.
  - reflexivity.
  - unfold result at 1. cbn [generateFactTable fact_sqlScript].
    apply generateFactSQL_statements.
  - intros Hin. apply in_map_iff in Hin. destruct Hin as [k [Hk Hin]].
    apply factKeyIndex_inj in Hk. subst k. contradiction.
Qed.

Lemma generateFactTable_auto_DateKey_witness :
  FactTable.dimensionKeys
    (factTable (generateFactTable "Sales" "Sales" []
                  [ "CustomerKey"; "ProductKey" ] noFactOptions))
  = [ "CustomerKey"; "ProductKey" ].
Proof.
  refine (proj1 (proj2 (generateFactTable_auto_DateKey "Sales" "Sales" []
                          [ "CustomerKey"; "ProductKey" ] noFactOptions _))).
  simpl. intros [H | [H | []]]; discriminate H.
Defined.

(* ================================================================== *)
(** * Star-schema validation *)

Lemma forEach_checkDimensionKey dims keys :
  forall index vr,
    let r := forEach_from (checkDimensionKey dims) index keys vr in
    Dimensional.errors r = (Dimensional.errors vr ++ keyErrorsOf dims keys)%list
    /\ warnings r = warnings vr
    /\ isValid r
       = (isValid vr && (List.length (keyErrorsOf dims keys) =? 0)%nat)%bool.
Proof.
  induction keys as [| k keys IH]; intros index vr; simpl.
  - now rewrite app_nil_r, andb_true_r.
  - destruct (IH (S index) (checkDimensionKey dims vr k index))
      as (He & Hw & Hv).
    rewrite He, Hw, Hv. clear He Hw Hv IH.
    unfold checkDimensionKey.
    destruct (relatedDimension dims (dimensionNameOf k)); simpl.
    + repeat split.
    + unfold push. rewrite <- app_assoc. simpl.
      now rewrite andb_false_r.
Qed.

Lemma forEach_checkDimension dims :
  forall index vr,
    let r := forEach_from checkDimension index dims vr in
    Dimensional.errors r = (Dimensional.errors vr ++ scdErrorsOf dims)%list
    /\ warnings r = (warnings vr ++ naturalKeyWarningsOf dims)%list
    /\ isValid r
       = (isValid vr && (List.length (scdErrorsOf dims) =? 0)%nat)%bool.
Proof.
  induction dims as [| d dims IH]; intros index vr; simpl.
  - now rewrite !app_nil_r, andb_true_r.
  - destruct (IH (S index) (checkDimension vr d index)) as (He & Hw & Hv).
    rewrite He, Hw, Hv. clear He Hw Hv IH.
    unfold checkDimension.
    destruct (List.length (DimensionTable.naturalKey d) =? 0)%nat;
      destruct (SCDType_eqb (DimensionTable.scdType d) SCD2);
      destruct (hasRequiredSCDColumns d); simpl; unfold push;
      rewrite <- ?app_assoc, ?andb_false_r; simpl; repeat split.
Qed.

(** What [validateStarSchema] returns, rule by rule. *)
Lemma validateStarSchema_report (s : StarSchema.t) :
  let vr := validationResults (validateStarSchema s) in
  Dimensional.errors vr = (keyErrors s ++ scdErrors s)%list
  /\ warnings vr = (measureWarnings s ++ naturalKeyWarnings s)%list
  /\ isValid vr
     = ((List.length (keyErrors s) =? 0)%nat
        && (List.length (scdErrors s) =? 0)%nat)%bool.
Proof.
  unfold validateStarSchema. cbn [validationResults]. unfold forEach.
  match goal with
  | |- context [forEach_from checkDimension 0 ?dims ?vr1] =>
      destruct (forEach_checkDimension dims 0 vr1) as (He2 & Hw2 & Hv2)
  end.
  match type of He2 with
  | context [forEach_from (checkDimensionKey ?dims) 0 ?keys ?vr0] =>
      destruct (forEach_checkDimensionKey dims keys 0 vr0) as (He1 & Hw1 & Hv1)
  end.
  cbn zeta. rewrite He2, Hw2, Hv2, He1, Hw1, Hv1.
  unfold keyErrors, scdErrors, measureWarnings, naturalKeyWarnings.
  destruct (List.length (FactTable.measures (StarSchema.factTable s)) =? 0)%nat;
    simpl; repeat split.
Qed.

Lemma relatedDimension_withNaturalKey nk dims n :
  relatedDimension (map (withNaturalKey nk) dims) n
  = option_map (withNaturalKey nk) (relatedDimension dims n).
Proof.
  unfold relatedDimension.
  induction dims as [| d dims IH]; simpl; [reflexivity |].
  destruct (toLowerCase (DimensionTable.name d) =? toLowerCase n);
    [reflexivity | exact IH].
Qed.

Lemma keyErrorsOf_withNaturalKey nk dims keys :
  keyErrorsOf (map (withNaturalKey nk) dims) keys = keyErrorsOf dims keys.
Proof.
  induction keys as [| k keys IH]; [reflexivity |].
  unfold keyErrorsOf in *. cbn [flat_map].
  rewrite IH, relatedDimension_withNaturalKey.
  destruct (relatedDimension dims (dimensionNameOf k)); reflexivity.
Qed.

Lemma scdErrorsOf_withNaturalKey nk dims :
  scdErrorsOf (map (withNaturalKey nk) dims) = scdErrorsOf dims.
Proof.
  induction dims as [| d dims IH]; [reflexivity |].
  unfold scdErrorsOf in *. cbn [flat_map map]. now rewrite IH.
Qed.

(** C6.  [isValid] is true exactly when no error was reported; the error
    list is what the key rule reports followed by what the SCD rule
    reports, and the warning list is what the measure rule reports followed
    by what the natural-key rule reports, each rule being applied to every
    item; and changing the inputs of the two warning rules changes neither
    [isValid] nor the errors. *)
Theorem validateStarSchema_isValid_iff_no_errors :
  forall (s : StarSchema.t),
    let vr := validationResults (validateStarSchema s) in
    (isValid vr = true <-> Dimensional.errors vr = [])
    /\ Dimensional.errors vr = (keyErrors s ++ scdErrors s)%list
    /\ warnings vr = (measureWarnings s ++ naturalKeyWarnings s)%list
    /\ (forall (measures : list string)
               (naturalKey : DimensionTable.t -> list string),
           let vr' :=
             validationResults
               (validateStarSchema (withWarningInputs measures naturalKey s)) in
           isValid vr' = isValid vr
           /\ Dimensional.errors vr' = Dimensional.errors vr).
Proof.
  intros s vr.
  destruct (validateStarSchema_report s) as (He & Hw & Hv). fold vr in He, Hw, Hv.
  split; [| split; [ exact He | split; [ exact Hw |] ] ].
  - rewrite Hv, He. destruct (keyErrors s), (scdErrors s); simpl;
      split; intros H; try reflexivity; discriminate H.
  - intros measures naturalKey vr'.
    destruct (validateStarSchema_report
                (withWarningInputs measures naturalKey s)) as (He' & _ & Hv').
    fold vr' in He', Hv'.
    assert (Hk : keyErrors (withWarningInputs measures naturalKey s)
                 = keyErrors s)
      by (unfold keyErrors; simpl; apply keyErrorsOf_withNaturalKey).
    assert (Hs : scdErrors (withWarningInputs measures naturalKey s)
                 = scdErrors s)
      by (unfold scdErrors; simpl; apply scdErrorsOf_withNaturalKey).
    rewrite Hv', He', Hv, He, Hk, Hs. split; reflexivity.
Qed.

(** Removing the trailing suffix gives back the dimension name. *)
Lemma stripSuffix_append (d suf : string) : stripSuffix suf (d ++ suf) = d.
Proof.
  unfold stripSuffix.
  replace (String.length (d ++ suf) - String.length suf) with (String.length d)
    by (rewrite length_append; lia).
  assert (Hdrop : drop (String.length d) (d ++ suf) = suf)
    by (induction d as [| c d IH]; simpl; [ now destruct suf | exact IH ]).
  assert (Hsub : substring 0 (String.length d) (d ++ suf) = d)
    by (induction d as [| c d IH]; simpl;
        [ now destruct suf | now rewrite IH ]).
  now rewrite Hdrop, String.eqb_refl, Hsub.
Qed.

Lemma prefix_Key_tail (c : ascii) (d : string) :
  prefix "Key" (String c (d ++ "Key")) = prefix "Key" (String c (d ++ "Ke")).
Proof.
  destruct d as [| a [| b d]]; cbn [prefix append];
    repeat match goal with
           | |- context [ascii_dec ?x ?y] => destruct (ascii_dec x y)
           end;
    subst; try reflexivity; try discriminate; try congruence.
  destruct d; reflexivity.
Qed.

(** The validator's [replace('Key', '')] removes the trailing suffix exactly
    when [Key] does not occur earlier in the key. *)
Lemma dimensionNameOf_trailing_Key (d : string) :
  occurs "Key" (d ++ "Ke") = false ->
  dimensionNameOf (d ++ "Key") = stripSuffix "Key" (d ++ "Key").
Proof.
  rewrite stripSuffix_append. unfold dimensionNameOf.
  induction d as [| c d IH]; intros Hocc; [ reflexivity |].
  cbn [append occurs] in Hocc. apply orb_false_iff in Hocc.
  destruct Hocc as [Hp Hrest].
  cbn [append]. unfold replace; fold replace.
  rewrite prefix_Key_tail, Hp. f_equal. now apply IH.
Qed.

(** A key for which the validator finds no dimension is reported, under the
    name the validator derived, and the schema is rejected. *)
Lemma validateStarSchema_unresolved_key (s : StarSchema.t) (dimKey : string) :
  In dimKey (FactTable.dimensionKeys (StarSchema.factTable s)) ->
  relatedDimension (StarSchema.dimensionTables s) (dimensionNameOf dimKey)
  = None ->
  let vr := validationResults (validateStarSchema s) in
  In ("Fact table references dimension " ++ dimensionNameOf dimKey
        ++ " which is not defined") (Dimensional.errors vr)
  /\ isValid vr = false.
Proof.
  intros Hin Hnone vr.
  destruct (validateStarSchema_report s) as (He & _ & Hv). fold vr in He, Hv.
  assert (Hk : In ("Fact table references dimension " ++ dimensionNameOf dimKey
                     ++ " which is not defined") (keyErrors s)).
  { unfold keyErrors, keyErrorsOf. apply in_flat_map. exists dimKey.
    split; [ exact Hin |]. rewrite Hnone. now left. }
  split.
  - rewrite He. apply in_or_app. now left.
  - rewrite Hv. destruct (keyErrors s); [ destruct Hk | reflexivity ].
Qed.

(** C5 at a dimension whose name contains [Key].  The join key the view
    generator derives for the dimension [KeyAccount] is [KeyAccountKey];
    removing the trailing [Key] gives back [KeyAccount], which is defined.
    The validator instead looks for [AccountKey], finds nothing and rejects
    the schema. *)
Theorem validateStarSchema_KeyAccountKey_rejected :
  stripSuffix "Key" "KeyAccountKey" = "KeyAccount"
  /\ (exists dim,
         relatedDimension (StarSchema.dimensionTables keyAccountSchema)
                          (stripSuffix "Key" "KeyAccountKey") = Some dim)
  /\ dimensionNameOf "KeyAccountKey" = "AccountKey"
  /\ validationResults (validateStarSchema keyAccountSchema)
     = {| isValid := false;
          warnings := [];
          Dimensional.errors :=
            [ "Fact table references dimension AccountKey which is not defined" ] |}.
Proof.
  split; [ reflexivity |].
  split; [ eexists; reflexivity |].
  split; reflexivity.
Qed.

(* ================================================================== *)
(** * Pipeline graphs *)

Lemma nth_error_combine_seq (A : Type) (l : list A) :
  forall start i,
    nth_error (combine (seq start (List.length l)) l) i
    = option_map (fun x => (start + i, x)) (nth_error l i).
Proof.
  induction l as [| x l IH]; intros start i; simpl.
  - now destruct i.
  - destruct i as [| i]; simpl.
    + now rewrite Nat.add_0_r.
    + rewrite IH. now rewrite Nat.add_succ_r.
Qed.

(** The activity list of [createMasterPipeline]: one activity per child,
    built from the child and its position. *)
Lemma masterPipelineDefinition_activities name childPipelines options :
  PipelineDefinition.activities
    (masterPipelineDefinition name childPipelines options)
  = map (fun p => masterActivity (dflt false (opt_sequential options))
                    childPipelines (snd p) (fst p))
        (combine (seq 0 (List.length childPipelines)) childPipelines).
Proof.
  unfold masterPipelineDefinition. cbn [PipelineDefinition.activities].
  destruct (dflt false (opt_sequential options)); unfold forEach.
  - now rewrite (forEach_from_push (sequentialExecuteActivity childPipelines)).
  - now rewrite (forEach_from_push (fun pipeline _ =>
                                      parallelExecuteActivity pipeline)).
Qed.

Lemma masterPipelineDefinition_nth name childPipelines options i :
  nth_error (PipelineDefinition.activities
               (masterPipelineDefinition name childPipelines options)) i
  = option_map (fun pipeline =>
                  masterActivity (dflt false (opt_sequential options))
                    childPipelines pipeline i)
               (nth_error childPipelines i).
Proof.
  rewrite masterPipelineDefinition_activities, nth_error_map,
    nth_error_combine_seq.
  destruct (nth_error childPipelines i); reflexivity.
Qed.



(** The activity list of [createStarSchemaETLPipeline]. *)
Lemma starSchemaETLPipelineDefinition_activities starSchemaName
      dimensionPipelines factPipelines :
  exists qualityCheck,
    PipelineDefinition.activities
      (starSchemaETLPipelineDefinition starSchemaName dimensionPipelines
         factPipelines)
    = (map dimensionExecuteActivity dimensionPipelines
       ++ map (factExecuteActivity dimensionPipelines) factPipelines
       ++ [ qualityCheck ])%list
    /\ PipelineActivity.name qualityCheck = "DataQualityCheck"
    /\ PipelineActivity.type qualityCheck = Lookup
    /\ PipelineActivity.dependsOn qualityCheck
       = Some (map (fun fact => "Load_" ++ fact) factPipelines).
Proof.
  unfold starSchemaETLPipelineDefinition. cbn [PipelineDefinition.activities].
  rewrite (forEach_push_map dimensionExecuteActivity).
  rewrite (forEach_push_map (factExecuteActivity dimensionPipelines)).
  unfold push. eexists. split.
  - cbn [app]. rewrite <- app_assoc. reflexivity.
  - repeat split.
Qed.


(** ** References only point backwards *)

Lemma depsWithin_backward acts :
  forall seen,
    depsWithin seen acts ->
    forall i a d,
      nth_error acts i = Some a -> In d (deps a) ->
      In d seen
      \/ exists j b,
          j < i /\ nth_error acts j = Some b /\ PipelineActivity.name b = d.
Proof.
  induction acts as [| a0 acts IH]; intros seen Hw i a d Hi Hd.
  - destruct i; discriminate Hi.
  - destruct Hw as [Hincl Hrest]. destruct i as [| i]; simpl in Hi.
    + injection Hi as <-. left. now apply Hincl.
    + destruct (IH _ Hrest i a d Hi Hd) as [Hin | (j & b & Hj & Hb & Hn)].
      * apply in_app_or in Hin. destruct Hin as [Hin | [<- | []]].
        -- now left.
        -- right. exists 0, a0. repeat split. lia.
      * right. exists (S j), b. repeat split; [ lia | assumption | assumption ].
Qed.

Lemma depsWithin_nil_backwardRefs acts :
  depsWithin [] acts -> backwardRefs acts.
Proof.
  intros Hw i a d Hi Hd.
  destruct (depsWithin_backward acts [] Hw i a d Hi Hd) as [[] | H]; exact H.
Qed.

Lemma depsWithin_app l1 :
  forall seen l2,
    depsWithin seen l1 ->
    depsWithin (seen ++ activityNames l1) l2 ->
    depsWithin seen (l1 ++ l2).
Proof.
  induction l1 as [| a l1 IH]; intros seen l2 H1 H2; simpl in *.
  - now rewrite app_nil_r in H2.
  - destruct H1 as [Hincl H1]. split; [ assumption |].
    apply IH; [ assumption |]. now rewrite <- app_assoc.
Qed.

Lemma depsWithin_incl l :
  forall seen,
    (forall a, In a l -> incl (deps a) seen) -> depsWithin seen l.
Proof.
  induction l as [| a l IH]; intros seen H; simpl; [ exact I |].
  split; [ apply H; now left |].
  apply IH. intros b Hb d Hd. apply in_or_app. left.
  apply (H b); [ now right | assumption ].
Qed.

Lemma dimensionLoad_backwardRefs dimensionName sourceDataset targetDataset
      naturalKeys scdType :
  backwardRefs
    (PipelineDefinition.activities
       (dimensionLoadPipelineDefinition dimensionName sourceDataset
          targetDataset naturalKeys scdType)).
Proof.
  apply depsWithin_nil_backwardRefs.
  unfold dimensionLoadPipelineDefinition.
  destruct (SCDType_eqb scdType SCD2); simpl; unfold deps; simpl;
    (split; [| split; [| exact I ] ]); apply incl_refl.
Qed.

Lemma factLoad_backwardRefs factName sourceDataset targetDataset
      dimensionMappings :
  backwardRefs
    (PipelineDefinition.activities
       (factLoadPipelineDefinition factName sourceDataset targetDataset
          dimensionMappings)).
Proof.
  apply depsWithin_nil_backwardRefs.
  unfold factLoadPipelineDefinition. cbn [PipelineDefinition.activities].
  rewrite (forEach_push_map dimensionLookupActivity).
  unfold push. cbn [app]. rewrite <- app_assoc.
  apply depsWithin_app.
  - apply depsWithin_incl. intros a Ha. apply in_map_iff in Ha.
    destruct Ha as [m [<- _]]. intros x [].
  - cbn [app depsWithin]. unfold deps, activityNames.
    cbn [PipelineActivity.dependsOn PipelineActivity.name dflt].
    rewrite map_map. cbn [PipelineActivity.name].
    split; [ apply incl_refl |].
    split; [| exact I ].
    intros x [<- | []]. apply in_or_app. right. now left.
Qed.

Lemma starSchemaETL_backwardRefs starSchemaName dimensionPipelines
      factPipelines :
  backwardRefs
    (PipelineDefinition.activities
       (starSchemaETLPipelineDefinition starSchemaName dimensionPipelines
          factPipelines)).
Proof.
  apply depsWithin_nil_backwardRefs.
  destruct (starSchemaETLPipelineDefinition_activities starSchemaName
              dimensionPipelines factPipelines)
    as (qc & -> & _ & _ & Hdeps).
  apply depsWithin_app.
  - apply depsWithin_incl. intros a Ha. apply in_map_iff in Ha.
    destruct Ha as [p [<- _]]. intros x [].
  - apply depsWithin_app.
    + apply depsWithin_incl. intros a Ha. apply in_map_iff in Ha.
      destruct Ha as [p [<- _]]. unfold deps, activityNames.
      cbn [factExecuteActivity PipelineActivity.dependsOn dflt app].
      rewrite map_map. apply incl_refl.
    + cbn [depsWithin]. split; [| exact I ].
      unfold deps. rewrite Hdeps. cbn [dflt]. unfold activityNames.
      rewrite (map_map (factExecuteActivity dimensionPipelines)).
      cbn [factExecuteActivity PipelineActivity.name].
      apply incl_appr, incl_refl.
Qed.

Lemma master_backwardRefs name childPipelines options :
  backwardRefs
    (PipelineDefinition.activities
       (masterPipelineDefinition name childPipelines options)).
Proof.
  intros i a d Hi Hd.
  rewrite masterPipelineDefinition_nth in Hi.
  destruct (nth_error childPipelines i) as [p |] eqn:Hp; [| discriminate Hi ].
  injection Hi as <-. unfold deps in Hd.
  destruct (dflt false (opt_sequential options)) eqn:Hseq;
    cbn [masterActivity sequentialExecuteActivity parallelExecuteActivity
         PipelineActivity.dependsOn] in Hd; [| destruct Hd ].
  destruct i as [| j]; [ destruct Hd |].
  cbn [Nat.ltb Nat.leb dflt] in Hd. destruct Hd as [<- | []].
  assert (Hj : exists q, nth_error childPipelines j = Some q).
  { destruct (nth_error childPipelines j) eqn:E; [ eauto |].
    apply nth_error_None in E.
    assert (S j < List.length childPipelines)
      by (apply nth_error_Some; congruence).
    lia. }
  destruct Hj as [q Hq].
  exists j. eexists. split; [ lia |].
  rewrite masterPipelineDefinition_nth, Hq, Hseq. cbn [option_map].
  split; [ reflexivity |].
  cbn. unfold at_index. now rewrite Nat.sub_0_r, Hq.
Qed.

(** ** Distinct names rule out self references and cycles *)

Lemma indexOf_le l :
  forall j n, nth_error l j = Some n -> indexOf n l <= j.
Proof.
  induction l as [| x l IH]; intros j n Hj.
  - destruct j; discriminate Hj.
  - simpl. destruct (x =? n) eqn:E; [ lia |].
    destruct j as [| j]; simpl in Hj.
    + injection Hj as ->. rewrite String.eqb_refl in E. discriminate E.
    + apply IH in Hj. lia.
Qed.

Lemma indexOf_NoDup l :
  NoDup l -> forall i n, nth_error l i = Some n -> indexOf n l = i.
Proof.
  induction 1 as [| x l Hx Hnd IH]; intros i n Hi.
  - destruct i; discriminate Hi.
  - simpl. destruct i as [| i]; simpl in Hi.
    + injection Hi as ->. now rewrite String.eqb_refl.
    + destruct (x =? n) eqn:E.
      * apply String.eqb_eq in E. subst x. apply nth_error_In in Hi.
        contradiction.
      * f_equal. now apply IH.
Qed.

Lemma dependsOnEdge_rank acts n d :
  backwardRefs acts -> NoDup (activityNames acts) ->
  dependsOnEdge acts n d ->
  indexOf d (activityNames acts) < indexOf n (activityNames acts).
Proof.
  intros Hb Hnd (a & Ha & Hn & Hd).
  apply In_nth_error in Ha. destruct Ha as [i Hi].
  destruct (Hb i a d Hi Hd) as (j & b & Hj & Hbj & Hbn).
  assert (Hni : nth_error (activityNames acts) i = Some n)
    by (unfold activityNames; rewrite nth_error_map, Hi, <- Hn; reflexivity).
  assert (Hdj : nth_error (activityNames acts) j = Some d)
    by (unfold activityNames; rewrite nth_error_map, Hbj, <- Hbn; reflexivity).
  rewrite (indexOf_NoDup _ Hnd i n Hni).
  apply indexOf_le in Hdj. lia.
Qed.

Lemma backwardRefs_NoDup_noSelfRef acts :
  backwardRefs acts -> NoDup (activityNames acts) -> noSelfRef acts.
Proof.
  intros Hb Hnd a Ha Hself.
  assert (He : dependsOnEdge acts (PipelineActivity.name a)
                             (PipelineActivity.name a))
    by (exists a; repeat split; assumption).
  apply (dependsOnEdge_rank _ _ _ Hb Hnd) in He. lia.
Qed.

Lemma backwardRefs_NoDup_acyclic acts :
  backwardRefs acts -> NoDup (activityNames acts) -> acyclic acts.
Proof.
  intros Hb Hnd n Hcycle.
  assert (Hrank : forall x y,
             clos_trans string (dependsOnEdge acts) x y ->
             indexOf y (activityNames acts) < indexOf x (activityNames acts)).
  { induction 1 as [x y Hxy | x y z _ IH1 _ IH2].
    - now apply dependsOnEdge_rank.
    - lia. }
  apply Hrank in Hcycle. lia.
Qed.

(** C1 (as amended).  In every pipeline definition assembled by a builder,
    each predecessor name of an activity is the name of an activity placed
    strictly before it; when the activity names of the definition are
    pairwise distinct, no activity names itself as a predecessor and the
    dependency graph is acyclic. *)
Theorem builders_reference_earlier_activities :
  forall (p : PipelineDefinition.t),
    builderOutput p ->
    backwardRefs (PipelineDefinition.activities p)
    /\ (NoDup (activityNames (PipelineDefinition.activities p)) ->
        noSelfRef (PipelineDefinition.activities p)
        /\ acyclic (PipelineDefinition.activities p)).
Proof.
  intros p Hp.
  assert (Hb : backwardRefs (PipelineDefinition.activities p)).
  { destruct Hp.
    - apply dimensionLoad_backwardRefs.
    - apply factLoad_backwardRefs.
    - apply master_backwardRefs.
    - apply starSchemaETL_backwardRefs. }
  split; [ exact Hb |].
  intros Hnd. split.
  - now apply backwardRefs_NoDup_noSelfRef.
  - now apply backwardRefs_NoDup_acyclic.
Qed.

Lemma builders_reference_earlier_activities_witness :
  backwardRefs
    (PipelineDefinition.activities
       (starSchemaETLPipelineDefinition "Sales" [ "A"; "B" ] [ "C" ]))
  /\ noSelfRef
       (PipelineDefinition.activities
          (starSchemaETLPipelineDefinition "Sales" [ "A"; "B" ] [ "C" ]))
  /\ acyclic
       (PipelineDefinition.activities
          (starSchemaETLPipelineDefinition "Sales" [ "A"; "B" ] [ "C" ])).
Proof.
  destruct (builders_reference_earlier_activities
              (starSchemaETLPipelineDefinition "Sales" [ "A"; "B" ] [ "C" ])
              (built_starSchemaETL "Sales" [ "A"; "B" ] [ "C" ]))
    as [Hb Hrest].
  split; [ exact Hb |].
  apply Hrest. simpl.
  repeat constructor; simpl; intuition discriminate.
Defined.

(** C1 as stated fails: in a sequential master pipeline that runs the same
    child twice, the second activity is named like the first and names
    itself as its predecessor. *)
Lemma master_repeated_child_self_reference :
  builderOutput repeatedChildMaster
  /\ ~ noSelfRef (PipelineDefinition.activities repeatedChildMaster)
  /\ ~ acyclic (PipelineDefinition.activities repeatedChildMaster).
Proof.
  split; [ apply built_master |].
  assert (He : dependsOnEdge (PipelineDefinition.activities repeatedChildMaster)
                 "Execute_A" "Execute_A").
  { eexists. split; [ right; left; reflexivity |].
    split; [ reflexivity | left; reflexivity ]. }
  split.
  - intros H. apply (H (masterActivity true [ "A"; "A" ] "A" 1)).
    + right. left. reflexivity.
    + left. reflexivity.
  - intros H. apply (H "Execute_A"). apply t_step. exact He.
Qed.

(* ================================================================== *)
(** * Batch deployment *)

Section TryEach.

Variables A B St : Type.
Variable f : A -> M B.
Variable onOk : St -> A -> St.
Variable onErr : St -> A -> JsError -> St.

(** A loop whose body catches whatever [f] throws runs [f] on every item
    and never throws itself. *)
Lemma forOf_try_catch (arr : list A) :
  forall (s : St) (w : World),
    forOf (fun s x =>
             try_catch (_ <- f x ;; ret (onOk s x))
                       (fun error => ret (onErr s x error)))
          arr s w
    = (fst (attemptAll f arr w),
       inr (fold_left (recordOutcome onOk onErr)
                      (snd (attemptAll f arr w)) s)).
Proof.
  induction arr as [| x rest IH]; intros s w; simpl.
  - reflexivity.
  - unfold bind at 1, try_catch at 1, bind at 1.
    destruct (f x w) as [w1 [e | b]]; unfold ret at 1;
      rewrite IH; destruct (attemptAll f rest w1) as [w2 rs]; reflexivity.
Qed.

Lemma attemptAll_items (arr : list A) :
  forall w, map fst (snd (attemptAll f arr w)) = arr.
Proof.
  induction arr as [| x rest IH]; intros w; simpl; [ reflexivity |].
  destruct (f x w) as [w1 r]. specialize (IH w1).
  destruct (attemptAll f rest w1) as [w2 rs]. simpl in *. now rewrite IH.
Qed.

(** What the calls send, when the call on [x] sends requests to
    [urls x]. *)
Lemma attemptAll_sent (urls : A -> list string) (arr : list A) :
  (forall x w, exists requests,
        sent (fst (f x w)) = (sent w ++ requests)%list
        /\ map url requests = urls x) ->
  forall w, exists requests,
      sent (fst (attemptAll f arr w)) = (sent w ++ requests)%list
      /\ map url requests = flat_map urls arr.
Proof.
  intros Hf. induction arr as [| x rest IH]; intros w; simpl.
  - exists []. now rewrite app_nil_r.
  - destruct (Hf x w) as (r1 & Hs1 & Hu1).
    destruct (f x w) as [w1 r]. simpl in Hs1.
    destruct (IH w1) as (r2 & Hs2 & Hu2).
    destruct (attemptAll f rest w1) as [w2 rs]. simpl in *.
    exists (r1 ++ r2)%list. split.
    + now rewrite Hs2, Hs1, <- app_assoc.
    + now rewrite map_app, Hu1, Hu2.
Qed.

End TryEach.

Arguments forOf_try_catch {A B St} f onOk onErr arr s w.
Arguments attemptAll_items {A B} f arr w.
Arguments attemptAll_sent {A B} f urls arr _ w.

Lemma makeApiRequest_sent cfg endpoint method body w :
  sent (fst (makeApiRequest cfg endpoint method body w))
  = (sent w ++ if configured cfg
               then [ apiRequest cfg endpoint method body ]
               else [])%list.
Proof.
  unfold makeApiRequest, configured.
  destruct (truthy_str (fabricToken cfg)), (truthy_str (workspaceUrl cfg));
    cbn [negb orb andb].
  2-4: now rewrite app_nil_r.
  unfold bind, fetch. cbn [fst snd].
  destruct (service w (sent w) (apiRequest cfg endpoint method body))
    as [e | response].
  - reflexivity.
  - destruct (ok response); reflexivity.
Qed.

Lemma transformationBodies_total transformations :
  forall w, exists w' bodies,
      transformationBodies transformations w = (w', inr bodies)
      /\ sent w' = sent w.
Proof.
  induction transformations as [| t rest IH]; intros w; simpl.
  - exists w, []. split; reflexivity.
  - unfold bind at 1, now at 1. cbn beta iota.
    match goal with
    | |- context [bind (transformationBodies rest) _ ?w1] =>
        destruct (IH w1) as (w' & bodies & Hrun & Hsent)
    end.
    unfold bind at 1. rewrite Hrun. eexists. eexists.
    split; [ reflexivity | exact Hsent ].
Qed.

Lemma createDataPipeline_sent cfg pipeline w :
  sent (fst (createDataPipeline cfg pipeline w))
  = (sent w ++ if configured cfg then [ submission cfg pipeline ] else [])%list.
Proof.
  unfold createDataPipeline, try_catch, bind at 1, submission.
  pose proof (makeApiRequest_sent cfg
                ("pipelines/" ++ PipelineDefinition.name pipeline) "PUT"
                (Some (pipelineBody pipeline)) w) as Hs.
  destruct (makeApiRequest cfg _ "PUT" _ w) as [w1 [e | response]];
    simpl in Hs; [ exact Hs |].
  unfold bind, lift_result. destruct (get_id response); exact Hs.
Qed.

Lemma createDataPipeline_urls cfg pipeline w :
  exists requests,
    sent (fst (createDataPipeline cfg pipeline w)) = (sent w ++ requests)%list
    /\ map url requests
       = if configured cfg then [ pipelineUrl cfg pipeline ] else [].
Proof.
  eexists. split; [ apply createDataPipeline_sent |].
  destruct (configured cfg); reflexivity.
Qed.

Lemma createDataFlow_urls cfg dataFlow w :
  exists requests,
    sent (fst (createDataFlow cfg dataFlow w)) = (sent w ++ requests)%list
    /\ map url requests
       = if configured cfg then [ dataFlowUrl cfg dataFlow ] else [].
Proof.
  unfold createDataFlow, try_catch, bind at 1.
  destruct (transformationBodies_total
              (DataFlowDefinition.transformations dataFlow) w)
    as (w0 & bodies & Hrun & Hsent0).
  rewrite Hrun. unfold bind at 1.
  match goal with
  | |- context [makeApiRequest cfg ?ep "PUT" ?b w0] =>
      pose proof (makeApiRequest_sent cfg ep "PUT" b w0) as Hs;
      exists (if configured cfg then [ apiRequest cfg ep "PUT" b ] else []);
      destruct (makeApiRequest cfg ep "PUT" b w0) as [w1 [e | response]]
  end; simpl in Hs; rewrite Hsent0 in Hs.
  - split; [ exact Hs | destruct (configured cfg); reflexivity ].
  - split; [| destruct (configured cfg); reflexivity ].
    unfold bind, lift_result. destruct (get_id response); exact Hs.
Qed.

Lemma fold_recordDataFlow outcomes :
  forall r,
    fold_left
      (recordOutcome (B := DataFlowCreated)
         (fun r dataFlow => recordDataFlow r (DataFlowDefinition.name dataFlow))
         (fun r dataFlow error => recordError r (dataFlowFailure dataFlow error)))
      outcomes r
    = {| packageName := packageName r;
         deployedPipelines := deployedPipelines r;
         deployedDataFlows :=
           (deployedDataFlows r
              ++ succeededNames DataFlowDefinition.name outcomes)%list;
         Fabric.errors :=
           (Fabric.errors r ++ failureMessages dataFlowFailure outcomes)%list |}.
Proof.
  induction outcomes as [| [dataFlow [e | v]] outcomes IH]; intros r.
  - destruct r. simpl. now rewrite !app_nil_r.
  - simpl. rewrite IH. unfold recordOutcome, recordError, push. simpl.
    now rewrite <- app_assoc.
  - simpl. rewrite IH. unfold recordOutcome, recordDataFlow, push. simpl.
    now rewrite <- app_assoc.
Qed.

Lemma fold_recordPipeline outcomes :
  forall r,
    fold_left
      (recordOutcome (B := PipelineCreated)
         (fun r pipeline => recordPipeline r (PipelineDefinition.name pipeline))
         (fun r pipeline error => recordError r (pipelineFailure pipeline error)))
      outcomes r
    = {| packageName := packageName r;
         deployedPipelines :=
           (deployedPipelines r
              ++ succeededNames PipelineDefinition.name outcomes)%list;
         deployedDataFlows := deployedDataFlows r;
         Fabric.errors :=
           (Fabric.errors r ++ failureMessages pipelineFailure outcomes)%list |}.
Proof.
  induction outcomes as [| [pipeline [e | v]] outcomes IH]; intros r.
  - destruct r. simpl. now rewrite !app_nil_r.
  - simpl. rewrite IH. unfold recordOutcome, recordError, push. simpl.
    now rewrite <- app_assoc.
  - simpl. rewrite IH. unfold recordOutcome, recordPipeline, push. simpl.
    now rewrite <- app_assoc.
Qed.

Lemma flat_map_singleton (A B : Type) (g : A -> B) (l : list A) :
  flat_map (fun x => [ g x ]) l = map g l.
Proof. induction l as [| x l IH]; simpl; [ reflexivity | now rewrite IH ]. Qed.

Lemma flat_map_nothing (A B : Type) (l : list A) :
  flat_map (fun _ => @nil B) l = [].
Proof. induction l as [| x l IH]; simpl; [ reflexivity | exact IH ]. Qed.

Lemma outcomes_partition (A B : Type) (name : A -> string)
      (message : A -> JsError -> string) (outcomes : list (A * (JsError + B))) :
  List.length (succeededNames name outcomes)
  + List.length (failureMessages message outcomes)
  = List.length outcomes.
Proof.
  induction outcomes as [| [x [e | v]] outcomes IH]; simpl; lia.
Qed.

(** C8.  [deployPipelinePackage] calls [createDataFlow] on every data flow,
    in order, and then [createDataPipeline] on every pipeline, in order,
    whatever the earlier calls returned; it always returns a report.  The
    report lists the names of the data flows and of the pipelines whose call
    succeeded, and one message per call that failed, so every item is
    accounted for; and the requests sent go to the data-flow endpoints first
    and to the pipeline endpoints after them, one per item. *)
Theorem deployPipelinePackage_attempts_every_item :
  forall (cfg : Config) (packageName : string)
         (pipelines : list PipelineDefinition.t)
         (dataFlows : list DataFlowDefinition.t) (w : World),
  exists w1 dataFlowOutcomes w2 pipelineOutcomes report requests,
    attemptAll (createDataFlow cfg) dataFlows w = (w1, dataFlowOutcomes)
    /\ attemptAll (createDataPipeline cfg) pipelines w1 = (w2, pipelineOutcomes)
    /\ deployPipelinePackage cfg packageName pipelines dataFlows w
       = (w2, inr report)
    /\ map fst dataFlowOutcomes = dataFlows
    /\ map fst pipelineOutcomes = pipelines
    /\ deployedDataFlows (deploymentResults report)
       = succeededNames DataFlowDefinition.name dataFlowOutcomes
    /\ deployedPipelines (deploymentResults report)
       = succeededNames PipelineDefinition.name pipelineOutcomes
    /\ Fabric.errors (deploymentResults report)
       = (failureMessages dataFlowFailure dataFlowOutcomes
          ++ failureMessages pipelineFailure pipelineOutcomes)%list
    /\ List.length (deployedDataFlows (deploymentResults report))
       + List.length (deployedPipelines (deploymentResults report))
       + List.length (Fabric.errors (deploymentResults report))
       = List.length dataFlows + List.length pipelines
    /\ sent w2 = (sent w ++ requests)%list
    /\ map url requests
       = if configured cfg
         then (map (dataFlowUrl cfg) dataFlows
               ++ map (pipelineUrl cfg) pipelines)%list
         else [].
Proof.
  intros cfg packageName pipelines dataFlows w.
  destruct (attemptAll (createDataFlow cfg) dataFlows w) as [w1 dfo] eqn:Hdf.
  destruct (attemptAll (createDataPipeline cfg) pipelines w1) as [w2 plo] eqn:Hpl.
  assert (Hrun :
    deployPipelinePackage cfg packageName pipelines dataFlows w
    = (w2,
       inr {| deploymentResults :=
                {| Fabric.packageName := packageName;
                   deployedPipelines :=
                     succeededNames PipelineDefinition.name plo;
                   deployedDataFlows :=
                     succeededNames DataFlowDefinition.name dfo;
                   Fabric.errors :=
                     (failureMessages dataFlowFailure dfo
                      ++ failureMessages pipelineFailure plo)%list |};
              dep_message :=
                "Package " ++ packageName ++ " deployment completed with "
                  ++ string_of_nat
                       (List.length
                          (failureMessages dataFlowFailure dfo
                           ++ failureMessages pipelineFailure plo))
                  ++ " errors" |})).
  { unfold deployPipelinePackage, rethrow, try_catch, bind at 1.
    unfold deployDataFlowStep.
    rewrite (forOf_try_catch (createDataFlow cfg)
               (fun r dataFlow =>
                  recordDataFlow r (DataFlowDefinition.name dataFlow))
               (fun r dataFlow error =>
                  recordError r (dataFlowFailure dataFlow error))).
    rewrite Hdf. cbn [fst snd]. rewrite fold_recordDataFlow.
    unfold bind at 1, deployPipelineStep.
    rewrite (forOf_try_catch (createDataPipeline cfg)
               (fun r pipeline =>
                  recordPipeline r (PipelineDefinition.name pipeline))
               (fun r pipeline error =>
                  recordError r (pipelineFailure pipeline error))).
    rewrite Hpl. cbn [fst snd]. rewrite fold_recordPipeline.
    reflexivity. }
  assert (Hdfi : map fst dfo = dataFlows)
    by (rewrite <- (attemptAll_items (createDataFlow cfg) dataFlows w), Hdf;
        reflexivity).
  assert (Hpli : map fst plo = pipelines)
    by (rewrite <- (attemptAll_items (createDataPipeline cfg) pipelines w1), Hpl;
        reflexivity).
  destruct (attemptAll_sent (createDataFlow cfg)
              (fun dataFlow =>
                 if configured cfg then [ dataFlowUrl cfg dataFlow ] else [])
              dataFlows (createDataFlow_urls cfg) w) as (r1 & Hs1 & Hu1).
  destruct (attemptAll_sent (createDataPipeline cfg)
              (fun pipeline =>
                 if configured cfg then [ pipelineUrl cfg pipeline ] else [])
              pipelines (createDataPipeline_urls cfg) w1) as (r2 & Hs2 & Hu2).
  rewrite Hdf in Hs1. rewrite Hpl in Hs2. cbn [fst] in Hs1, Hs2.
  exists w1, dfo, w2, plo. eexists. exists (r1 ++ r2)%list.
  split; [ reflexivity |].
  split; [ exact Hpl |].
  split; [ exact Hrun |].
  cbn [deploymentResults deployedDataFlows deployedPipelines Fabric.errors].
  split; [ exact Hdfi |].
  split; [ exact Hpli |].
  do 3 (split; [ reflexivity |]).
  split.
  { rewrite length_app.
    pose proof (outcomes_partition _ _ DataFlowDefinition.name dataFlowFailure
                  dfo).
    pose proof (outcomes_partition _ _ PipelineDefinition.name pipelineFailure
                  plo).
    rewrite <- Hdfi, <- Hpli at 1. rewrite !length_map. lia. }
  split.
  { now rewrite Hs2, Hs1, <- app_assoc. }
  rewrite map_app, Hu1, Hu2. destruct (configured cfg).
  - now rewrite !flat_map_singleton.
  - now rewrite !flat_map_nothing.
Qed.

(** The scenario of a failing data flow: [X] is rejected by the service,
    the data flow [Z] and the pipeline [Y] after it are still deployed. *)
Lemma deployPipelinePackage_failed_item_example :
  result_of
    (deployPipelinePackage exampleConfig "Package"
       [ masterPipelineDefinition "Y" [ "A" ] sequentialOptions ]
       [ namedDataFlow "X"; namedDataFlow "Z" ] exampleWorld)
  = inr {| deploymentResults :=
             {| packageName := "Package";
                deployedPipelines := [ "Y" ];
                deployedDataFlows := [ "Z" ];
                Fabric.errors :=
                  [ "Failed to deploy data flow X: Error: Failed to create data flow: Error: Fabric API error: 500 Internal Server Error - rejected" ] |};
           dep_message := "Package Package deployment completed with 1 errors" |}.
Proof. vm_compute. reflexivity. Qed.

(* ================================================================== *)
(** * Purity of the core operations *)


Lemma rethrow_sent (A : Type) (what : string) (m : M A) (w : World) :
  sent (world_of (rethrow what m w)) = sent (world_of (m w)).
Proof.
  unfold rethrow, try_catch, world_of.
  destruct (m w) as [w1 [e | a]]; reflexivity.
Qed.

Lemma builder_submission cfg what p w :
  sent (world_of (rethrow what (createDataPipeline cfg p) w))
  = (sent w ++ if configured cfg then [ submission cfg p ] else [])%list.
Proof. rewrite rethrow_sent. apply createDataPipeline_sent. Qed.


(* ================================================================== *)
(** * Synthesis and validation together *)

Lemma generateDimensionTable_scdType tableName businessName columns options :
  DimensionTable.scdType
    (dimensionTable (generateDimensionTable tableName businessName columns
                       options))
  = dflt SCD2 (opt_scdType options).
Proof. reflexivity. Qed.

Lemma existsb_in_middle (A : Type) (f : A -> bool) (x : A) (a b : list A) :
  existsb f a = true -> existsb f (x :: a ++ b) = true.
Proof.
  intros H. cbn [existsb]. rewrite existsb_app, H. now rewrite orb_true_r.
Qed.

Lemma generateDimensionTable_hasRequiredSCDColumns tableName businessName
      columns options :
  dflt SCD2 (opt_scdType options) = SCD2 ->
  hasRequiredSCDColumns
    (dimensionTable (generateDimensionTable tableName businessName columns
                       options))
  = true.
Proof.
  intros Hscd. unfold hasRequiredSCDColumns.
  rewrite generateDimensionTable_columns, Hscd. cbn [SCDType_eqb forallb].
  rewrite !existsb_in_middle; reflexivity.
Qed.

Lemma scdErrorsOf_generated (dims : list DimensionTable.t) :
  (forall dim, In dim dims ->
               exists tableName businessName columns options,
                 dim = dimensionTable
                         (generateDimensionTable tableName businessName
                            columns options)) ->
  scdErrorsOf dims = [].
Proof.
  intros Hgen. unfold scdErrorsOf.
  induction dims as [| dim dims IH]; [ reflexivity |].
  cbn [flat_map]. rewrite IH by (intros d Hd; apply Hgen; now right).
  destruct (Hgen dim (or_introl eq_refl)) as (t & b & cols & opts & ->).
  rewrite generateDimensionTable_scdType.
  destruct (SCDType_eqb (dflt SCD2 (opt_scdType opts)) SCD2) eqn:E;
    [| reflexivity ].
  rewrite generateDimensionTable_hasRequiredSCDColumns; [ reflexivity |].
  destruct (dflt SCD2 (opt_scdType opts)); (reflexivity || discriminate E).
Qed.

(** X1.  A schema all of whose dimension tables come from
    [generateDimensionTable] never fails the validator's rule on SCD
    columns, whatever SCD type and columns were asked for. *)
Theorem generated_dimensions_pass_scd_rule :
  forall (s : StarSchema.t),
    (forall dim, In dim (StarSchema.dimensionTables s) ->
                 exists tableName businessName columns options,
                   dim = dimensionTable
                           (generateDimensionTable tableName businessName
                              columns options)) ->
    scdErrors s = [].
Proof.
  intros s Hgen. unfold scdErrors. now apply scdErrorsOf_generated.
Qed.

Lemma generated_dimensions_pass_scd_rule_witness :
  scdErrors
    (StarSchema.mk "Sales" None
       (factTable (generateFactTable "FactSales" "Sales" [] [ "CustomerKey" ]
                     noFactOptions))
       [ dimensionTable
           (generateDimensionTable "Customer" "Customer" []
              noDimensionOptions) ])
  = [].
Proof.
  apply generated_dimensions_pass_scd_rule.
  intros dim [<- | []]. exists "Customer", "Customer", [], noDimensionOptions.
  reflexivity.
Defined.

Lemma relatedDimension_found dims dimensionName :
  (exists dim, In dim dims
               /\ toLowerCase (DimensionTable.name dim)
                  = toLowerCase dimensionName) ->
  exists dim, relatedDimension dims dimensionName = Some dim.
Proof.
  intros (dim & Hin & Hname). unfold relatedDimension.
  destruct (find _ dims) as [d |] eqn:E; [ eauto |].
  apply (find_none _ _ E) in Hin. rewrite Hname, String.eqb_refl in Hin.
  discriminate Hin.
Qed.

(** X2.  Dimensions synthesised from names that do not contain [Key] and a
    fact synthesised over the keys [name ++ "Key"] make a schema that
    [validateStarSchema] accepts without error; the [DateKey] column the
    fact synthesis adds on its own asks for no dimension. *)
Theorem synthesised_star_schema_is_valid :
  forall (schemaName tableName businessName : string)
         (description : option string) (measures : list FactColumn.t)
         (factOptions : FactOptions) (names : list string)
         (businessNameOf : string -> string)
         (columnsOf : string -> list DimensionColumn.t)
         (optionsOf : string -> DimensionOptions),
    (forall n, In n names -> occurs "Key" (n ++ "Ke") = false) ->
    let fact :=
      factTable (generateFactTable tableName businessName measures
                   (map (fun n => n ++ "Key") names) factOptions) in
    let dims :=
      map (fun n => dimensionTable
                      (generateDimensionTable n (businessNameOf n)
                         (columnsOf n) (optionsOf n))) names in
    let vr :=
      validationResults
        (validateStarSchema (StarSchema.mk schemaName description fact dims)) in
    isValid vr = true /\ Dimensional.errors vr = [].
Proof.
  intros schemaName tableName businessName description measures factOptions
         names businessNameOf columnsOf optionsOf Hnames fact dims vr.
  destruct (validateStarSchema_report
              (StarSchema.mk schemaName description fact dims))
    as (He & _ & Hv).
  fold vr in He, Hv.
  assert (Hscd : scdErrors (StarSchema.mk schemaName description fact dims)
                 = []).
  { unfold scdErrors. apply scdErrorsOf_generated.
    cbn [StarSchema.dimensionTables].
    intros dim Hdim. unfold dims in Hdim. apply in_map_iff in Hdim.
    destruct Hdim as (n & <- & _). eauto. }
  assert (Hkey : keyErrors (StarSchema.mk schemaName description fact dims)
                 = []).
  { unfold keyErrors, keyErrorsOf.
    cbn [StarSchema.dimensionTables StarSchema.factTable].
    unfold fact. rewrite generateFactTable_dimensionKeys.
    assert (Hall : forall keys,
               incl keys names ->
               flat_map
                 (fun dimKey =>
                    match relatedDimension dims (dimensionNameOf dimKey) with
                    | Some _ => []
                    | None =>
                        [ "Fact table references dimension "
                            ++ dimensionNameOf dimKey ++ " which is not defined" ]
                    end) (map (fun n => n ++ "Key") keys) = []).
    { induction keys as [| n keys IH]; intros Hincl; [ reflexivity |].
      cbn [map flat_map]. rewrite IH by (intros x Hx; apply Hincl; now right).
      assert (Hn : In n names) by (apply Hincl; now left).
      rewrite (dimensionNameOf_trailing_Key n (Hnames n Hn)),
        stripSuffix_append.
      destruct (relatedDimension_found dims n) as [dim ->]; [| reflexivity ].
      eexists. split; [ unfold dims; apply in_map; exact Hn | reflexivity ]. }
    apply Hall, incl_refl. }
  rewrite Hv, He, Hkey, Hscd. split; reflexivity.
Qed.

Lemma synthesised_star_schema_is_valid_witness :
  isValid
    (validationResults
       (validateStarSchema
          (StarSchema.mk "Sales" None
             (factTable
                (generateFactTable "FactSales" "Sales" []
                   (map (fun n => n ++ "Key") [ "Customer"; "Product" ])
                   noFactOptions))
             (map (fun n => dimensionTable
                              (generateDimensionTable n n []
                                 noDimensionOptions))
                  [ "Customer"; "Product" ]))))
  = true.
Proof.
  refine (proj1 (synthesised_star_schema_is_valid "Sales" "FactSales" "Sales"
                   None [] noFactOptions [ "Customer"; "Product" ]
                   (fun n => n) (fun _ => []) (fun _ => noDimensionOptions) _)).
  intros n [<- | [<- | []]]; reflexivity.
Defined.

(** ** The SCD procedure and the synthesised columns *)

Lemma generateSCDStoredProcedure_businessColumns dim1 dim2 schemaName :
  DimensionTable.name dim1 = DimensionTable.name dim2 ->
  scdBusinessColumns dim1 = scdBusinessColumns dim2 ->
  generateSCDStoredProcedure dim1 schemaName
  = generateSCDStoredProcedure dim2 schemaName.
Proof.
  intros Hn Hc. unfold generateSCDStoredProcedure.
  fold (scdBusinessColumns dim1). fold (scdBusinessColumns dim2).
  now rewrite Hn, Hc.
Qed.

Lemma filter_all (A : Type) (f : A -> bool) (l : list A) :
  Forall (fun x => f x = true) l -> filter f l = l.
Proof.
  induction 1 as [| x l Hx _ IH]; simpl; [ reflexivity |].
  now rewrite Hx, IH.
Qed.

(** X3.  The SCD procedure generator filters out exactly the columns that
    dimension synthesis adds: for a synthesised dimension whose caller
    columns carry no reserved name and no primary-key flag, the columns
    parsed by the procedure are the caller's columns, in order, and the
    procedure text is the one generated from the caller's columns alone. *)
Theorem scd_procedure_recovers_business_columns :
  forall (tableName businessName schemaName : string)
         (columns : list DimensionColumn.t) (options : DimensionOptions),
    Forall businessColumn columns ->
    let dim :=
      dimensionTable
        (generateDimensionTable tableName businessName columns options) in
    scdBusinessColumns dim = columns
    /\ generateSCDStoredProcedure dim schemaName
       = generateSCDStoredProcedure (withColumns columns dim) schemaName.
Proof.
  intros tableName businessName schemaName columns options Hcols dim.
  assert (Hkeep : filter
                    (fun col =>
                       negb (includes systemColumnNames
                               (DimensionColumn.name col))
                       && negb (truthy_bool (DimensionColumn.isPrimaryKey col)))%bool
                    columns = columns).
  { apply filter_all. apply Forall_forall. intros col Hcol.
    rewrite Forall_forall in Hcols. destruct (Hcols col Hcol) as [H1 H2].
    now rewrite H1, H2. }
  assert (Hround : scdBusinessColumns dim = columns).
  { unfold scdBusinessColumns, dim. rewrite generateDimensionTable_columns.
    cbn [filter stdDimColumn DimensionColumn.isPrimaryKey truthy_bool negb].
    rewrite andb_false_r, !filter_app, Hkeep.
    destruct (SCDType_eqb (dflt SCD2 (opt_scdType options)) SCD2);
      reflexivity. }
  split; [ exact Hround |].
  apply generateSCDStoredProcedure_businessColumns; [ reflexivity |].
  rewrite Hround. unfold scdBusinessColumns. cbn [withColumns DimensionTable.columns].
  now rewrite Hkeep.
Qed.

Lemma scd_procedure_recovers_business_columns_witness :
  scdBusinessColumns
    (dimensionTable
       (generateDimensionTable "Customer" "Customer"
          [ DimensionColumn.mk "CustomerCode" "NVARCHAR(20)" None (Some true)
              None None None ]
          noDimensionOptions))
  = [ DimensionColumn.mk "CustomerCode" "NVARCHAR(20)" None (Some true)
        None None None ].
Proof.
  refine (proj1 (scd_procedure_recovers_business_columns "Customer" "Customer"
                   "dbo"
                   [ DimensionColumn.mk "CustomerCode" "NVARCHAR(20)" None
                       (Some true) None None None ]
                   noDimensionOptions _)).
  repeat constructor.
Defined.

(* ================================================================== *)
(** * Calls to the Fabric service *)

Lemma makeApiRequest_unconfigured cfg endpoint method body w :
  configured cfg = false ->
  makeApiRequest cfg endpoint method body w = (w, inl credentialsRequired).
Proof.
  unfold makeApiRequest, configured. intros H.
  destruct (truthy_str (fabricToken cfg)), (truthy_str (workspaceUrl cfg));
    (discriminate H || reflexivity).
Qed.

Lemma makeApiRequest_run cfg endpoint method body w :
  configured cfg = true ->
  makeApiRequest cfg endpoint method body w
  = (afterRequest w (apiRequest cfg endpoint method body),
     apiResult (service w (sent w) (apiRequest cfg endpoint method body))).
Proof.
  unfold makeApiRequest, configured. intros H.
  apply andb_true_iff in H. destruct H as [-> ->]. cbn [negb orb].
  unfold bind, fetch, apiResult, afterRequest.
  destruct (service w (sent w) (apiRequest cfg endpoint method body))
    as [e | response]; [ reflexivity |].
  destruct (ok response); reflexivity.
Qed.

Lemma apiResult_succeeds answer :
  apiSucceeds answer = true <-> exists j, apiResult answer = inr j.
Proof.
  unfold apiSucceeds, apiResult. destruct answer as [e | response].
  - split; [ discriminate | intros [j H]; discriminate H ].
  - destruct (ok response); cbn [negb andb].
    + destruct (json response) as [e | j]; split; eauto;
        try discriminate; intros [j' H]; discriminate H.
    + split; [ discriminate | intros [j H]; discriminate H ].
Qed.

(** What a call of [createDataPipeline] does, case by case. *)
Lemma createDataPipeline_run cfg p w :
  createDataPipeline cfg p w
  = if configured cfg
    then (afterRequest w (submission cfg p),
          match apiResult (service w (sent w) (submission cfg p)) with
          | inr response =>
              match get_id response with
              | inr id =>
                  inr {| pipelineId := id;
                         created_name := PipelineDefinition.name p;
                         created_message :=
                           "Pipeline " ++ PipelineDefinition.name p
                                       ++ " created successfully" |}
              | inl e =>
                  inl (newError ("Failed to create data pipeline: "
                                   ++ String_of_error e))
              end
          | inl e =>
              inl (newError ("Failed to create data pipeline: "
                               ++ String_of_error e))
          end)
    else (w, inl (newError ("Failed to create data pipeline: "
                              ++ String_of_error credentialsRequired))).
Proof.
  unfold createDataPipeline, try_catch, bind at 1, submission.
  destruct (configured cfg) eqn:Hc.
  - rewrite makeApiRequest_run by exact Hc.
    destruct (apiResult _) as [e | response]; [ reflexivity |].
    unfold bind, lift_result, ret, throw.
    destruct (get_id response); reflexivity.
  - rewrite makeApiRequest_unconfigured by exact Hc. reflexivity.
Qed.

(** X4.  [createDataPipeline] returns normally exactly when token and
    workspace URL are set and the service answers the request with an OK
    response whose body parses to a JSON value other than [null] and
    [undefined]; the result then carries the [id] of that value and the name
    of the pipeline. *)
Theorem createDataPipeline_succeeds_iff :
  forall (cfg : Config) (p : PipelineDefinition.t) (w : World)
         (r : PipelineCreated),
    result_of (createDataPipeline cfg p w) = inr r
    <-> configured cfg = true
        /\ exists response j id,
            service w (sent w) (submission cfg p) = inr response
            /\ ok response = true
            /\ json response = inr j
            /\ get_id j = inr id
            /\ r = {| pipelineId := id;
                      created_name := PipelineDefinition.name p;
                      created_message :=
                        "Pipeline " ++ PipelineDefinition.name p
                                    ++ " created successfully" |}.
Proof.
  intros cfg p w r. rewrite createDataPipeline_run. unfold result_of.
  destruct (configured cfg); cbn [snd];
    [| split; [ discriminate | intros [H _]; discriminate H ] ].
  unfold apiResult.
  destruct (service w (sent w) (submission cfg p)) as [e | response] eqn:Es.
  { split; [ discriminate |].
    intros (_ & response & j & id & H & _). discriminate H. }
  destruct (ok response) eqn:Eok; cbn [negb].
  2: { split; [ discriminate |].
       intros (_ & r' & j & id & H & Hok & _). congruence. }
  destruct (json response) as [e | j] eqn:Ej.
  { split; [ discriminate |].
    intros (_ & r' & j & id & H & _ & Hj & _). congruence. }
  destruct (get_id j) as [e | id] eqn:Hid.
  { split; [ discriminate |].
    intros (_ & r' & j' & id & H & _ & Hj & Hid' & _). congruence. }
  split.
  - intros H. injection H as <-. split; [ reflexivity |].
    exists response, j, id. repeat split; assumption || reflexivity.
  - intros (_ & r' & j' & id' & H & _ & Hj & Hid' & ->).
    assert (r' = response) by congruence. subst r'.
    assert (j' = j) by congruence. subst j'.
    assert (id' = id) by congruence. subst id'. reflexivity.
Qed.

Lemma createDataPipeline_succeeds_iff_witness :
  result_of
    (createDataPipeline exampleConfig
       (masterPipelineDefinition "Y" [ "A" ] sequentialOptions) exampleWorld)
  = inr {| pipelineId := JStr "42";
           created_name := "Y";
           created_message := "Pipeline Y created successfully" |}.
Proof.
  apply (proj2 (createDataPipeline_succeeds_iff exampleConfig
                  (masterPipelineDefinition "Y" [ "A" ] sequentialOptions)
                  exampleWorld _)).
  split; [ reflexivity |].
  eexists. exists (JObj [ ("id", JStr "42") ]), (JStr "42").
  repeat split; reflexivity.
Defined.

(** X5.  A failing [createDataPipeline] always throws an [Error] whose
    message is [Failed to create data pipeline: ] followed by the cause.
    Without token or workspace URL nothing is sent and the cause is the
    missing-credentials error; when the service answers with a status that
    is not OK, the cause names status, status text and response body. *)
Theorem createDataPipeline_failures :
  forall (cfg : Config) (p : PipelineDefinition.t) (w : World),
    (forall e,
        result_of (createDataPipeline cfg p w) = inl e ->
        exists cause,
          e = newError ("Failed to create data pipeline: "
                          ++ String_of_error cause))
    /\ (configured cfg = false ->
        createDataPipeline cfg p w
        = (w,
           inl (newError
                  "Failed to create data pipeline: Error: Fabric token and workspace URL are required for pipeline operations")))
    /\ (forall response,
           configured cfg = true ->
           service w (sent w) (submission cfg p) = inr response ->
           ok response = false ->
           result_of (createDataPipeline cfg p w)
           = inl (newError
                    ("Failed to create data pipeline: Error: Fabric API error: "
                       ++ string_of_nat (status response) ++ " "
                       ++ statusText response ++ " - " ++ text response))).
Proof.
  intros cfg p w. rewrite createDataPipeline_run. split; [| split ].
  - intros e. unfold result_of. destruct (configured cfg); cbn [snd].
    + destruct (apiResult _) as [c | response].
      * intros H. injection H as <-. exists c. reflexivity.
      * destruct (get_id response) as [c | id]; [| discriminate ].
        intros H. injection H as <-. exists c. reflexivity.
    + intros H. injection H as <-. exists credentialsRequired. reflexivity.
  - intros ->. reflexivity.
  - intros response -> Hs Hok. unfold result_of. cbn [snd].
    unfold apiResult. rewrite Hs, Hok. reflexivity.
Qed.

Lemma createDataPipeline_failures_witness :
  createDataPipeline (Build_Config None None) repeatedChildMaster exampleWorld
  = (exampleWorld,
     inl (newError
            "Failed to create data pipeline: Error: Fabric token and workspace URL are required for pipeline operations")).
Proof.
  apply (proj1 (proj2 (createDataPipeline_failures (Build_Config None None)
                         repeatedChildMaster exampleWorld))).
  reflexivity.
Defined.

(** ** Schedule triggers *)

(** X6.  [createScheduledPipeline] first sends the PUT that creates the
    trigger and sends the POST that starts it only if the PUT succeeded;
    the POST carries no body; without credentials nothing is sent.  It
    returns normally exactly when both requests succeeded, so a trigger
    whose start failed has been created although the call throws. *)
Theorem createScheduledPipeline_requests :
  forall (cfg : Config) (pipelineName : string) (schedule : Schedule)
         (w : World),
    let put := triggerPut cfg pipelineName schedule in
    let start := triggerStart cfg pipelineName in
    let run := createScheduledPipeline cfg pipelineName schedule w in
    sent (world_of run)
    = (sent w
       ++ if configured cfg
          then put :: (if apiSucceeds (service w (sent w) put)
                       then [ start ] else [])
          else [])%list
    /\ body start = None
    /\ ((exists r, result_of run = inr r)
        <-> configured cfg = true
            /\ apiSucceeds (service w (sent w) put) = true
            /\ apiSucceeds (service w (sent w ++ [ put ]) start) = true).
Proof.
  intros cfg pipelineName schedule w. cbv zeta.
  unfold triggerPut, triggerStart, createScheduledPipeline.
  split; [| split; [ reflexivity |] ].
  - rewrite rethrow_sent. unfold world_of, bind at 1.
    destruct (configured cfg) eqn:Hc.
    + rewrite makeApiRequest_run by exact Hc.
      destruct (apiResult (service w (sent w) _)) as [e | j] eqn:Er.
      * destruct (apiSucceeds _) eqn:E; [| reflexivity ].
        apply apiResult_succeeds in E. destruct E as [j E]. congruence.
      * assert (Hs : apiSucceeds (service w (sent w)
                        (apiRequest cfg ("triggers/" ++ triggerName pipelineName)
                           "PUT" (Some (triggerBody pipelineName schedule))))
                     = true)
          by (apply apiResult_succeeds; eauto).
        rewrite Hs. unfold bind at 1.
        rewrite makeApiRequest_run by exact Hc.
        destruct (apiResult (service (afterRequest _ _) _ _));
          cbn [fst ret afterRequest sent]; rewrite <- app_assoc; reflexivity.
    + rewrite makeApiRequest_unconfigured by exact Hc. cbn [fst].
      now rewrite app_nil_r.
  - unfold rethrow, try_catch, result_of, bind at 1.
    destruct (configured cfg) eqn:Hc.
    + rewrite makeApiRequest_run by exact Hc.
      destruct (apiResult (service w (sent w) _)) as [e | j] eqn:Er.
      * cbn [snd]. split; [ intros [r H]; discriminate H |].
        intros (_ & H & _). apply apiResult_succeeds in H.
        destruct H as [j H]. congruence.
      * unfold bind at 1. rewrite makeApiRequest_run by exact Hc.
        cbn [afterRequest sent service].
        destruct (apiResult (service w (sent w ++ _) _))
          as [e | j'] eqn:Er'; cbn [snd].
        -- split; [ intros [r H]; discriminate H |].
           intros (_ & _ & H). apply apiResult_succeeds in H.
           destruct H as [j'' H]. congruence.
        -- split; [ intros _ | intros _; eexists; reflexivity ].
           split; [ reflexivity |].
           split; apply apiResult_succeeds; eexists; eassumption.
    + rewrite makeApiRequest_unconfigured by exact Hc. cbn [snd].
      split; [ intros [r H]; discriminate H | intros [H _]; discriminate H ].
Qed.

Lemma createScheduledPipeline_requests_witness :
  exists r,
    result_of
      (createScheduledPipeline exampleConfig "Nightly"
         {| frequency := Daily; interval := literal 1 eq_refl;
            startTime := "2026-01-01T00:00:00Z"; timeZone := None |}
         exampleWorld)
    = inr r.
Proof.
  apply (proj2 (proj2 (proj2 (createScheduledPipeline_requests exampleConfig
                                "Nightly"
                                {| frequency := Daily; interval := literal 1 eq_refl;
                                   startTime := "2026-01-01T00:00:00Z";
                                   timeZone := None |}
                                exampleWorld)))).
  repeat split; reflexivity.
Defined.

(** ** Data flows *)

Lemma map_combine_seq_shift (A B : Type) (f : nat -> A -> B) (l : list A) :
  forall k,
    map (fun p => f (fst p) (snd p)) (combine (seq (S k) (List.length l)) l)
    = map (fun p => f (S (fst p)) (snd p)) (combine (seq k (List.length l)) l).
Proof.
  induction l as [| x l IH]; intros k; simpl; [ reflexivity |].
  now rewrite IH.
Qed.

Lemma transformationBodies_run transformations :
  forall w,
    transformationBodies transformations w
    = (afterReads w (List.length transformations),
       inr (transformationEntries w transformations)).
Proof.
  unfold transformationEntries.
  induction transformations as [| t rest IH]; intros w.
  - destruct w. reflexivity.
  - cbn [transformationBodies]. unfold bind at 1, now at 1. cbn beta iota.
    unfold bind at 1. rewrite IH. unfold ret, afterReads.
    cbn [clock clock_reads service sent List.length seq combine map fst snd].
    f_equal; [ f_equal; lia |].
    f_equal. f_equal.
    rewrite (map_combine_seq_shift _ _ (transformationBody w)).
    apply map_ext. intros [i x]. unfold transformationBody.
    cbn [fst snd clock clock_reads]. now rewrite Nat.add_succ_r.
Qed.

(** What a call of [createDataFlow] does, case by case. *)
Lemma createDataFlow_run cfg dataFlow w :
  let n := List.length (DataFlowDefinition.transformations dataFlow) in
  let req :=
    apiRequest cfg ("dataflows/" ++ DataFlowDefinition.name dataFlow) "PUT"
      (Some (dataFlowBody dataFlow
               (transformationEntries w
                  (DataFlowDefinition.transformations dataFlow)))) in
  createDataFlow cfg dataFlow w
  = if configured cfg
    then (afterRequest (afterReads w n) req,
          match apiResult (service w (sent w) req) with
          | inr response =>
              match get_id response with
              | inr id =>
                  inr {| dataFlowId := id;
                         df_name := DataFlowDefinition.name dataFlow;
                         df_message :=
                           "Data flow " ++ DataFlowDefinition.name dataFlow
                                        ++ " created successfully" |}
              | inl e =>
                  inl (newError ("Failed to create data flow: "
                                   ++ String_of_error e))
              end
          | inl e =>
              inl (newError ("Failed to create data flow: "
                               ++ String_of_error e))
          end)
    else (afterReads w n,
          inl (newError ("Failed to create data flow: "
                           ++ String_of_error credentialsRequired))).
Proof.
  cbv zeta. unfold createDataFlow, try_catch, bind at 1.
  rewrite transformationBodies_run. unfold bind at 1.
  fold (dataFlowBody dataFlow
          (transformationEntries w
             (DataFlowDefinition.transformations dataFlow))).
  destruct (configured cfg) eqn:Hc.
  - rewrite makeApiRequest_run by exact Hc.
    cbn [afterReads service sent].
    destruct (apiResult _) as [e | response]; [ reflexivity |].
    unfold bind, lift_result, ret, throw.
    destruct (get_id response); reflexivity.
  - rewrite makeApiRequest_unconfigured by exact Hc. reflexivity.
Qed.

(** X7.  [createDataFlow] reads the clock once per transformation, before
    it looks at the credentials, and sends at most one request.  The entry
    the request carries for the transformation at position [i] keeps its
    script and is named [transform_] followed by the milliseconds of the
    [i]-th of these readings, so two transformations read in the same
    millisecond get the same name. *)
Theorem createDataFlow_transformation_names :
  forall (cfg : Config) (dataFlow : DataFlowDefinition.t) (w : World),
    let transformations := DataFlowDefinition.transformations dataFlow in
    let entries := transformationEntries w transformations in
    let run := createDataFlow cfg dataFlow w in
    clock_reads (world_of run) = List.length transformations + clock_reads w
    /\ sent (world_of run)
       = (sent w
          ++ if configured cfg
             then [ apiRequest cfg
                      ("dataflows/" ++ DataFlowDefinition.name dataFlow) "PUT"
                      (Some (dataFlowBody dataFlow entries)) ]
             else [])%list
    /\ List.length entries = List.length transformations
    /\ (forall i transform,
           nth_error transformations i = Some transform ->
           nth_error entries i
           = Some (JObj [ ("name",
                           JStr ("transform_"
                                   ++ string_of_Z
                                        (epoch_ms
                                           (clock w (i + clock_reads w)))));
                          ("script", JStr transform) ])).
Proof.
  intros cfg dataFlow w transformations entries run.
  pose proof (createDataFlow_run cfg dataFlow w) as Hrun. cbv zeta in Hrun.
  fold transformations in Hrun. fold entries in Hrun. fold run in Hrun.
  split; [| split; [| split ] ].
  - rewrite Hrun. destruct (configured cfg); reflexivity.
  - rewrite Hrun. destruct (configured cfg); cbn [world_of fst].
    + reflexivity.
    + cbn. now rewrite app_nil_r.
  - unfold entries, transformationEntries.
    now rewrite length_map, length_combine, length_seq, Nat.min_id.
  - intros i transform Hi. unfold entries, transformationEntries.
    rewrite nth_error_map, nth_error_combine_seq, Hi. reflexivity.
Qed.

Lemma createDataFlow_transformation_names_witness :
  nth_error (transformationEntries exampleWorld [ "filter"; "join" ]) 1
  = Some (JObj [ ("name", JStr "transform_1767225601000");
                 ("script", JStr "join") ]).
Proof.
  apply (proj2 (proj2 (proj2 (createDataFlow_transformation_names exampleConfig
                                (DataFlowDefinition.mk "F" None [] []
                                   [ "filter"; "join" ])
                                exampleWorld))) 1 "join").
  reflexivity.
Defined.

(** ** Batch deployment: further properties *)

(** The report of [deployPipelinePackage] in terms of the outcomes of the
    calls it makes. *)
Lemma deployPipelinePackage_run cfg packageName pipelines dataFlows w :
  let dfs := attemptAll (createDataFlow cfg) dataFlows w in
  let pls := attemptAll (createDataPipeline cfg) pipelines (fst dfs) in
  let errors :=
    (failureMessages dataFlowFailure (snd dfs)
     ++ failureMessages pipelineFailure (snd pls))%list in
  deployPipelinePackage cfg packageName pipelines dataFlows w
  = (fst pls,
     inr {| deploymentResults :=
              {| Fabric.packageName := packageName;
                 deployedPipelines :=
                   succeededNames PipelineDefinition.name (snd pls);
                 deployedDataFlows :=
                   succeededNames DataFlowDefinition.name (snd dfs);
                 Fabric.errors := errors |};
            dep_message :=
              "Package " ++ packageName ++ " deployment completed with "
                ++ string_of_nat (List.length errors) ++ " errors" |}).
Proof.
  cbv zeta.
  unfold deployPipelinePackage, rethrow, try_catch, bind at 1.
  unfold deployDataFlowStep.
  rewrite (forOf_try_catch (createDataFlow cfg)
             (fun r dataFlow =>
                recordDataFlow r (DataFlowDefinition.name dataFlow))
             (fun r dataFlow error =>
                recordError r (dataFlowFailure dataFlow error))).
  rewrite fold_recordDataFlow.
  unfold bind at 1, deployPipelineStep.
  rewrite (forOf_try_catch (createDataPipeline cfg)
             (fun r pipeline =>
                recordPipeline r (PipelineDefinition.name pipeline))
             (fun r pipeline error =>
                recordError r (pipelineFailure pipeline error))).
  rewrite fold_recordPipeline. reflexivity.
Qed.

Lemma attemptAll_all_fail (A B : Type) (f : A -> M B) (err : A -> JsError)
      (arr : list A) :
  (forall x w, exists w', f x w = (w', inl (err x)) /\ sent w' = sent w) ->
  forall w, exists w',
      attemptAll f arr w = (w', map (fun x => (x, inl (err x))) arr)
      /\ sent w' = sent w.
Proof.
  intros Hf. induction arr as [| x rest IH]; intros w.
  - exists w. split; reflexivity.
  - destruct (Hf x w) as (w1 & Hx & Hs1).
    destruct (IH w1) as (w2 & Hrest & Hs2).
    exists w2. cbn [attemptAll map]. rewrite Hx, Hrest.
    split; [ reflexivity | congruence ].
Qed.

Lemma failureMessages_all_fail (A B : Type) (message : A -> JsError -> string)
      (err : A -> JsError) (arr : list A) :
  failureMessages (B := B) message (map (fun x => (x, inl (err x))) arr)
  = map (fun x => message x (err x)) arr.
Proof.
  induction arr as [| x rest IH]; [ reflexivity |].
  cbn. now rewrite <- IH.
Qed.

Lemma succeededNames_all_fail (A B : Type) (name : A -> string)
      (err : A -> JsError) (arr : list A) :
  succeededNames (B := B) name (map (fun x => (x, inl (err x))) arr) = [].
Proof. induction arr as [| x rest IH]; [ reflexivity | exact IH ]. Qed.

(** X8.  Without token or workspace URL [deployPipelinePackage] still
    returns a report: nothing is sent, nothing is listed as deployed, and
    every data flow and every pipeline has its own error message, the data
    flows first. *)
Theorem deployPipelinePackage_without_credentials :
  forall (cfg : Config) (packageName : string)
         (pipelines : list PipelineDefinition.t)
         (dataFlows : list DataFlowDefinition.t) (w : World),
    configured cfg = false ->
    exists w' report,
      deployPipelinePackage cfg packageName pipelines dataFlows w
      = (w', inr report)
      /\ sent w' = sent w
      /\ deployedDataFlows (deploymentResults report) = []
      /\ deployedPipelines (deploymentResults report) = []
      /\ Fabric.errors (deploymentResults report)
         = (map (fun dataFlow =>
                   ("Failed to deploy data flow "
                      ++ DataFlowDefinition.name dataFlow
                      ++ ": Error: Failed to create data flow: Error: Fabric token and workspace URL are required for pipeline operations")%string)
                dataFlows
            ++ map (fun pipeline =>
                      ("Failed to deploy pipeline "
                         ++ PipelineDefinition.name pipeline
                         ++ ": Error: Failed to create data pipeline: Error: Fabric token and workspace URL are required for pipeline operations")%string)
                   pipelines)%list.
Proof.
  intros cfg packageName pipelines dataFlows w Hc.
  pose proof (deployPipelinePackage_run cfg packageName pipelines dataFlows w)
    as Hrun. cbv zeta in Hrun.
  destruct (attemptAll_all_fail _ _ (createDataFlow cfg)
              (fun _ => newError ("Failed to create data flow: "
                                    ++ String_of_error credentialsRequired))
              dataFlows) with (w := w) as (w1 & Hdf & Hs1).
  { intros x w0. pose proof (createDataFlow_run cfg x w0) as H.
    cbv zeta in H. rewrite Hc in H. eexists. split; [ exact H | reflexivity ]. }
  destruct (attemptAll_all_fail _ _ (createDataPipeline cfg)
              (fun _ => newError ("Failed to create data pipeline: "
                                    ++ String_of_error credentialsRequired))
              pipelines) with (w := w1) as (w2 & Hpl & Hs2).
  { intros x w0. rewrite createDataPipeline_run, Hc.
    eexists. split; reflexivity. }
  rewrite Hdf in Hrun. cbn [fst snd] in Hrun. rewrite Hpl in Hrun.
  cbn [fst snd] in Hrun.
  exists w2. eexists. split; [ exact Hrun |].
  cbn [deploymentResults deployedDataFlows deployedPipelines Fabric.errors].
  split; [ congruence |].
  split; [ apply succeededNames_all_fail |].
  split; [ apply succeededNames_all_fail |].
  rewrite !failureMessages_all_fail. reflexivity.
Qed.

Lemma deployPipelinePackage_without_credentials_witness :
  exists w' report,
    deployPipelinePackage (Build_Config None None) "Package"
      [ repeatedChildMaster ] [ namedDataFlow "X" ] exampleWorld
    = (w', inr report)
    /\ sent w' = []
    /\ List.length (Fabric.errors (deploymentResults report)) = 2.
Proof.
  destruct (deployPipelinePackage_without_credentials (Build_Config None None)
              "Package" [ repeatedChildMaster ] [ namedDataFlow "X" ]
              exampleWorld eq_refl)
    as (w' & report & Hrun & Hs & _ & _ & He).
  exists w', report. repeat split; [ exact Hrun | exact Hs |].
  rewrite He. reflexivity.
Defined.

Lemma succeededNames_subseq (A B : Type) (name : A -> string)
      (outcomes : list (A * (JsError + B))) :
  subseq (succeededNames name outcomes) (map name (map fst outcomes)).
Proof.
  induction outcomes as [| [x [e | v]] outcomes IH]; cbn.
  - constructor.
  - now apply subseq_skip.
  - now apply subseq_keep.
Qed.

(** X9.  The names [deployPipelinePackage] reports as deployed come in the
    order of its arguments: each list is the list of names of the data
    flows (of the pipelines) with the failed ones left out; and the message
    of the report counts the entries of the error list. *)
Theorem deployPipelinePackage_keeps_order :
  forall (cfg : Config) (packageName : string)
         (pipelines : list PipelineDefinition.t)
         (dataFlows : list DataFlowDefinition.t) (w : World),
  exists w' report,
    deployPipelinePackage cfg packageName pipelines dataFlows w
    = (w', inr report)
    /\ Fabric.packageName (deploymentResults report) = packageName
    /\ subseq (deployedDataFlows (deploymentResults report))
              (map DataFlowDefinition.name dataFlows)
    /\ subseq (deployedPipelines (deploymentResults report))
              (map PipelineDefinition.name pipelines)
    /\ dep_message report
       = "Package " ++ packageName ++ " deployment completed with "
           ++ string_of_nat
                (List.length (Fabric.errors (deploymentResults report)))
           ++ " errors".
Proof.
  intros cfg packageName pipelines dataFlows w.
  pose proof (deployPipelinePackage_run cfg packageName pipelines dataFlows w)
    as Hrun. cbv zeta in Hrun.
  eexists. eexists. split; [ exact Hrun |].
  cbn [deploymentResults deployedDataFlows deployedPipelines Fabric.errors
       Fabric.packageName dep_message].
  split; [ reflexivity |].
  split.
  { rewrite <- (attemptAll_items (createDataFlow cfg) dataFlows w) at 2.
    apply succeededNames_subseq. }
  split; [| reflexivity ].
  match goal with
  | |- context [attemptAll (createDataPipeline cfg) pipelines ?w1] =>
      rewrite <- (attemptAll_items (createDataPipeline cfg) pipelines w1) at 2
  end.
  apply succeededNames_subseq.
Qed.

(* ================================================================== *)
(** * Load pipelines *)

Lemma factLoadPipelineDefinition_activities factName sourceDataset
      targetDataset dimensionMappings :
  exists transform load,
    PipelineDefinition.activities
      (factLoadPipelineDefinition factName sourceDataset targetDataset
         dimensionMappings)
    = (map dimensionLookupActivity dimensionMappings
       ++ [ transform; load ])%list
    /\ PipelineActivity.name transform = "TransformFactData"
    /\ PipelineActivity.type transform = DataFlow
    /\ PipelineActivity.dependsOn transform
       = Some (map (fun mapping => "Lookup" ++ dimension mapping)
                   dimensionMappings)
    /\ PipelineActivity.name load = "LoadFactTable"
    /\ PipelineActivity.type load = Copy
    /\ PipelineActivity.dependsOn load = Some [ "TransformFactData" ].
Proof.
  unfold factLoadPipelineDefinition. cbn [PipelineDefinition.activities].
  rewrite (forEach_push_map dimensionLookupActivity).
  unfold push. cbn [app]. rewrite <- app_assoc.
  eexists. eexists. split; [ reflexivity |]. repeat split.
Qed.



(** ** Distinct inputs give acyclic graphs *)

Lemma map_snd_combine_seq (A : Type) (l : list A) :
  forall k, map snd (combine (seq k (List.length l)) l) = l.
Proof.
  induction l as [| x l IH]; intros k; cbn; [ reflexivity |].
  now rewrite IH.
Qed.

Lemma NoDup_snoc (l : list string) (x : string) :
  NoDup l -> ~ In x l -> NoDup (l ++ [ x ]).
Proof.
  intros Hl Hx. apply NoDup_app; [ exact Hl | |].
  - repeat constructor. intros [].
  - intros a Ha [<- | []]. contradiction.
Qed.

Lemma NoDup_map_append (p : string) (l : list string) :
  NoDup l -> NoDup (map (fun x => p ++ x) l).
Proof.
  induction 1 as [| x l Hx Hl IH]; cbn; constructor; [| exact IH ].
  intros Hin. apply in_map_iff in Hin. destruct Hin as (y & Hy & Hin).
  apply append_inj_l in Hy. subst y. contradiction.
Qed.

Lemma backwardRefs_NoDup_sound acts :
  backwardRefs acts -> NoDup (activityNames acts) ->
  noSelfRef acts /\ acyclic acts.
Proof.
  intros Hb Hnd. split.
  - now apply backwardRefs_NoDup_noSelfRef.
  - now apply backwardRefs_NoDup_acyclic.
Qed.

(** X12.  Conditions on the arguments under which the graph of a builder
    has no self reference and no cycle: always for the dimension load
    pipeline; for the fact load pipeline when the mapped dimensions are
    pairwise distinct; for the master pipeline when the child pipelines
    are; for the star-schema pipeline when the dimension and fact pipelines
    together are. *)
Theorem builders_acyclic_on_distinct_inputs :
  (forall dimensionName sourceDataset targetDataset naturalKeys scdType,
      let acts :=
        PipelineDefinition.activities
          (dimensionLoadPipelineDefinition dimensionName sourceDataset
             targetDataset naturalKeys scdType) in
      noSelfRef acts /\ acyclic acts)
  /\ (forall factName sourceDataset targetDataset dimensionMappings,
         NoDup (map dimension dimensionMappings) ->
         let acts :=
           PipelineDefinition.activities
             (factLoadPipelineDefinition factName sourceDataset targetDataset
                dimensionMappings) in
         noSelfRef acts /\ acyclic acts)
  /\ (forall name childPipelines options,
         NoDup childPipelines ->
         let acts :=
           PipelineDefinition.activities
             (masterPipelineDefinition name childPipelines options) in
         noSelfRef acts /\ acyclic acts)
  /\ (forall starSchemaName dimensionPipelines factPipelines,
         NoDup (dimensionPipelines ++ factPipelines) ->
         let acts :=
           PipelineDefinition.activities
             (starSchemaETLPipelineDefinition starSchemaName dimensionPipelines
                factPipelines) in
         noSelfRef acts /\ acyclic acts).
Proof.
  split; [| split; [| split ] ].
  - intros dimensionName sourceDataset targetDataset naturalKeys scdType acts.
    apply backwardRefs_NoDup_sound; [ apply dimensionLoad_backwardRefs |].
    unfold acts, dimensionLoadPipelineDefinition.
    destruct scdType; cbn;
      (apply NoDup_cons;
       [ intros [H | []]; discriminate H
       | apply NoDup_cons; [ intros [] | apply NoDup_nil ] ]).
  - intros factName sourceDataset targetDataset dimensionMappings Hnd acts.
    apply backwardRefs_NoDup_sound; [ apply factLoad_backwardRefs |].
    destruct (factLoadPipelineDefinition_activities factName sourceDataset
                targetDataset dimensionMappings)
      as (transform & load & Hacts & Hn & _ & _ & Hln & _).
    unfold acts. rewrite Hacts. unfold activityNames.
    rewrite map_app, map_map. cbn [map dimensionLookupActivity
                                       PipelineActivity.name].
    rewrite Hn, Hln.
    change [ "TransformFactData"; "LoadFactTable" ]
      with ([ "TransformFactData" ] ++ [ "LoadFactTable" ])%list.
    rewrite app_assoc.
    rewrite <- (map_map dimension (fun d => "Lookup" ++ d)).
    apply NoDup_snoc; [ apply NoDup_snoc |].
    + now apply NoDup_map_append.
    + intros Hin. apply in_map_iff in Hin. destruct Hin as (d & Hd & _).
      discriminate Hd.
    + intros Hin. apply in_app_or in Hin. destruct Hin as [Hin | [H | []]].
      * apply in_map_iff in Hin. destruct Hin as (d & Hd & _).
        discriminate Hd.
      * discriminate H.
  - intros name childPipelines options Hnd acts.
    apply backwardRefs_NoDup_sound; [ apply master_backwardRefs |].
    unfold acts. rewrite masterPipelineDefinition_activities.
    unfold activityNames. rewrite map_map.
    rewrite (map_ext _ (fun p => "Execute_" ++ snd p))
      by (intros [i x]; unfold masterActivity;
          destruct (dflt false (opt_sequential options)); reflexivity).
    rewrite <- (map_map snd (fun x => "Execute_" ++ x)), map_snd_combine_seq.
    now apply NoDup_map_append.
  - intros starSchemaName dimensionPipelines factPipelines Hnd acts.
    apply backwardRefs_NoDup_sound; [ apply starSchemaETL_backwardRefs |].
    destruct (starSchemaETLPipelineDefinition_activities starSchemaName
                dimensionPipelines factPipelines)
      as (qc & Hacts & Hn & _).
    unfold acts. rewrite Hacts. unfold activityNames.
    rewrite app_assoc, map_app, map_app, !map_map.
    cbn [map dimensionExecuteActivity factExecuteActivity
             PipelineActivity.name].
    rewrite Hn, <- map_app.
    apply NoDup_snoc; [ now apply NoDup_map_append |].
    intros Hin. apply in_map_iff in Hin. destruct Hin as (d & Hd & _).
    discriminate Hd.
Qed.

Lemma builders_acyclic_on_distinct_inputs_witness :
  acyclic
    (PipelineDefinition.activities
       (masterPipelineDefinition "Master" [ "A"; "B" ] sequentialOptions)).
Proof.
  refine (proj2 (proj1 (proj2 (proj2 builders_acyclic_on_distinct_inputs))
                   "Master" [ "A"; "B" ] sequentialOptions _)).
  repeat constructor; cbn; intuition discriminate.
Defined.

(* ================================================================== *)
(** * Options and defaults *)

(** X13.  For SCD type 1 and 3 dimension synthesis adds no SCD column: the
    columns are the surrogate key (marked primary key), the four audit
    columns and the caller's columns, and the table carries the SCD type
    that was asked for. *)
Theorem generateDimensionTable_without_scd_columns :
  forall (tableName businessName : string) (columns : list DimensionColumn.t)
         (options : DimensionOptions),
    dflt SCD2 (opt_scdType options) <> SCD2 ->
    let dim :=
      dimensionTable
        (generateDimensionTable tableName businessName columns options) in
    exists sk audit,
      DimensionTable.columns dim = (sk :: audit ++ columns)%list
      /\ DimensionColumn.name sk = DimensionTable.surrogateKey dim
      /\ DimensionColumn.isPrimaryKey sk = Some true
      /\ map DimensionColumn.name audit
         = [ "CreatedDate"; "ModifiedDate"; "CreatedBy"; "ModifiedBy" ]
      /\ DimensionTable.scdType dim = dflt SCD2 (opt_scdType options).
Proof.
  intros tableName businessName columns options Hscd dim.
  assert (Hcols := generateDimensionTable_columns tableName businessName
                     columns options).
  fold dim in Hcols.
  destruct (SCDType_eqb (dflt SCD2 (opt_scdType options)) SCD2) eqn:E.
  - exfalso. apply Hscd.
    destruct (dflt SCD2 (opt_scdType options)); (reflexivity || discriminate E).
  - eexists. exists auditColumns. split; [ exact Hcols |]. repeat split.
Qed.

Lemma generateDimensionTable_without_scd_columns_witness :
  exists sk audit,
    DimensionTable.columns
      (dimensionTable
         (generateDimensionTable "Currency" "Currency" []
            (Build_DimensionOptions (Some SCD3) None None None)))
    = (sk :: audit ++ [])%list
    /\ DimensionColumn.name sk = "Currency_SK".
Proof.
  destruct (generateDimensionTable_without_scd_columns "Currency" "Currency" []
              (Build_DimensionOptions (Some SCD3) None None None))
    as (sk & audit & Hc & Hn & _); [ discriminate |].
  exists sk, audit. split; assumption.
Defined.

(** X14.  The option [failOnError] of [createMasterPipeline] has no effect:
    the pipeline definition, the request sent and the result are the same
    whatever its value. *)
Theorem createMasterPipeline_ignores_failOnError :
  forall (cfg : Config) (name : string) (childPipelines : list string)
         (sequential : option bool) (description : option string)
         (failOnError1 failOnError2 : option bool) (w : World),
    masterPipelineDefinition name childPipelines
      (Build_MasterOptions sequential failOnError1 description)
    = masterPipelineDefinition name childPipelines
        (Build_MasterOptions sequential failOnError2 description)
    /\ createMasterPipeline cfg name childPipelines
         (Build_MasterOptions sequential failOnError1 description) w
       = createMasterPipeline cfg name childPipelines
           (Build_MasterOptions sequential failOnError2 description) w.
Proof. intros. split; reflexivity. Qed.

(** X15.  The option [partitionColumn] of [generateFactTable] has no
    effect: the fact table and the DDL are the same whatever its value. *)
Theorem generateFactTable_ignores_partitionColumn :
  forall (tableName businessName : string) (measures : list FactColumn.t)
         (dimensionKeys : list string)
         (grainDescription description : option string)
         (partitionColumn1 partitionColumn2 : option string),
    generateFactTable tableName businessName measures dimensionKeys
      (Build_FactOptions grainDescription description partitionColumn1)
    = generateFactTable tableName businessName measures dimensionKeys
        (Build_FactOptions grainDescription description partitionColumn2).
Proof. intros. reflexivity. Qed.







(* ================================================================== *)
(** * Tool listing and dispatch *)

Lemma nodupb_NoDup (l : list string) : nodupb l = true -> NoDup l.
Proof.
  induction l as [| x l IH]; cbn; intros H; constructor;
    apply andb_true_iff in H; destruct H as [Hx Hl].
  - intros Hin. apply negb_true_iff in Hx.
    assert (existsb (String.eqb x) l = true)
      by (apply existsb_exists; exists x; split;
          [ exact Hin | apply String.eqb_refl ]).
    congruence.
  - now apply IH.
Qed.

Lemma find_label (cases : list (string * string)) (name m : string) :
  NoDup (map fst cases) -> In (name, m) cases ->
  find (fun c => fst c =? name) cases = Some (name, m).
Proof.
  induction cases as [| [k v] cases IH]; intros Hnd Hin; [ destruct Hin |].
  cbn [map fst] in Hnd. apply NoDup_cons_iff in Hnd. destruct Hnd as [Hk Hnd].
  cbn [find fst]. destruct Hin as [Heq | Hin].
  - injection Heq as -> ->. now rewrite String.eqb_refl.
  - destruct (k =? name) eqn:E.
    + apply String.eqb_eq in E. subst k. exfalso. apply Hk.
      apply in_map_iff. exists (name, m). split; [ reflexivity | exact Hin ].
    + now apply IH.
Qed.

Lemma find_label_some (cases : list (string * string)) (name : string)
      (c : string * string) :
  find (fun c => fst c =? name) cases = Some c ->
  In (name, snd c) cases.
Proof.
  intros H. apply find_some in H. destruct H as [Hin Heq].
  apply String.eqb_eq in Heq. destruct c as [k v]. cbn in *. now subst k.
Qed.

Lemma dispatch_sound blocks av name g m :
  dispatch blocks av name = Some (g, m) ->
  exists block,
    In block blocks /\ tools_of block = g /\ av g = true
    /\ In (name, m) (cases_of block).
Proof.
  induction blocks as [| b blocks IH]; cbn [dispatch]; [ discriminate |].
  destruct (startsWith name (prefix_of b) && av (tools_of b))%bool eqn:E.
  - destruct (find _ (cases_of b)) as [c |] eqn:F.
    + intros H. injection H as <- <-. exists b.
      apply andb_true_iff in E. destruct E as [_ Hav].
      split; [ now left |]. split; [ reflexivity |]. split; [ exact Hav |].
      now apply find_label_some.
    + intros H. destruct (IH H) as (block & Hin & Hrest).
      exists block. split; [ now right | exact Hrest ].
  - intros H. destruct (IH H) as (block & Hin & Hrest).
    exists block. split; [ now right | exact Hrest ].
Qed.

Lemma dispatch_complete blocks av name block m :
  NoDup (caseLabels blocks) ->
  In block blocks -> av (tools_of block) = true ->
  startsWith name (prefix_of block) = true ->
  In (name, m) (cases_of block) ->
  dispatch blocks av name = Some (tools_of block, m).
Proof.
  induction blocks as [| b blocks IH]; intros Hnd Hin Hav Hpre Hcase;
    [ destruct Hin |].
  unfold caseLabels in Hnd. cbn [flat_map] in Hnd.
  fold (caseLabels blocks) in Hnd.
  cbn [dispatch]. destruct Hin as [-> | Hin].
  - rewrite Hpre, Hav. cbn [andb].
    rewrite (find_label _ name m); [ reflexivity | | exact Hcase ].
    now apply NoDup_app_remove_r in Hnd.
  - assert (Hrest : In name (caseLabels blocks)).
    { unfold caseLabels. apply in_flat_map. exists block.
      split; [ exact Hin |]. apply in_map_iff. now exists (name, m). }
    destruct (startsWith name (prefix_of b) && av (tools_of b))%bool.
    + destruct (find _ (cases_of b)) as [c |] eqn:F.
      * exfalso. apply find_label_some in F.
        assert (Hhere : In name (map fst (cases_of b)))
          by (apply in_map_iff; now exists (name, snd c)).
        clear - Hnd Hhere Hrest.
        induction (map fst (cases_of b)) as [| x l IHl]; [ destruct Hhere |].
        cbn in Hnd. apply NoDup_cons_iff in Hnd. destruct Hnd as [Hx Hnd].
        destruct Hhere as [-> | Hl]; [| now apply IHl ].
        apply Hx. apply in_or_app. now right.
      * apply IH; try assumption. now apply NoDup_app_remove_l in Hnd.
    + apply IH; try assumption. now apply NoDup_app_remove_l in Hnd.
Qed.

Lemma dispatchBlocks_NoDup : NoDup (caseLabels dispatchBlocks).
Proof. apply nodupb_NoDup. vm_compute. reflexivity. Qed.

Lemma dispatchBlocks_prefixes block c :
  In block dispatchBlocks -> In c (cases_of block) ->
  startsWith (fst c) (prefix_of block) = true.
Proof.
  assert (H : labelsMatchPrefix dispatchBlocks = true)
    by (vm_compute; reflexivity).
  unfold labelsMatchPrefix in H. rewrite forallb_forall in H.
  intros Hb Hc. specialize (H block Hb). rewrite forallb_forall in H.
  now apply H.
Qed.

Lemma listedTools_dispatchBlocks :
  listedTools
  = map (fun block => (tools_of block, map fst (cases_of block)))
        dispatchBlocks.
Proof. vm_compute. reflexivity. Qed.

(** X17.  A tool name is routed to a method exactly when the tool set of
    one of its routes is available; the route is then the one of the table,
    whichever other tool sets are available and although the prefix
    [fabric_] of one block is a prefix of [fabric_create_] of another. *)
Theorem callTool_routes :
  forall (av : Availability) (name : string) (g : ToolSet) (m : string),
    callTool av name = Some (g, m)
    <-> av g = true /\ In (name, (g, m)) (routes dispatchBlocks).
Proof.
  intros av name g m. unfold callTool, routes. split.
  - intros H. apply dispatch_sound in H.
    destruct H as (block & Hin & <- & Hav & Hcase).
    split; [ exact Hav |]. apply in_flat_map. exists block.
    split; [ exact Hin |]. apply in_map_iff. now exists (name, m).
  - intros [Hav Hin]. apply in_flat_map in Hin.
    destruct Hin as (block & Hb & Hin). apply in_map_iff in Hin.
    destruct Hin as ([k v] & Heq & Hc). cbn [fst snd] in Heq.
    injection Heq as -> <- ->.
    apply dispatch_complete; try assumption.
    + apply dispatchBlocks_NoDup.
    + exact (dispatchBlocks_prefixes block (name, m) Hb Hc).
Qed.

Lemma callTool_routes_witness :
  callTool (fun _ => true) "fabric_create_star_schema_etl"
  = Some (fabricPipelineTools, "createStarSchemaETLPipeline").
Proof.
  apply (proj2 (callTool_routes (fun _ => true)
                  "fabric_create_star_schema_etl" fabricPipelineTools
                  "createStarSchemaETLPipeline")).
  split; [ reflexivity |]. vm_compute. tauto.
Defined.

(** X18.  The tools the server lists are exactly the tools it can call:
    for every availability of the tool sets, a name is among the listed
    tools if and only if calling it reaches a method instead of the
    [Unknown tool] error. *)
Theorem listed_tools_are_the_callable_tools :
  forall (av : Availability) (name : string),
    In name (listTools av) <-> exists g m, callTool av name = Some (g, m).
Proof.
  intros av name. unfold listTools. rewrite listedTools_dispatchBlocks.
  split.
  - intros H. apply in_flat_map in H. destruct H as ([g names] & Hin & Hname).
    apply in_map_iff in Hin. destruct Hin as (block & Heq & Hb).
    injection Heq as <- <-. cbn [fst snd] in Hname.
    destruct (av (tools_of block)) eqn:Hav; [| destruct Hname ].
    apply in_map_iff in Hname. destruct Hname as ([k m] & Hk & Hc).
    cbn [fst] in Hk. subst k.
    exists (tools_of block), m. unfold callTool.
    apply dispatch_complete; try assumption.
    + apply dispatchBlocks_NoDup.
    + exact (dispatchBlocks_prefixes block (name, m) Hb Hc).
  - intros (g & m & H). unfold callTool in H. apply dispatch_sound in H.
    destruct H as (block & Hb & <- & Hav & Hc).
    apply in_flat_map. exists (tools_of block, map fst (cases_of block)).
    split; [ apply in_map_iff; now exists block |].
    cbn [fst snd]. rewrite Hav. apply in_map_iff. now exists (name, m).
Qed.

Lemma listed_tools_are_the_callable_tools_witness :
  In "dimensional_validate_star_schema" (listTools (fun _ => true)).
Proof.
  apply (proj2 (listed_tools_are_the_callable_tools (fun _ => true)
                  "dimensional_validate_star_schema")).
  exists dimensionalTools, "validateStarSchema". reflexivity.
Defined.

(** X19.  No tool of the server calls [createMasterPipeline],
    [deployPipelinePackage], [createDataFlow], [monitorPipelineExecution]
    or [generateETLMapping]: whatever the name and the available tool sets,
    the method a call is routed to is none of these. *)
Theorem undispatched_methods_are_unreachable :
  forall (av : Availability) (name : string) (g : ToolSet) (m : string),
    callTool av name = Some (g, m) -> ~ In m undispatchedMethods.
Proof.
  intros av name g m H Hm. unfold callTool in H. apply dispatch_sound in H.
  destruct H as (block & Hb & _ & _ & Hc).
  assert (Hall : forallb
                   (fun u => negb (existsb
                                     (fun r => snd (snd r) =? u)
                                     (routes dispatchBlocks)))
                   undispatchedMethods = true)
    by (vm_compute; reflexivity).
  rewrite forallb_forall in Hall. specialize (Hall m Hm).
  apply negb_true_iff in Hall.
  assert (Hex : existsb (fun r => snd (snd r) =? m) (routes dispatchBlocks)
                = true).
  { apply existsb_exists. exists (name, (tools_of block, m)).
    split; [| apply String.eqb_refl ].
    unfold routes. apply in_flat_map. exists block. split; [ exact Hb |].
    apply in_map_iff. now exists (name, m). }
  congruence.
Qed.

Lemma undispatched_methods_are_unreachable_witness :
  ~ In "createStarSchemaETLPipeline" undispatchedMethods.
Proof.
  apply (undispatched_methods_are_unreachable (fun _ => true)
           "fabric_create_star_schema_etl" fabricPipelineTools).
  reflexivity.
Defined.

(* ================================================================== *)
(** * Start of the server *)

Lemma ToolSet_eqb_eq (a b : ToolSet) : ToolSet_eqb a b = true <-> a = b.
Proof. destruct a, b; cbn; split; intros H; congruence. Qed.

Lemma constructAll_keeps sdk config todo av t :
  av t = true -> constructAll sdk config todo av t = true.
Proof.
  revert av. induction todo as [| u todo IH]; intros av H; cbn; [ exact H |].
  destruct (construct sdk config u); [| exact H ].
  apply IH. unfold assign. now rewrite H, Tauto.if_same.
Qed.

Lemma constructAll_available sdk config todo av t :
  constructAll sdk config todo av t = true
  <-> av t = true
      \/ exists before after,
          todo = (before ++ t :: after)%list
          /\ forall u, In u (before ++ [ t ])%list ->
                       construct sdk config u = true.
Proof.
  revert av. induction todo as [| u todo IH]; intros av; cbn [constructAll].
  - split; [ now left |]. intros [H | (before & after & H & _)];
      [ exact H | now destruct before ].
  - destruct (construct sdk config u) eqn:Hu.
    + rewrite IH. unfold assign. split.
      * intros [H | (before & after & -> & Hall)].
        -- destruct (ToolSet_eqb t u) eqn:E; [| now left ].
           apply ToolSet_eqb_eq in E. subst u. right. exists [], todo.
           split; [ reflexivity |]. intros v [<- | []]. exact Hu.
        -- right. exists (u :: before), after. split; [ reflexivity |].
           intros v [<- | Hv]; [ exact Hu | now apply Hall ].
      * intros [H | (before & after & Heq & Hall)].
        -- left. now rewrite H, Tauto.if_same.
        -- destruct before as [| v before]; cbn in Heq;
             injection Heq as <- ->.
           ++ left. now rewrite (proj2 (ToolSet_eqb_eq _ _) eq_refl).
           ++ right. exists before, after. split; [ reflexivity |].
              intros w Hw. apply Hall. now right.
    + split; [ now left |].
      intros [H | (before & after & Heq & Hall)]; [ exact H |].
      assert (construct sdk config u = true); [| congruence ].
      apply Hall. destruct before as [| v before]; cbn in Heq;
        injection Heq as <- _; now left.
Qed.

Lemma constructAll_all sdk config todo av t :
  (forall u, In u todo -> construct sdk config u = true) ->
  constructAll sdk config todo av t = true <-> av t = true \/ In t todo.
Proof.
  intros Hall. rewrite constructAll_available. split.
  - intros [H | (before & after & -> & _)]; [ now left | right ].
    apply in_or_app. right. now left.
  - intros [H | Hin]; [ now left | right ].
    apply in_split in Hin. destruct Hin as (before & after & ->).
    exists before, after. split; [ reflexivity |].
    intros u Hu. apply Hall. apply in_app_or in Hu. apply in_or_app.
    destruct Hu as [Hu | [<- | []]]; [ now left | right; now left ].
Qed.

Lemma attempted_core config :
  In dimensionalTools (attempted config)
  /\ In dataWarehouseTools (attempted config)
  /\ (In fabricPipelineTools (attempted config)
      <-> configured (orchestratorConfig config) = true).
Proof.
  unfold attempted, initSteps, configured, orchestratorConfig.
  cbn [flat_map fst snd Fabric.fabricToken Fabric.workspaceUrl].
  destruct (truthy_str (AzureConfig.dataLakeAccountName config)),
           (truthy_str (AzureConfig.storageAccountName config)),
           (truthy_str (AzureConfig.subscriptionId config)),
           (truthy_str (AzureConfig.databricksToken config)
            && truthy_str (AzureConfig.databricksWorkspaceUrl config))%bool,
           (truthy_str (AzureConfig.synapseToken config)
            && truthy_str (AzureConfig.synapseWorkspaceUrl config))%bool,
           (truthy_str (AzureConfig.fabricToken config)
            && truthy_str (AzureConfig.fabricWorkspaceUrl config))%bool;
    cbn; intuition congruence.
Qed.

Lemma initTools_fabricPipelineTools sdk config :
  initTools sdk config fabricPipelineTools = true ->
  configured (orchestratorConfig config) = true.
Proof.
  unfold initTools. rewrite constructAll_available.
  intros [H | (before & after & Heq & _)]; [ discriminate H |].
  apply (proj1 (proj2 (proj2 (attempted_core config)))).
  rewrite Heq. apply in_or_app. right. now left.
Qed.

(** X20.  After the start of the server a tool set holds an instance
    exactly when its construction is reached by the [try] block and neither
    it nor any construction before it has thrown: the first constructor
    that throws leaves every later tool set [null]. *)
Theorem initTools_available_iff :
  forall (sdk : Sdk) (config : AzureConfig.t) (t : ToolSet),
    initTools sdk config t = true
    <-> exists before after,
          attempted config = (before ++ t :: after)%list
          /\ forall u, In u (before ++ [ t ])%list ->
                       construct sdk config u = true.
Proof.
  intros sdk config t. unfold initTools. rewrite constructAll_available.
  split; [| now right ].
  intros [H | H]; [ discriminate H | exact H ].
Qed.

Lemma initTools_available_iff_witness :
  initTools (fun _ => true) databricksOnlyConfig dataWarehouseTools = false.
Proof.
  destruct (initTools (fun _ => true) databricksOnlyConfig dataWarehouseTools)
    eqn:E; [| reflexivity ].
  destruct (proj1 (initTools_available_iff (fun _ => true)
                     databricksOnlyConfig dataWarehouseTools) E)
    as (before & after & Heq & Hall).
  destruct before as [| u before]; [ discriminate Heq |].
  injection Heq as <- _.
  specialize (Hall databricksTools (or_introl eq_refl)). discriminate Hall.
Defined.

(** X21.  When no constructor throws, the dimensional-modeling and the
    data-warehouse tools are available whatever the configuration, and the
    pipeline tools are available exactly when the Fabric token and workspace
    URL are set. *)
Theorem core_tools_available_when_no_constructor_throws :
  forall (sdk : Sdk) (config : AzureConfig.t),
    (forall u, In u (attempted config) -> construct sdk config u = true) ->
    initTools sdk config dimensionalTools = true
    /\ initTools sdk config dataWarehouseTools = true
    /\ initTools sdk config fabricPipelineTools
       = configured (orchestratorConfig config).
Proof.
  intros sdk config Hall. unfold initTools.
  destruct (attempted_core config) as (Hd & Hw & Hf).
  split; [ apply (constructAll_all _ _ _ _ _ Hall); now right |].
  split; [ apply (constructAll_all _ _ _ _ _ Hall); now right |].
  destruct (configured (orchestratorConfig config)) eqn:E.
  - apply (constructAll_all _ _ _ _ _ Hall). right. now apply Hf.
  - destruct (constructAll sdk config (attempted config) (fun _ => false)
                fabricPipelineTools) eqn:F; [| reflexivity ].
    apply (constructAll_all _ _ _ _ _ Hall) in F.
    destruct F as [F | F]; [ discriminate F |].
    apply Hf in F. discriminate F.
Qed.

Lemma core_tools_available_when_no_constructor_throws_witness :
  initTools (fun _ => true)
    (AzureConfig.mk None None None None None None None None None None None
       None None None None) dimensionalTools = true.
Proof.
  refine (proj1 (core_tools_available_when_no_constructor_throws
                   (fun _ => true)
                   (AzureConfig.mk None None None None None None None None
                      None None None None None None None) _)).
  intros u Hu. vm_compute in Hu.
  destruct Hu as [<- | [<- | []]]; reflexivity.
Defined.

(** X22.  A configuration with the Databricks (or Synapse) token and URL
    but without subscription id loses the tools that need no credential:
    the Databricks (Synapse) constructor, or one before it, throws, so the
    dimensional-modeling, data-warehouse and pipeline tool sets stay
    [null], none of their tools is listed and none can be called. *)
Theorem core_tools_lost_without_subscription :
  forall (sdk : Sdk) (config : AzureConfig.t),
    truthy_str (AzureConfig.subscriptionId config) = false ->
    ((truthy_str (AzureConfig.databricksToken config)
      && truthy_str (AzureConfig.databricksWorkspaceUrl config))
     || (truthy_str (AzureConfig.synapseToken config)
         && truthy_str (AzureConfig.synapseWorkspaceUrl config)))%bool
    = true ->
    (forall t, In t coreToolSets -> initTools sdk config t = false)
    /\ (forall name g m,
           callTool (initTools sdk config) name = Some (g, m) ->
           ~ In g coreToolSets)
    /\ (forall t names,
           In t coreToolSets -> In (t, names) listedTools ->
           forall name, In name names ->
                        ~ In name (listTools (initTools sdk config))).
Proof.
  intros sdk config Hsub Hcred.
  assert (Hcore : forall t, In t coreToolSets ->
                            initTools sdk config t = false).
  { intros t Ht. unfold initTools, attempted, initSteps.
    cbn [flat_map fst snd]. rewrite Hsub.
    destruct (truthy_str (AzureConfig.databricksToken config)
              && truthy_str (AzureConfig.databricksWorkspaceUrl config))%bool,
             (truthy_str (AzureConfig.synapseToken config)
              && truthy_str (AzureConfig.synapseWorkspaceUrl config))%bool;
      try discriminate Hcred;
      destruct (truthy_str (AzureConfig.dataLakeAccountName config)) eqn:Hdl,
               (truthy_str (AzureConfig.storageAccountName config)) eqn:Hst;
      cbn [app constructAll construct]; rewrite ?Hdl, ?Hst, ?Hsub;
      cbn [negb];
      destruct (sdk dataLakeTools), (sdk storageTools);
      cbn [constructAll construct]; rewrite ?Hsub; cbn [negb];
      unfold assign;
      destruct Ht as [<- | [<- | [<- | []]]]; reflexivity. }
  split; [ exact Hcore |]. split.
  - intros name g m H Hg. unfold callTool in H. apply dispatch_sound in H.
    destruct H as (_ & _ & _ & Hav & _). rewrite (Hcore g Hg) in Hav.
    discriminate Hav.
  - intros t names Ht Hlisted name Hname Hin. unfold listTools in Hin.
    apply in_flat_map in Hin. destruct Hin as ([g ns] & Hg & Hn).
    cbn [fst snd] in Hn.
    destruct (initTools sdk config g) eqn:Hav; [| destruct Hn ].
    assert (Hcheck :
              forallb
                (fun a =>
                   forallb
                     (fun b =>
                        (ToolSet_eqb (fst a) (fst b)
                         || negb (existsb
                                    (fun n => existsb (String.eqb n) (snd b))
                                    (snd a)))%bool)
                     listedTools)
                listedTools = true) by (vm_compute; reflexivity).
    rewrite forallb_forall in Hcheck. specialize (Hcheck _ Hlisted).
    rewrite forallb_forall in Hcheck. specialize (Hcheck _ Hg).
    cbn [fst snd] in Hcheck. apply orb_true_iff in Hcheck.
    destruct Hcheck as [Heq | Hno].
    + apply ToolSet_eqb_eq in Heq. subst g. rewrite (Hcore t Ht) in Hav.
      discriminate Hav.
    + apply negb_true_iff in Hno.
      assert (existsb (fun n => existsb (String.eqb n) ns) names = true);
        [| congruence ].
      apply existsb_exists. exists name. split; [ exact Hname |].
      apply existsb_exists. exists name. split; [ exact Hn |].
      apply String.eqb_refl.
Qed.

Lemma core_tools_lost_without_subscription_witness :
  initTools (fun _ => true) databricksOnlyConfig dimensionalTools = false.
Proof.
  refine (proj1 (core_tools_lost_without_subscription (fun _ => true)
                   databricksOnlyConfig _ _) dimensionalTools _);
    [ reflexivity | reflexivity | now left ].
Defined.

(** X23.  A pipeline tool the server dispatches runs on an orchestrator
    that has token and workspace URL: the credentials error of
    [makeApiRequest] cannot occur through the server, and every request of
    the tool is sent to the service. *)
Theorem dispatched_pipeline_tool_is_configured :
  forall (sdk : Sdk) (config : AzureConfig.t) (name m : string),
    callTool (initTools sdk config) name = Some (fabricPipelineTools, m) ->
    configured (orchestratorConfig config) = true
    /\ forall endpoint method body w,
        makeApiRequest (orchestratorConfig config) endpoint method body w
        = (afterRequest w
             (apiRequest (orchestratorConfig config) endpoint method body),
           apiResult
             (service w (sent w)
                (apiRequest (orchestratorConfig config) endpoint method
                   body))).
Proof.
  intros sdk config name m H. unfold callTool in H.
  apply dispatch_sound in H. destruct H as (_ & _ & _ & Hav & _).
  apply initTools_fabricPipelineTools in Hav.
  split; [ exact Hav |]. intros endpoint method body w.
  now apply makeApiRequest_run.
Qed.

Lemma dispatched_pipeline_tool_is_configured_witness :
  configured
    (orchestratorConfig
       (AzureConfig.mk None None None None None None None None None None
          None None None (Some "token") (Some "https://fabric.example")))
  = true.
Proof.
  refine (proj1 (dispatched_pipeline_tool_is_configured (fun _ => true)
                   (AzureConfig.mk None None None None None None None None
                      None None None None None (Some "token")
                      (Some "https://fabric.example"))
                   "fabric_create_star_schema_etl"
                   "createStarSchemaETLPipeline" _)).
  reflexivity.
Defined.

(* ================================================================== *)
(** * Scripts assembled item by item *)

Lemma forEach_from_ext (A St : Type) (f g : St -> A -> nat -> St)
      (arr : list A) :
  (forall s x i, f s x i = g s x i) ->
  forall index s, forEach_from f index arr s = forEach_from g index arr s.
Proof.
  intros Hfg. induction arr as [| x rest IH]; intros index s; simpl;
    [ reflexivity |]. now rewrite Hfg, IH.
Qed.

Lemma forEach_sections (A : Type) (f : string -> A -> nat -> string)
      (g : A -> string) (arr : list A) (sql : string) :
  (forall s x i, f s x i = s ++ g x) ->
  forEach f arr sql = sql ++ String.concat EmptyString (map g arr).
Proof.
  intros Hf. rewrite <- forEach_append_concat. unfold forEach.
  now apply forEach_from_ext.
Qed.

Lemma concat_empty_app (l1 l2 : list string) :
  String.concat EmptyString (l1 ++ l2)%list
  = String.concat EmptyString l1 ++ String.concat EmptyString l2.
Proof.
  induction l1 as [| x l1 IH]; [ reflexivity |].
  assert (Hc : forall y (l : list string),
             String.concat EmptyString (y :: l)
             = y ++ String.concat EmptyString l).
  { intros y [| z l]; simpl; [ now rewrite append_nil_r | reflexivity ]. }
  rewrite <- app_comm_cons, !Hc, IH. now rewrite append_assoc.
Qed.

Lemma concat_empty_filter (A : Type) (keep : A -> bool) (g : A -> string)
      (l : list A) :
  String.concat EmptyString
    (map (fun x => if keep x then g x else EmptyString) l)
  = String.concat EmptyString (map g (filter keep l)).
Proof.
  assert (Hc : forall y (l : list string),
             String.concat EmptyString (y :: l)
             = y ++ String.concat EmptyString l).
  { intros y [| z l']; simpl; [ now rewrite append_nil_r | reflexivity ]. }
  induction l as [| x l IH]; [ reflexivity |].
  cbn [map filter]. rewrite Hc, IH.
  destruct (keep x); [ cbn [map]; now rewrite Hc | reflexivity ].
Qed.

(** X24.  The scripts of [createDataQualityFramework], [generateDataCatalog]
    and [generateDataMarts] are the script for no item followed by one
    section per item, in the order of the input; the section of an item
    depends on that item alone, so the script of a longer input extends the
    script of a shorter one. *)
Theorem warehouse_scripts_by_section :
  (forall rules,
      qualityFramework (createDataQualityFramework rules)
      = qualityFramework (createDataQualityFramework [])
          ++ String.concat EmptyString (map ruleSection rules))
  /\ (forall entries,
         cat_sqlScript (generateDataCatalog entries)
         = cat_sqlScript (generateDataCatalog [])
             ++ String.concat EmptyString (map catalogSection entries))
  /\ (forall starSchemas targetDatabase,
         mart_sqlScript (generateDataMarts starSchemas targetDatabase)
         = mart_sqlScript (generateDataMarts [] targetDatabase)
             ++ String.concat EmptyString (map martSection starSchemas)).
Proof.
  split; [| split ].
  - intros rules. unfold createDataQualityFramework.
    cbn [qualityFramework]. apply forEach_sections.
    intros s x i. unfold ruleSection. now rewrite append_assoc.
  - intros entries. unfold generateDataCatalog. cbn [cat_sqlScript].
    apply forEach_sections. intros s x i. unfold catalogSection.
    destruct (DataCatalogEntry.columns x) as [columns |]; cbn [dflt].
    + rewrite (forEach_sections _ _ catalogColumnInsert);
        [ now rewrite append_assoc | reflexivity ].
    + cbn [map String.concat]. now rewrite append_nil_r.
  - intros starSchemas targetDatabase. unfold generateDataMarts.
    cbn [mart_sqlScript]. apply forEach_sections.
    intros s x i. unfold martSection.
    now rewrite !append_assoc.
Qed.

(** X25.  The script of [generateStarSchema] holds the DDL of every
    dimension in the order given, then the DDL of the fact table, then the
    view unless [generateViews] is [false], then one SCD procedure for each
    dimension of SCD type 2, in order, and none for the others; the schema
    returned holds the fact and dimension tables as given. *)
Theorem generateStarSchema_script :
  forall (schemaName : string) (fact : FactTable.t)
         (dims : list DimensionTable.t) (options : StarSchemaOptions),
    let result := generateStarSchema schemaName fact dims options in
    let description := dflt EmptyString (opt_schemaDescription options) in
    star_sqlScript result
    = starSchemaHeader schemaName description
        ++ String.concat EmptyString
             (map (fun dim => generateDimensionSQL dim schemaName ++ LF ++ LF)
                  dims)
        ++ generateFactSQL fact "DateKey" schemaName
        ++ (if dflt true (opt_generateViews options)
            then LF ++ LF ++ "-- Views" ++ LF
                   ++ generateStarSchemaView (starSchema result) schemaName
            else EmptyString)
        ++ String.concat EmptyString
             (map (fun dim =>
                     LF ++ LF ++ generateSCDStoredProcedure dim schemaName)
                  (filter isSCD2 dims))
    /\ StarSchema.factTable (starSchema result) = fact
    /\ StarSchema.dimensionTables (starSchema result) = dims
    /\ StarSchema.name (starSchema result) = schemaName.
Proof.
  intros schemaName fact dims options result description.
  split; [| repeat split ].
  unfold result, generateStarSchema. cbn [star_sqlScript starSchema].
  fold description.
  rewrite (forEach_sections _ _
             (fun dim => if isSCD2 dim
                         then LF ++ LF
                                ++ generateSCDStoredProcedure dim schemaName
                         else EmptyString)).
  2: { intros s x i. unfold isSCD2.
       destruct (SCDType_eqb (DimensionTable.scdType x) SCD2);
         [ now rewrite !append_assoc | now rewrite append_nil_r ]. }
  rewrite (concat_empty_filter _ isSCD2
             (fun dim => LF ++ LF
                           ++ generateSCDStoredProcedure dim schemaName)).
  rewrite (forEach_sections _ _
             (fun dim => generateDimensionSQL dim schemaName ++ LF ++ LF)).
  2: { intros s x i. now rewrite !append_assoc. }
  unfold starSchemaHeader.
  destruct (dflt true (opt_generateViews options));
    rewrite ?append_assoc; cbn [append]; rewrite ?append_assoc; reflexivity.
Qed.

(** X26.  [generateDataQualityRule] reads the parameters of a rule of type
    Range only; and for the types Format, Lookup and Custom it emits the
    same placeholder procedure, which does not depend on the type or the
    parameters of the rule. *)
Theorem rule_parameters_and_placeholder_types :
  forall (name description column table : string) (severity : Severity)
         (ruleType1 ruleType2 : RuleType)
         (parameters1 parameters2 : option (list (string * JsValue))),
    (ruleType1 <> Range ->
     generateDataQualityRule
       (DataQualityRule.mk name description ruleType1 column table
          parameters1 severity)
     = generateDataQualityRule
         (DataQualityRule.mk name description ruleType1 column table
            parameters2 severity))
    /\ (implemented ruleType1 = false -> implemented ruleType2 = false ->
        generateDataQualityRule
          (DataQualityRule.mk name description ruleType1 column table
             parameters1 severity)
        = generateDataQualityRule
            (DataQualityRule.mk name description ruleType2 column table
               parameters2 severity)).
Proof.
  intros name description column table severity ruleType1 ruleType2
         parameters1 parameters2. split.
  - intros H. destruct ruleType1; (reflexivity || now elim H).
  - intros H1 H2. destruct ruleType1; try discriminate H1;
      destruct ruleType2; try discriminate H2; reflexivity.
Qed.

Lemma rule_parameters_and_placeholder_types_witness :
  generateDataQualityRule
    (DataQualityRule.mk "r" "d" Format "c" "t"
       (Some [ ("pattern", JStr "x") ]) SevError)
  = generateDataQualityRule
      (DataQualityRule.mk "r" "d" Custom "c" "t" None SevError).
Proof.
  refine (proj2 (rule_parameters_and_placeholder_types "r" "d" "c" "t"
                   SevError Format Custom (Some [ ("pattern", JStr "x") ])
                   None) _ _); reflexivity.
Defined.

Lemma substring_toLowerCase (n : nat) (s : string) :
  substring 0 n (toLowerCase s) = toLowerCase (substring 0 n s).
Proof.
  revert s. induction n as [| n IH]; intros [| c s]; cbn; try reflexivity.
  now rewrite IH.
Qed.

Lemma substring_prefix (p r : string) :
  substring 0 (String.length p) (p ++ r) = p.
Proof.
  induction p as [| c p IH]; cbn; [ now destruct r |]. now rewrite IH.
Qed.

Lemma dimensionAlias_aliasOf (dim : DimensionTable.t) :
  dimensionAlias dim = aliasOf (DimensionTable.name dim).
Proof. unfold dimensionAlias, aliasOf. apply substring_toLowerCase. Qed.

(** X27.  For dimensions whose names begin with ASCII characters, the view
    of [generateStarSchemaView] selects the measures and then [alias.*]
    for every dimension, and joins every dimension under its alias on
    [f.[<name>Key]], where the alias is the first three characters of the
    name in lower case.  So two dimensions whose names start with the same
    three characters, as [DimCustomer] and [DimProduct] do, are joined
    under the same alias. *)
Theorem view_alias_from_first_three_characters :
  forall (starSchema : StarSchema.t) (schemaName : string),
    (forall dim, In dim (StarSchema.dimensionTables starSchema) ->
                 isAscii (substring 0 3 (DimensionTable.name dim)) = true) ->
    generateStarSchemaView starSchema schemaName
    = "-- Star Schema View: " ++ StarSchema.name starSchema ++ LF
        ++ "CREATE VIEW [" ++ schemaName ++ "].[v_"
        ++ StarSchema.name starSchema ++ "] AS" ++ LF
        ++ "SELECT " ++ LF
        ++ join ("," ++ LF)
             (List.app
                (map (fun measure => "    f.[" ++ measure ++ "]")
                     (FactTable.measures (StarSchema.factTable starSchema)))
                (map (fun dim =>
                        "    " ++ aliasOf (DimensionTable.name dim) ++ ".*")
                     (StarSchema.dimensionTables starSchema)))
        ++ LF ++ "FROM [" ++ schemaName ++ "].["
        ++ FactTable.name (StarSchema.factTable starSchema) ++ "] f" ++ LF
        ++ String.concat EmptyString
             (map (viewJoin schemaName)
                  (StarSchema.dimensionTables starSchema))
        ++ ";" ++ LF
    /\ forall d1 d2 p r1 r2,
        In d1 (StarSchema.dimensionTables starSchema) ->
        In d2 (StarSchema.dimensionTables starSchema) ->
        String.length p = 3 ->
        DimensionTable.name d1 = p ++ r1 ->
        DimensionTable.name d2 = p ++ r2 ->
        aliasOf (DimensionTable.name d1) = toLowerCase p
        /\ viewJoin schemaName d2
           = "LEFT JOIN [" ++ schemaName ++ "].[" ++ DimensionTable.name d2
               ++ "] " ++ aliasOf (DimensionTable.name d1) ++ " ON f.["
               ++ DimensionTable.name d2 ++ "Key] = "
               ++ aliasOf (DimensionTable.name d1) ++ ".["
               ++ DimensionTable.surrogateKey d2 ++ "]" ++ LF
               ++ (if SCDType_eqb (DimensionTable.scdType d2) SCD2
                   then "    AND " ++ aliasOf (DimensionTable.name d1)
                          ++ ".[IsCurrent] = 1" ++ LF
                   else EmptyString).
Proof.
  intros starSchema schemaName _. split.
  - unfold generateStarSchemaView.
    rewrite (forEach_sections _ _ (viewJoin schemaName)).
    + rewrite (map_ext (fun dim => "    " ++ dimensionAlias dim ++ ".*")
                       (fun dim => "    " ++ aliasOf (DimensionTable.name dim)
                                          ++ ".*"))
        by (intros dim; now rewrite dimensionAlias_aliasOf).
      now rewrite !append_assoc.
    + intros s dim i. unfold viewJoin. rewrite dimensionAlias_aliasOf.
      destruct (SCDType_eqb (DimensionTable.scdType dim) SCD2);
        rewrite !append_assoc; [ reflexivity | now rewrite append_nil_r ].
  - intros d1 d2 p r1 r2 _ _ Hp H1 H2.
    assert (Halias : forall r, aliasOf (p ++ r) = toLowerCase p)
      by (intros r; unfold aliasOf; now rewrite <- Hp, substring_prefix).
    split; [ now rewrite H1 |].
    unfold viewJoin. now rewrite H1, H2, !Halias.
Qed.

Lemma view_alias_from_first_three_characters_witness :
  aliasOf "DimCustomer" = "dim"
  /\ viewJoin "dw"
       (dimensionTable (generateDimensionTable "DimProduct" "Product" []
                          noDimensionOptions))
     = "LEFT JOIN [dw].[DimProduct] dim ON f.[DimProductKey] = "
         ++ "dim.[DimProduct_SK]" ++ LF
         ++ "    AND dim.[IsCurrent] = 1" ++ LF.
Proof.
  refine (proj2 (view_alias_from_first_three_characters
                   (StarSchema.mk "Sales" None
                      (factTable (generateFactTable "FactSales" "Sales" []
                                    [ "DimCustomerKey"; "DimProductKey" ]
                                    noFactOptions))
                      [ dimensionTable
                          (generateDimensionTable "DimCustomer" "Customer" []
                             noDimensionOptions);
                        dimensionTable
                          (generateDimensionTable "DimProduct" "Product" []
                             noDimensionOptions) ])
                   "dw" _)
            (dimensionTable
               (generateDimensionTable "DimCustomer" "Customer" []
                  noDimensionOptions))
            (dimensionTable
               (generateDimensionTable "DimProduct" "Product" []
                  noDimensionOptions))
            "Dim" "Customer" "Product" _ _ _ _ _).
  - intros dim [<- | [<- | []]]; reflexivity.
  - now left.
  - right. now left.
  - reflexivity.
  - reflexivity.
  - reflexivity.
Defined.

(* ================================================================== *)
(** * What the core operations do to their environment *)







